(** * Taste Engine: a shallow embedding of the configuration core

    The development follows the TypeScript sources of the repository:

    - [core/engine.ts]: the default recipe tables, [normalizeThemePack],
      and the [ThemeEngine] methods [getRecipesForContext] and [applyTheme];
    - the React bindings: [useTuners], with [setTuner] and [syncToURL];
    - the MCP server: [KNOWN_REFERENCES] and [deriveTasteFromInspirations],
      in exact arithmetic ([Taste]) and in binary64 ([Binary64]);
    - further methods of [ThemeEngine]: [getCurrentTheme],
      [getCurrentContext] and [initThemeFromUrl];
    - further tools of the MCP server: [PAGE_ARCHETYPES],
      [proposePagePlan], [generatePatch] with its two templates, and
      [verifyUI];
    - the inspiration scanner: [extractFromDescription], and the tuners
      that [PatternLearner.learn] derives with [averageEnum].

    Modelling conventions.

    - A JavaScript number is an exact rational ([Q]), except in
      [Binary64].  Rounding of binary64 arithmetic, overflow and underflow
      are outside the exact model: what is proved in it about sums,
      products and quotients of weights is stated for comparisons, for
      bounds that rounding cannot reach, and for weights in the
      documented range from 0 to 1.  Where the code can divide by zero,
      the result type is [option Q]: [None] stands for a number that is
      not finite (NaN or an infinity).
    - In [Binary64] a JavaScript number is an IEEE 754 binary64 value
      ([float]), and [+], [*] and [/] round to the nearest double as
      JavaScript's do.  What the blend computes to the last digit is
      stated there.
    - A JavaScript string is a [string] of 8-bit characters; case mapping
      and the whitespace class are the ASCII ones.
    - A plain object is the list of its own enumerable properties in
      enumeration order; the keys the code uses are never integer-like.
    - Code that can throw returns a [result]. *)

From Stdlib Require Import String Ascii List Bool Arith ZArith QArith Qround
  Qminmax Lia Lqa DecimalString Permutation Floats.
Import ListNotations.

Set Warnings "-register-all".
Set Warnings "-inexact-float".

(* ===================================================================== *)
(** * JavaScript values *)
(* ===================================================================== *)

Module Js.

(** The errors the modelled code can raise. *)
Inductive ErrorCode := InvalidRequest | MethodNotFound | InternalError.

Inductive error :=
| TypeError
| McpError (code : ErrorCode) (message : string).

Inductive result (A : Type) :=
| Ok (a : A)
| Throw (e : error).

Arguments Ok {A} a.
Arguments Throw {A} e.

Definition bind {A B} (m : result A) (k : A -> result B) : result B :=
  match m with
  | Ok a => k a
  | Throw e => Throw e
  end.

(** Dynamically typed data: what a theme's [recipes] field can hold. *)
Inductive value :=
| VUndefined
| VNull
| VBool (b : bool)
| VNum (q : Q)
| VStr (s : string)
| VArr (items : list value)
| VObj (props : list (string * value)).

(** [ToBoolean]. *)
Definition truthy (v : value) : bool :=
  match v with
  | VUndefined | VNull => false
  | VBool b => b
  | VNum q => negb (Qeq_bool q 0)
  | VStr s => negb (String.eqb s EmptyString)
  | VArr _ | VObj _ => true
  end.

Fixpoint lookup (k : string) (props : list (string * value)) : option value :=
  match props with
  | [] => None
  | (k', v) :: rest => if String.eqb k k' then Some v else lookup k rest
  end.

(** Assignment of one property: an existing key keeps its place. *)
Fixpoint set_prop (k : string) (v : value) (props : list (string * value))
  : list (string * value) :=
  match props with
  | [] => [(k, v)]
  | (k', v') :: rest =>
      if String.eqb k k' then (k, v) :: rest
      else (k', v') :: set_prop k v rest
  end.

(** [v.k] for the recipe names the engine reads (never [length], an
    index or a method name): only an object has such a property, a
    missing one reads as [undefined], and reading from [undefined] or
    [null] throws. *)
Definition get (v : value) (k : string) : result value :=
  match v with
  | VUndefined | VNull => Throw TypeError
  | VObj props =>
      match lookup k props with
      | Some x => Ok x
      | None => Ok VUndefined
      end
  | _ => Ok VUndefined
  end.

(** [v?.k]. *)
Definition get_opt (v : value) (k : string) : result value :=
  match v with
  | VUndefined | VNull => Ok VUndefined
  | _ => get v k
  end.

(** [k in v]: a [TypeError] when [v] is not an object. *)
Definition has_in (k : string) (v : value) : result bool :=
  match v with
  | VObj props =>
      Ok (match lookup k props with Some _ => true | None => false end)
  | VArr _ => Ok false
  | _ => Throw TypeError
  end.

Definition index_key (n : nat) : string :=
  NilEmpty.string_of_uint (Nat.to_uint n).

Fixpoint indexed (n : nat) (items : list value) : list (string * value) :=
  match items with
  | [] => []
  | x :: rest => (index_key n, x) :: indexed (S n) rest
  end.

Fixpoint chars (s : string) : list value :=
  match s with
  | EmptyString => []
  | String c rest => VStr (String c EmptyString) :: chars rest
  end.

(** The own enumerable properties that [{...v}] copies. *)
Definition own_props (v : value) : list (string * value) :=
  match v with
  | VObj props => props
  | VArr items => indexed 0 items
  | VStr s => indexed 0 (chars s)
  | _ => []
  end.

(** Object literals: [{ ...a, k: v, ... }], evaluated left to right. *)
Inductive item :=
| Spread (v : value)
| Field (k : string) (v : value).

Definition add_item (props : list (string * value)) (i : item)
  : list (string * value) :=
  match i with
  | Spread v => fold_left (fun acc kv => set_prop (fst kv) (snd kv) acc)
                          (own_props v) props
  | Field k v => set_prop k v props
  end.

Definition object (items : list item) : value :=
  VObj (fold_left add_item items []).

(** [v === 'text']. *)
Definition is_str (v : value) (text : string) : bool :=
  match v with
  | VStr s => String.eqb s text
  | _ => false
  end.

(** ASCII [toLowerCase]. *)
Definition lower_char (c : ascii) : ascii :=
  let n := nat_of_ascii c in
  if (65 <=? n) && (n <=? 90) then ascii_of_nat (n + 32) else c.

Fixpoint toLowerCase (s : string) : string :=
  match s with
  | EmptyString => EmptyString
  | String c rest => String (lower_char c) (toLowerCase rest)
  end.

Definition is_upper (c : ascii) : bool :=
  let n := nat_of_ascii c in (65 <=? n) && (n <=? 90).

(** The ASCII members of the regular-expression class [\s]. *)
Definition is_space (c : ascii) : bool :=
  let n := nat_of_ascii c in ((9 <=? n) && (n <=? 13)) || (n =? 32).

(** [s.replace(/\s+/g, '-')]: every maximal run of whitespace becomes
    one hyphen. *)
Fixpoint hyphenate (in_run : bool) (s : string) : string :=
  match s with
  | EmptyString => EmptyString
  | String c rest =>
      if is_space c
      then (if in_run then hyphenate true rest
            else String "-" (hyphenate true rest))
      else String c (hyphenate false rest)
  end.

(** [key.replace(/([A-Z])/g, '-$1')]. *)
Fixpoint dash_capitals (s : string) : string :=
  match s with
  | EmptyString => EmptyString
  | String c rest =>
      if is_upper c then String "-" (String c (dash_capitals rest))
      else String c (dash_capitals rest)
  end.

End Js.

Declare Scope js_scope.
Delimit Scope js_scope with js.
Notation "x <- m ;; k" := (Js.bind m (fun x => k))
  (at level 61, m at next level, right associativity) : js_scope.

(* ===================================================================== *)
(** * The theme engine ([core/types.ts], [core/engine.ts]) *)
(* ===================================================================== *)

Module Engine.
Import Js.
Local Open Scope string_scope.
Local Open Scope js_scope.

Inductive ThemeMode := dark | light.
Inductive PageContext := product | marketing.

Definition mode_name (m : ThemeMode) : string :=
  match m with dark => "dark" | light => "light" end.

Definition context_name (c : PageContext) : string :=
  match c with product => "product" | marketing => "marketing" end.

Definition is_dark (m : ThemeMode) : bool :=
  match m with dark => true | light => false end.

Record TypeScaleToken := {
  fontSize : string;
  fontWeight : string;
  letterSpacing : string;
  lineHeight : string;
  textTransform : option string
}.

(** [typeScale] and [density] are held as [Object.entries] lists them. *)
Record ThemeTokens := {
  bg : string;
  surface : string;
  surface2 : string;
  surfaceInset : string;
  border : string;
  borderSubtle : string;
  text : string;
  textMuted : string;
  accent : string;
  accentFg : string;
  accentMuted : string;
  accentSecondary : string;
  ring : string;
  success : string;
  successMuted : string;
  warning : string;
  warningMuted : string;
  danger : string;
  dangerMuted : string;
  shadowSurface : string;
  shadowPopover : string;
  shadowGlow : string;
  radiusSurface : string;
  radiusControl : string;
  typeScale : list (string * TypeScaleToken);
  density : list (string * string)
}.

(** A theme pack as [normalizeThemePack] receives it: [name], [mode] and
    [tokens] are required, [recipes] is whatever the caller supplied
    ([VUndefined] when the property is absent). *)
Record ThemePack := {
  name : string;
  mode : ThemeMode;
  tokens : ThemeTokens;
  recipes : value
}.

Definition str (s : string) : value := VStr s.
Definition num (q : Q) : value := VNum q.
Definition bool_ (b : bool) : value := VBool b.

(** A literal without spreads; its keys are distinct. *)
Definition lit (fields : list (string * value)) : value :=
  object (map (fun kv => Field (fst kv) (snd kv)) fields).

Definition getProductMediaRecipes (mode : ThemeMode) : value :=
  lit [
    ("icon", lit [
      ("defaultSize", num 16);
      ("compactSize", num 14);
      ("largeSize", num 24);
      ("strokeWidth", num 1.5);
      ("mutedOpacity", str "0.5");
      ("colorMode", str "currentColor") ]);
    ("placeholder", lit [
      ("style", str "skeleton");
      ("shimmer", bool_ true);
      ("shimmerDirection", str "ltr");
      ("baseColor", str (if is_dark mode then "surface-inset" else "surface-2"));
      ("highlightColor", str (if is_dark mode then "surface" else "surface"));
      ("borderRadius", str "var(--ds-radius-control)") ]);
    ("backgroundMotif", lit [
      ("heroMotif", str "none");
      ("motifOpacity", str "0");
      ("motifColor", str "border") ]) ].

Definition getMarketingMediaRecipes (mode : ThemeMode) : value :=
  lit [
    ("icon", lit [
      ("defaultSize", num 20);
      ("compactSize", num 16);
      ("largeSize", num 32);
      ("strokeWidth", num 1.5);
      ("mutedOpacity", str "0.6");
      ("colorMode", str "accent") ]);
    ("placeholder", lit [
      ("style", str (if is_dark mode then "blur" else "skeleton"));
      ("shimmer", bool_ (negb (is_dark mode)));
      ("shimmerDirection", str "ltr");
      ("baseColor", str (if is_dark mode then "surface/50" else "surface-2"));
      ("highlightColor", str (if is_dark mode then "accent/10" else "surface"));
      ("borderRadius", str "var(--ds-radius-surface)") ]);
    ("backgroundMotif", lit [
      ("heroMotif", str (if is_dark mode then "radialGlow" else "dots"));
      ("motifSpacing", str "32px");
      ("motifOpacity", str (if is_dark mode then "0.15" else "0.08"));
      ("motifColor", str (if is_dark mode then "accent" else "border")) ]) ].

Definition getProductMotionRecipes : value :=
  lit [
    ("durations", lit [
      ("instant", num 50);
      ("fast", num 150);
      ("normal", num 200);
      ("slow", num 300);
      ("deliberate", num 500) ]);
    ("easings", lit [
      ("default", str "cubic-bezier(0.4, 0, 0.2, 1)");
      ("enter", str "cubic-bezier(0, 0, 0.2, 1)");
      ("exit", str "cubic-bezier(0.4, 0, 1, 1)");
      ("spring", str "cubic-bezier(0.34, 1.56, 0.64, 1)") ]);
    ("behavior", lit [
      ("enabled", bool_ true);
      ("loadingStyle", str "shimmer");
      ("hoverTransition", str "fast");
      ("entranceAnimation", str "none");
      ("staggerDelay", num 0) ]) ].

Definition getMarketingMotionRecipes : value :=
  lit [
    ("durations", lit [
      ("instant", num 50);
      ("fast", num 200);
      ("normal", num 300);
      ("slow", num 500);
      ("deliberate", num 800) ]);
    ("easings", lit [
      ("default", str "cubic-bezier(0.4, 0, 0.2, 1)");
      ("enter", str "cubic-bezier(0.22, 1, 0.36, 1)");
      ("exit", str "cubic-bezier(0.4, 0, 1, 1)");
      ("spring", str "cubic-bezier(0.34, 1.56, 0.64, 1)") ]);
    ("behavior", lit [
      ("enabled", bool_ true);
      ("loadingStyle", str "pulse");
      ("hoverTransition", str "normal");
      ("entranceAnimation", str "slideUp");
      ("staggerDelay", num 50) ]) ].

Definition section (type id motion : string) (withMotifs : bool)
  (signatureBlock : value) : value :=
  lit [ ("type", str type); ("id", str id); ("motion", str motion);
        ("withMotifs", bool_ withMotifs); ("signatureBlock", signatureBlock) ].

Definition getMarketingNarrativeRecipes (mode : ThemeMode) : value :=
  let isDark := is_dark mode in
  lit [
    ("motifs", lit [
      ("layers", VArr [
        lit [ ("type", str "grid");
              ("opacity", num (if isDark then 0.03 else 0.02));
              ("color", str (if isDark then "accent" else "border"));
              ("scale", num 1);
              ("animate", str "none");
              ("zIndex", num 0) ];
        lit [ ("type", str "glowField");
              ("opacity", num (if isDark then 0.15 else 0.08));
              ("color", str "accent");
              ("blur", num 120);
              ("scale", num 1.5);
              ("animate", str "breathe");
              ("zIndex", num 1) ];
        lit [ ("type", str "noise");
              ("opacity", num (if isDark then 0.02 else 0.015));
              ("color", str "text");
              ("scale", num 1);
              ("animate", str "none");
              ("zIndex", num 2) ] ]);
      ("intensity", num 1);
      ("audienceOverrides", lit [
        ("hotel-owner", VArr [
          lit [ ("type", str "glowField");
                ("opacity", num (if isDark then 0.18 else 0.1));
                ("color", str "accent") ] ]);
        ("developer", VArr [
          lit [ ("type", str "grid");
                ("opacity", num (if isDark then 0.05 else 0.03)) ];
          lit [ ("type", str "signalPaths");
                ("opacity", num (if isDark then 0.08 else 0.04));
                ("color", str "accent") ] ]) ]) ]);
    ("storyboard", lit [
      ("sections", VArr [
        section "hero" "hero" "fadeUp" true (str "SignalPathGraphic");
        section "narrative2" "narrative" "fadeUp" false VNull;
        section "proof3" "proof" "fadeUp" false VNull;
        section "banner" "metrics" "slideIn" false (str "MetricRibbon");
        section "stackedCards" "cards" "fadeUp" false (str "StackedCards");
        section "cta" "cta" "fadeUp" true VNull ]);
      ("audienceOverrides", lit [
        ("hotel-owner", VArr (map str
          ["hero"; "narrative"; "metrics"; "proof"; "cards"; "cta"]));
        ("developer", VArr (map str
          ["hero"; "proof"; "narrative"; "cards"; "metrics"; "cta"])) ]) ]);
    ("signatureBlocks", lit [
      ("signalPath", bool_ true);
      ("stackedCards", bool_ true);
      ("metricRibbon", bool_ true);
      ("signalPathConfig", lit [
        ("strokeColor", str "accent");
        ("strokeOpacity", num (if isDark then 0.4 else 0.25));
        ("strokeWidth", num 1.5);
        ("nodeColor", str "accent");
        ("nodeGlow", bool_ isDark);
        ("blur", num (if isDark then 8 else 4));
        ("gradient", lit [
          ("from", str "accent");
          ("to", str "accent-secondary");
          ("direction", str "135deg") ]);
        ("animateOnScroll", bool_ true);
        ("complexity", str "medium") ]);
      ("stackedCardsConfig", lit [
        ("rotationRange", num 6);
        ("shadowDepth", str (if isDark then "dramatic" else "medium"));
        ("borderStyle", str "subtle");
        ("hoverEffect", str "lift");
        ("visibleCards", num 3);
        ("stackDirection", str "right") ]);
      ("metricRibbonConfig", lit [
        ("background", str (if isDark then "surface" else "accent-muted"));
        ("separator", str "line");
        ("valueStyle", str (if isDark then "gradient" else "bold"));
        ("labelStyle", str "muted");
        ("count", num 4) ]) ]);
    ("motionBindings", lit [
      ("hero", lit [
        ("entrance", str "fadeUp");
        ("motifAnimation", str "breathe") ]);
      ("features", lit [
        ("entrance", str "stagger");
        ("staggerDelay", num 100) ]);
      ("signatureBlocks", lit [
        ("signalPath", str "draw");
        ("stackedCards", str "cascade");
        ("metricRibbon", str "countUp") ]) ]) ].

(** The guard [raw.recipes && 'product' in raw.recipes && 'marketing' in
    raw.recipes], with its short-circuit evaluation. *)
Definition has_both_contexts (raw : ThemePack) : result bool :=
  if truthy (recipes raw) then
    p <- has_in "product" (recipes raw) ;;
    if p then has_in "marketing" (recipes raw) else Ok false
  else Ok false.

Definition normalizeThemePack (raw : ThemePack) : result ThemePack :=
  current <- has_both_contexts raw ;;
  if current then Ok raw else
  let productRecipes := recipes raw in
  let mode_ := mode raw in
  let fullProductRecipes := object [
    Spread productRecipes;
    Field "media" (getProductMediaRecipes mode_);
    Field "motion" getProductMotionRecipes ] in
  appShell <- get productRecipes "AppShell" ;;
  appShell' <- get productRecipes "AppShell" ;;
  treatment <- get_opt appShell' "backgroundTreatment" ;;
  surface_ <- get productRecipes "Surface" ;;
  surfaceDefault <- get_opt surface_ "default" ;;
  surface_' <- get productRecipes "Surface" ;;
  surfaceFloating <- get_opt surface_' "floating" ;;
  sectionHeader <- get productRecipes "SectionHeader" ;;
  let marketingRecipes := object [
    Field "AppShell" (object [
      Spread appShell;
      Field "backgroundTreatment"
        (str (if is_str treatment "chronicle" then "chronicle" else "none")) ]);
    Field "Surface" (lit [
      ("default", object [
        Spread surfaceDefault;
        Field "border" (bool_ false);
        Field "gradient" (bool_ true) ]);
      ("hero", lit [
        ("border", bool_ false);
        ("borderOpacity", str "0");
        ("shadow", bool_ false);
        ("gradient", bool_ true);
        ("gradientDirection", str "to bottom");
        ("background", str "transparent") ]);
      ("feature", object [
        Spread surfaceFloating;
        Field "gradient" (bool_ false) ]) ]);
    Field "Hero" (lit [
      ("titleSize", str "3.5rem");
      ("titleWeight", str "700");
      ("titleTracking", str "-0.03em");
      ("titleMaxWidth", str "800px");
      ("subtitleSize", str "1.25rem");
      ("subtitleOpacity", str "0.7");
      ("subtitleMaxWidth", str "600px");
      ("spacing", lit [ ("paddingY", str "80px"); ("gap", str "24px") ]);
      ("accentGradient", bool_ (is_dark mode_)) ]);
    Field "SectionHeader" (object [
      Spread sectionHeader;
      Field "style" (str "centered");
      Field "titleSize" (str "2.5rem");
      Field "spacing" (lit [ ("top", str "0"); ("bottom", str "48px") ]) ]);
    Field "FeatureCard" (lit [
      ("style", str (if is_dark mode_ then "glass" else "elevated"));
      ("iconStyle", str "accent");
      ("hoverEffect", str "lift") ]);
    Field "AccentUsage" (lit [
      ("gradientAllowed", bool_ true);
      ("textEmphasisAllowed", bool_ true);
      ("backgroundGradient", str
         (if is_dark mode_
          then "linear-gradient(135deg, hsl(" ++ accent (tokens raw)
               ++ " / 0.15), transparent)"
          else "linear-gradient(135deg, hsl(" ++ accentMuted (tokens raw)
               ++ "), transparent)")) ]);
    Field "LayoutRhythm" (lit [
      ("sectionGap", str "120px");
      ("heroBottomGap", str "80px");
      ("featureGap", str "32px") ]);
    Field "media" (getMarketingMediaRecipes mode_);
    Field "motion" getMarketingMotionRecipes;
    Spread (getMarketingNarrativeRecipes mode_) ] in
  Ok {| name := name raw;
        mode := mode raw;
        tokens := tokens raw;
        recipes := lit [ ("product", fullProductRecipes);
                         ("marketing", marketingRecipes) ] |}.

(** [ThemeEngine.getRecipesForContext]. *)
Definition getRecipesForContext (theme : ThemePack) (context : PageContext)
  : result value :=
  let recipes_ := recipes theme in
  p <- get recipes_ "product" ;;
  legacy <- (if truthy p then Ok false
             else m <- get recipes_ "marketing" ;; Ok (negb (truthy m))) ;;
  if legacy then Ok recipes_
  else match context with
       | marketing => get recipes_ "marketing"
       | product => get recipes_ "product"
       end.

(** ** The presentation surface

    [document.documentElement] carries attributes, a class list and the
    inline style declarations; [window] records the events dispatched on
    it.  Either global can be missing ([typeof ... === 'undefined']). *)

Record Element := {
  attributes : list (string * string);
  classList : list string;
  style : list (string * string)
}.

Record CustomEvent := {
  event_type : string;
  detail_theme : ThemePack;
  detail_context : PageContext
}.

Record World := {
  document : option Element;
  window : option (list CustomEvent);
  console : list string
}.

Record ThemeEngine := {
  themes : list (string * ThemePack);
  currentTheme : option ThemePack;
  currentContext : PageContext
}.

Fixpoint assign (k v : string) (l : list (string * string))
  : list (string * string) :=
  match l with
  | [] => [(k, v)]
  | (k', v') :: rest =>
      if String.eqb k k' then (k, v) :: rest else (k', v') :: assign k v rest
  end.

Definition unassign (k : string) (l : list (string * string))
  : list (string * string) :=
  filter (fun kv => negb (String.eqb k (fst kv))) l.

Definition setAttribute (k v : string) (e : Element) : Element :=
  {| attributes := assign k v (attributes e);
     classList := classList e;
     style := style e |}.

Definition classList_add (c : string) (e : Element) : Element :=
  {| attributes := attributes e;
     classList := if existsb (String.eqb c) (classList e)
                  then classList e else (classList e ++ [c])%list;
     style := style e |}.

Definition classList_remove (c : string) (e : Element) : Element :=
  {| attributes := attributes e;
     classList := filter (fun c' => negb (String.eqb c c')) (classList e);
     style := style e |}.

(** [style.setProperty(k, v)]: an empty value removes the declaration,
    otherwise the declaration is replaced in place or appended. *)
Definition declare (k v : string) (l : list (string * string))
  : list (string * string) :=
  if String.eqb v EmptyString then unassign k l else assign k v l.

Definition setProperty (k v : string) (e : Element) : Element :=
  {| attributes := attributes e;
     classList := classList e;
     style := declare k v (style e) |}.

Definition theme_key (name_ : string) : string :=
  hyphenate false (toLowerCase name_).

Definition kebab (key : string) : string :=
  toLowerCase (dash_capitals key).

Definition typeStepWrites (entry : string * TypeScaleToken)
  : list (string * string) :=
  let (key, value_) := entry in
  [ ("--ds-type-" ++ key ++ "-size", fontSize value_);
    ("--ds-type-" ++ key ++ "-weight", fontWeight value_);
    ("--ds-type-" ++ key ++ "-tracking", letterSpacing value_);
    ("--ds-type-" ++ key ++ "-leading", lineHeight value_) ]
  ++ match textTransform value_ with
     | Some t => if String.eqb t EmptyString then []
                 else [ ("--ds-type-" ++ key ++ "-transform", t) ]
     | None => []
     end.

Definition densityWrite (entry : string * string) : string * string :=
  let (key, value_) := entry in ("--ds-density-" ++ kebab key, value_).

(** The [setProperty] calls of [applyTheme], in program order: the core
    and semantic colors, shadows and radii, then the type scale, then the
    density. *)
Definition coreWrites (t : ThemeTokens) : list (string * string) :=
  [ ("--ds-bg", bg t);
    ("--ds-surface", surface t);
    ("--ds-surface-2", surface2 t);
    ("--ds-surface-inset", surfaceInset t);
    ("--ds-border", border t);
    ("--ds-border-subtle", borderSubtle t);
    ("--ds-text", text t);
    ("--ds-text-muted", textMuted t);
    ("--ds-accent", accent t);
    ("--ds-accent-foreground", accentFg t);
    ("--ds-accent-muted", accentMuted t);
    ("--ds-accent-secondary", accentSecondary t);
    ("--ds-ring", ring t);
    ("--ds-success", success t);
    ("--ds-success-muted", successMuted t);
    ("--ds-warning", warning t);
    ("--ds-warning-muted", warningMuted t);
    ("--ds-danger", danger t);
    ("--ds-danger-muted", dangerMuted t);
    ("--ds-shadow-surface", shadowSurface t);
    ("--ds-shadow-popover", shadowPopover t);
    ("--ds-shadow-glow", shadowGlow t);
    ("--ds-radius-surface", radiusSurface t);
    ("--ds-radius-control", radiusControl t) ].

Definition styleWrites (t : ThemeTokens) : list (string * string) :=
  coreWrites t
  ++ flat_map typeStepWrites (typeScale t)
  ++ map densityWrite (density t).

Definition applyWrites (writes : list (string * string)) (root : Element)
  : Element :=
  fold_left (fun e kv => setProperty (fst kv) (snd kv) e) writes root.

Definition themechange (theme : ThemePack) (context : PageContext)
  : CustomEvent :=
  {| event_type := "themechange";
     detail_theme := theme;
     detail_context := context |}.

Definition applied_message (theme : ThemePack) (context : PageContext)
  : string :=
  "[TasteEngine] Applied: " ++ name theme ++ " (" ++ mode_name (mode theme)
  ++ " mode, " ++ context_name context ++ " context)".

(** [ThemeEngine.applyTheme]: the engine fields are written first; without
    a [document] the method returns at once. *)
Definition applyTheme (theme : ThemePack) (context : PageContext)
  (st : ThemeEngine * World) : ThemeEngine * World :=
  let (engine, world) := st in
  let engine' := {| themes := themes engine;
                    currentTheme := Some theme;
                    currentContext := context |} in
  match document world with
  | None => (engine', world)
  | Some root =>
      let root := setAttribute "data-theme" (theme_key (name theme)) root in
      let root := setAttribute "data-theme-mode" (mode_name (mode theme)) root in
      let root := setAttribute "data-context" (context_name context) root in
      let root := if is_dark (mode theme) then classList_add "dark" root
                  else classList_remove "dark" root in
      let root := applyWrites (styleWrites (tokens theme)) root in
      let window' := match window world with
                     | Some events =>
                         Some (events ++ [themechange theme context])%list
                     | None => None
                     end in
      (engine',
       {| document := Some root;
          window := window';
          console := (console world ++ [applied_message theme context])%list |})
  end.

(** ** The registry

    [themes] is a [Map]: [set] on a key that is present replaces the value
    where it stands, and the keys are listed in insertion order. *)

Fixpoint themes_set (key : string) (pack : ThemePack)
  (m : list (string * ThemePack)) : list (string * ThemePack) :=
  match m with
  | [] => [(key, pack)]
  | (k, p) :: rest =>
      if String.eqb key k then (key, pack) :: rest
      else (k, p) :: themes_set key pack rest
  end.

Fixpoint themes_get (key : string) (m : list (string * ThemePack))
  : option ThemePack :=
  match m with
  | [] => None
  | (k, p) :: rest => if String.eqb key k then Some p else themes_get key rest
  end.

(** [ThemeEngine.registerTheme]. *)
Definition registerTheme (raw : ThemePack) (engine : ThemeEngine)
  : result ThemeEngine :=
  normalized <- normalizeThemePack raw ;;
  Ok {| themes := themes_set (theme_key (name normalized)) normalized
                    (themes engine);
        currentTheme := currentTheme engine;
        currentContext := currentContext engine |}.

(** [ThemeEngine.getAvailableThemes]. *)
Definition getAvailableThemes (engine : ThemeEngine) : list string :=
  map fst (themes engine).

(** [names.join(', ')]. *)
Fixpoint join (names : list string) : string :=
  match names with
  | [] => EmptyString
  | [n] => n
  | n :: rest => n ++ ", " ++ join rest
  end.

Definition not_found_message (name_ : string) (engine : ThemeEngine)
  : string :=
  "Theme " ++ String (ascii_of_nat 34) name_
  ++ String (ascii_of_nat 34)
       (" not found. Available: " ++ join (getAvailableThemes engine)).

(** [ThemeEngine.loadTheme]: a miss warns on the console and returns
    [null]. *)
Definition loadTheme (name_ : string) (st : ThemeEngine * World)
  : option ThemePack * World :=
  let (engine, world) := st in
  match themes_get (theme_key name_) (themes engine) with
  | Some theme => (Some theme, world)
  | None =>
      (None,
       {| document := document world;
          window := window world;
          console :=
            (console world ++ [not_found_message name_ engine])%list |})
  end.

(** ** Vocabulary for the statements about the surface *)

Definition keys (l : list (string * string)) : list string := map fst l.

Fixpoint declared (k : string) (l : list (string * string)) : option string :=
  match l with
  | [] => None
  | (k', v) :: rest => if String.eqb k k' then Some v else declared k rest
  end.

(** The value the last write to [k] carries, if [k] is written at all. *)
Fixpoint last_write (k : string) (writes : list (string * string))
  : option string :=
  match writes with
  | [] => None
  | (k', v) :: rest =>
      match last_write k rest with
      | Some v' => Some v'
      | None => if String.eqb k k' then Some v else None
      end
  end.

Definition assigns (writes : list (string * string))
  (l : list (string * string)) : list (string * string) :=
  fold_left (fun acc kv => assign (fst kv) (snd kv) acc) writes l.

Definition declares (writes : list (string * string))
  (l : list (string * string)) : list (string * string) :=
  fold_left (fun acc kv => declare (fst kv) (snd kv) acc) writes l.

(** What the surface holds for a name after a write of [v]. *)
Definition written (v : string) : option string :=
  if String.eqb v EmptyString then None else Some v.

(** The steps of the type scale and the fields of the density that
    [ThemeTokens] declares. *)
Definition typeScaleSteps : list string :=
  [ "h1"; "h2"; "h3"; "body"; "kpi"; "kpiCompact"; "label" ].

Definition densityFields : list string :=
  [ "tableRowHeight"; "tableRowHeightCompact"; "controlHeight";
    "controlHeightSm"; "pageGutter"; "sectionGap"; "cardPadding";
    "cardPaddingCompact" ].

(** A structurally valid token set: the type scale has exactly the
    declared steps and the density exactly the declared fields, in any
    order. *)
Definition structurally_valid (t : ThemeTokens) : Prop :=
  Permutation (map fst (typeScale t)) typeScaleSteps
  /\ Permutation (map fst (density t)) densityFields.

Definition coreNames : list string :=
  [ "--ds-bg"; "--ds-surface"; "--ds-surface-2"; "--ds-surface-inset";
    "--ds-border"; "--ds-border-subtle"; "--ds-text"; "--ds-text-muted";
    "--ds-accent"; "--ds-accent-foreground"; "--ds-accent-muted";
    "--ds-accent-secondary"; "--ds-ring"; "--ds-success";
    "--ds-success-muted"; "--ds-warning"; "--ds-warning-muted";
    "--ds-danger"; "--ds-danger-muted"; "--ds-shadow-surface";
    "--ds-shadow-popover"; "--ds-shadow-glow"; "--ds-radius-surface";
    "--ds-radius-control" ].

(** The names one step of the type scale can be written under. *)
Definition stepNames (key : string) : list string :=
  [ "--ds-type-" ++ key ++ "-size";
    "--ds-type-" ++ key ++ "-weight";
    "--ds-type-" ++ key ++ "-tracking";
    "--ds-type-" ++ key ++ "-leading";
    "--ds-type-" ++ key ++ "-transform" ].

Definition densityName (key : string) : string :=
  "--ds-density-" ++ kebab key.

Fixpoint distinct (l : list string) : bool :=
  match l with
  | [] => true
  | x :: rest => negb (existsb (String.eqb x) rest) && distinct rest
  end.

Definition attributeWrites (theme : ThemePack) (context : PageContext)
  : list (string * string) :=
  [ ("data-theme", theme_key (name theme));
    ("data-theme-mode", mode_name (mode theme));
    ("data-context", context_name context) ].

End Engine.

(* ===================================================================== *)
(** * A built-in theme ([themes/hospitality-warm.ts]) *)
(* ===================================================================== *)

Module Themes.
Import Js Engine.
Local Open Scope string_scope.

Definition step (size weight tracking leading : string)
  (transform : option string) : TypeScaleToken :=
  {| fontSize := size; fontWeight := weight; letterSpacing := tracking;
     lineHeight := leading; textTransform := transform |}.

Definition hospitalityWarmTokens : ThemeTokens :=
  {| bg := "35 20% 97%";
     surface := "0 0% 100%";
     surface2 := "35 15% 95%";
     surfaceInset := "35 20% 93%";
     border := "35 15% 82%";
     borderSubtle := "35 15% 88%";
     text := "25 30% 12%";
     textMuted := "25 15% 40%";
     accent := "38 80% 50%";
     accentFg := "0 0% 100%";
     accentMuted := "38 60% 92%";
     accentSecondary := "28 90% 55%";
     ring := "38 80% 55%";
     success := "142 55% 40%";
     successMuted := "142 40% 92%";
     warning := "25 85% 55%";
     warningMuted := "25 70% 92%";
     danger := "0 55% 50%";
     dangerMuted := "0 50% 94%";
     shadowSurface := "0 2px 8px rgba(139, 90, 43, 0.06)";
     shadowPopover := "0 8px 24px rgba(139, 90, 43, 0.1)";
     shadowGlow := "0 0 40px rgba(245, 158, 11, 0.08)";
     radiusSurface := "12px";
     radiusControl := "8px";
     typeScale := [
       ("h1", step "2rem" "600" "-0.02em" "1.2" None);
       ("h2", step "1.25rem" "600" "-0.01em" "1.3" None);
       ("h3", step "0.9375rem" "600" "0" "1.4" None);
       ("body", step "0.9375rem" "400" "0" "1.55" None);
       ("kpi", step "1.875rem" "600" "-0.02em" "1" None);
       ("kpiCompact", step "1.375rem" "600" "-0.02em" "1" None);
       ("label", step "0.6875rem" "500" "0.04em" "1.4" (Some "uppercase")) ];
     density := [
       ("tableRowHeight", "48px");
       ("tableRowHeightCompact", "40px");
       ("controlHeight", "38px");
       ("controlHeightSm", "32px");
       ("pageGutter", "24px");
       ("sectionGap", "32px");
       ("cardPadding", "20px");
       ("cardPaddingCompact", "16px") ] |}.

Definition hospitalityWarmRecipes : value :=
  lit [
    ("AppShell", lit [
      ("backgroundTreatment", str "none");
      ("glowColor", str "accent");
      ("glowOpacity", str "0");
      ("vignetteOpacity", str "0") ]);
    ("Surface", lit [
      ("default", lit [
        ("border", bool_ true);
        ("borderOpacity", str "0.35");
        ("shadow", bool_ true);
        ("gradient", bool_ false) ]);
      ("inset", lit [
        ("border", bool_ true);
        ("borderOpacity", str "0.25");
        ("shadow", bool_ false);
        ("background", str "surfaceInset") ]);
      ("floating", lit [
        ("border", bool_ true);
        ("borderOpacity", str "0.45");
        ("shadow", bool_ true);
        ("shadowStrength", str "normal") ]) ]);
    ("StatCard", lit [
      ("style", str "clean");
      ("accentMode", str "single");
      ("accentElement", str "topBorder");
      ("accentWidth", str "3px");
      ("primaryHighlight", bool_ true);
      ("valueFontStyle", str "kpi");
      ("labelFontStyle", str "label") ]);
    ("SectionHeader", lit [
      ("style", str "clean");
      ("titleWeight", str "600");
      ("subtitleOpacity", str "0.65");
      ("subtitleMaxWidth", str "500px");
      ("spacing", lit [ ("top", str "0"); ("bottom", str "20px") ]) ]);
    ("DataTable", lit [
      ("density", str "comfortable");
      ("headerStyle", str "muted");
      ("rowHover", str "subtle");
      ("separatorStyle", str "faint");
      ("separatorOpacity", str "0.25") ]);
    ("HeroHeader", lit [
      ("style", str "clean");
      ("titleSize", str "h1");
      ("subtitleMuted", bool_ true);
      ("actionsGrouped", bool_ true);
      ("spacing", lit [ ("paddingY", str "28px") ]) ]);
    ("ActivityTable", lit [
      ("density", str "comfortable");
      ("headerStyle", str "muted");
      ("headerTracking", str "0.08em");
      ("headerOpacity", str "0.55");
      ("rowHover", str "subtle");
      ("rowHoverBg", str "surface2/50");
      ("separatorOpacity", str "0.2");
      ("iconBg", str "accentMuted/60");
      ("iconOpacity", str "0.7");
      ("amountWeight", str "500");
      ("timeOpacity", str "0.5");
      ("containerBg", str "surface2/50");
      ("containerBorder", bool_ true);
      ("containerBorderOpacity", str "0.25") ]);
    ("Toolbar", lit [
      ("variant", str "surface");
      ("height", str "40px");
      ("itemHeight", str "32px");
      ("itemPadding", str "10px");
      ("gap", str "6px");
      ("separatorColor", str "border");
      ("separatorOpacity", str "0.35");
      ("separatorHeight", str "16px") ]) ].

Definition hospitalityWarm : ThemePack :=
  {| name := "Hospitality Warm";
     mode := light;
     tokens := hospitalityWarmTokens;
     recipes := hospitalityWarmRecipes |}.

(** The theme as [registerTheme] stores it. *)
Definition hospitalityWarmRegistered : ThemePack :=
  match normalizeThemePack hospitalityWarm with
  | Ok pack => pack
  | Throw _ => hospitalityWarm
  end.

(** A page that has not been themed yet. *)
Definition blankRoot : Element :=
  {| attributes := []; classList := []; style := [] |}.

Definition freshEngine : ThemeEngine :=
  {| themes := []; currentTheme := None; currentContext := product |}.

(** The engine after [registerTheme(hospitalityWarm)]. *)
Definition registeredEngine : ThemeEngine :=
  {| themes := [ ("hospitality-warm", hospitalityWarmRegistered) ];
     currentTheme := None;
     currentContext := product |}.

End Themes.

(* ===================================================================== *)
(** * The tuner hook ([useTuners] in the React bindings) *)
(* ===================================================================== *)

Module Tuners.
Local Open Scope string_scope.

(** [AppliedTuners] of the contract: all five fields are required. *)
Record AppliedTuners := {
  abstraction : Q;
  density : Q;
  motion : Q;
  contrast : Q;
  narrative : Q
}.

(** [TunerValues] of the contract: every field is optional. *)
Record TunerValues := {
  abstraction_opt : option Q;
  density_opt : option Q;
  motion_opt : option Q;
  contrast_opt : option Q;
  narrative_opt : option Q
}.

(** [keyof AppliedTuners]. *)
Inductive TunerKey :=
| Abstraction | Density | Motion | Contrast | Narrative.

Definition keys : list TunerKey :=
  [Abstraction; Density; Motion; Contrast; Narrative].

Definition key_name (k : TunerKey) : string :=
  match k with
  | Abstraction => "abstraction"
  | Density => "density"
  | Motion => "motion"
  | Contrast => "contrast"
  | Narrative => "narrative"
  end.

Definition field (k : TunerKey) (t : AppliedTuners) : Q :=
  match k with
  | Abstraction => abstraction t
  | Density => density t
  | Motion => motion t
  | Contrast => contrast t
  | Narrative => narrative t
  end.

Definition field_opt (k : TunerKey) (t : TunerValues) : option Q :=
  match k with
  | Abstraction => abstraction_opt t
  | Density => density_opt t
  | Motion => motion_opt t
  | Contrast => contrast_opt t
  | Narrative => narrative_opt t
  end.

Definition DEFAULT_TUNERS : AppliedTuners :=
  {| abstraction := 0.5;
     density := 0.5;
     motion := 0.5;
     contrast := 0.5;
     narrative := 0.5 |}.

(** [isValidTunerValues] of the contract: every field that is present
    lies in the unit interval. *)
Definition in_unit (q : Q) : bool := Qle_bool 0 q && Qle_bool q 1.

Definition isValidTunerValues (t : TunerValues) : bool :=
  forallb (fun k => match field_opt k t with
                    | Some q => in_unit q
                    | None => true
                    end) keys.

(** [Math.max(0, Math.min(1, value))]. *)
Definition clamp (value : Q) : Q := Qmax 0 (Qmin 1 value).

(** [{ ...prev, [key]: v }]. *)
Definition with_field (key : TunerKey) (v : Q) (prev : AppliedTuners)
  : AppliedTuners :=
  match key with
  | Abstraction =>
      {| abstraction := v; density := density prev; motion := motion prev;
         contrast := contrast prev; narrative := narrative prev |}
  | Density =>
      {| abstraction := abstraction prev; density := v; motion := motion prev;
         contrast := contrast prev; narrative := narrative prev |}
  | Motion =>
      {| abstraction := abstraction prev; density := density prev; motion := v;
         contrast := contrast prev; narrative := narrative prev |}
  | Contrast =>
      {| abstraction := abstraction prev; density := density prev;
         motion := motion prev; contrast := v; narrative := narrative prev |}
  | Narrative =>
      {| abstraction := abstraction prev; density := density prev;
         motion := motion prev; contrast := contrast prev; narrative := v |}
  end.

(** [setTuner(key, value)]: the state update it passes to React. *)
Definition setTuner (key : TunerKey) (value : Q) (prev : AppliedTuners)
  : AppliedTuners :=
  with_field key (clamp value) prev.

(** [resetTuners()]. *)
Definition resetTuners (prev : AppliedTuners) : AppliedTuners :=
  DEFAULT_TUNERS.

(** ** [Number.prototype.toFixed(1)]

    [n] is the integer nearest to [10 * x], the larger one on a tie; the
    sign is printed when [x < 0].  (Above [10^21] the method prints an
    exponent instead; tuner values stay far below.) *)
Definition tenths (x : Q) : Z := Qfloor (x * 10 + (1 # 2))%Q.

Definition digits (n : Z) : string :=
  NilEmpty.string_of_uint (N.to_uint (Z.to_N n)).

Definition toFixed1 (x : Q) : string :=
  let negative := match (x ?= 0)%Q with Lt => true | _ => false end in
  let n := tenths (if negative then (- x)%Q else x) in
  (if negative then "-" else EmptyString)
  ++ digits (n / 10)%Z ++ "." ++ digits (n mod 10)%Z.

(** ** [URLSearchParams] *)

Definition URLSearchParams := list (string * string).

Fixpoint params_get (k : string) (p : URLSearchParams) : option string :=
  match p with
  | [] => None
  | (k', v) :: rest => if String.eqb k k' then Some v else params_get k rest
  end.

(** [set]: the first entry of that name takes the value and the other
    entries of that name are deleted; a new name is appended. *)
Fixpoint params_set (k v : string) (p : URLSearchParams) : URLSearchParams :=
  match p with
  | [] => [(k, v)]
  | (k', v') :: rest =>
      if String.eqb k k'
      then (k, v) :: filter (fun kv => negb (String.eqb k (fst kv))) rest
      else (k', v') :: params_set k v rest
  end.

(** [Object.entries(tuners)], in the key order of [DEFAULT_TUNERS]. *)
Definition entries (t : AppliedTuners) : list (string * Q) :=
  map (fun k => (key_name k, field k t)) keys.

(** [syncToURL()]: [location] is the query of [window.location], absent
    when there is no [window]; the result is the query after
    [history.replaceState]. *)
Definition syncToURL (tuners : AppliedTuners)
  (location : option URLSearchParams) : option URLSearchParams :=
  match location with
  | None => None
  | Some search =>
      Some (fold_left (fun p kv => params_set (fst kv) (toFixed1 (snd kv)) p)
                      (entries tuners) search)
  end.

(** ** The [tuners] module, which the sources import but do not include *)

(** Modelled from the spec: the text before the first dot of a numeral
    and, when there is a dot, the text after it. *)
Fixpoint split_at_dot (s : string) : string * option string :=
  match s with
  | EmptyString => (EmptyString, None)
  | String c rest =>
      if Ascii.eqb c "." then (EmptyString, Some rest)
      else let (a, b) := split_at_dot rest in (String c a, b)
  end.

(** Modelled from the spec: a non-empty run of decimal digits. *)
Definition natural (s : string) : option Z :=
  match NilZero.uint_of_string s with
  | Some u => Some (Z.of_N (N.of_uint u))
  | None => None
  end.

(** Modelled from the spec: digits, optionally followed by a dot and
    digits, read as an exact decimal fraction. *)
Definition unsigned_decimal (s : string) : option Q :=
  match split_at_dot s with
  | (whole, None) =>
      match natural whole with
      | Some n => Some (inject_Z n)
      | None => None
      end
  | (whole, Some frac) =>
      match natural whole, natural frac with
      | Some n, Some f =>
          let scale := Pos.pow 10 (Pos.of_nat (String.length frac)) in
          Some ((n * Z.pos scale + f)%Z # scale)
      | _, _ => None
      end
  end.

(** Modelled from the spec: the parser behind [deserialize], missing from
    the sources.  A value is a decimal numeral, optionally signed; anything
    else is unparsable. *)
Definition parseDecimal (s : string) : option Q :=
  match s with
  | String "-" rest =>
      match unsigned_decimal rest with
      | Some q => Some (- q)%Q
      | None => None
      end
  | _ => unsigned_decimal s
  end.

(** Modelled from the spec: one field of [parseTunersFromURL]; an
    unparsable or out-of-range value is dropped. *)
Definition parseTunerParam (k : TunerKey) (p : URLSearchParams) : option Q :=
  match params_get (key_name k) p with
  | Some s =>
      match parseDecimal s with
      | Some q => if in_unit q then Some q else None
      | None => None
      end
  | None => None
  end.

(** Modelled from the spec: [parseTunersFromURL], missing from the
    sources: the inverse of serialization; unknown keys are ignored and
    unparsable or out-of-range values are dropped. *)
Definition parseTunersFromURL (p : URLSearchParams) : TunerValues :=
  {| abstraction_opt := parseTunerParam Abstraction p;
     density_opt := parseTunerParam Density p;
     motion_opt := parseTunerParam Motion p;
     contrast_opt := parseTunerParam Contrast p;
     narrative_opt := parseTunerParam Narrative p |}.

(** Modelled from the spec: one field of [normalizeTuners]. *)
Definition normalizeField (k : TunerKey) (partial : TunerValues) : Q :=
  match field_opt k partial with
  | Some q => clamp q
  | None => clamp (field k DEFAULT_TUNERS)
  end.

(** Modelled from the spec: [normalizeTuners], missing from the sources:
    each field is the caller's value when present, else the default 0.5,
    clamped to the unit interval. *)
Definition normalizeTuners (partial : TunerValues) : AppliedTuners :=
  {| abstraction := normalizeField Abstraction partial;
     density := normalizeField Density partial;
     motion := normalizeField Motion partial;
     contrast := normalizeField Contrast partial;
     narrative := normalizeField Narrative partial |}.

(** The spec's wording of the round trip: a value rounded to one decimal
    place. *)
Definition round1 (x : Q) : Q := tenths x # 10.

Definition some_fields (t : AppliedTuners) : TunerValues :=
  {| abstraction_opt := Some (abstraction t);
     density_opt := Some (density t);
     motion_opt := Some (motion t);
     contrast_opt := Some (contrast t);
     narrative_opt := Some (narrative t) |}.

End Tuners.

(* ===================================================================== *)
(** * Taste derivation (the MCP server) *)
(* ===================================================================== *)

Module Taste.
Import Js.
Local Open Scope string_scope.

(** A number that may have stopped being finite: [None] is NaN or an
    infinity, which sums and products never turn back into a finite
    number. *)
Definition number := option Q.

Definition nadd (a b : number) : number :=
  match a, b with
  | Some x, Some y => Some (x + y)%Q
  | _, _ => None
  end.

Definition nmul (a b : number) : number :=
  match a, b with
  | Some x, Some y => Some (x * y)%Q
  | _, _ => None
  end.

(** [a / b] for finite operands: not finite when [b] is zero. *)
Definition ndiv (a b : Q) : number :=
  if Qeq_bool b 0 then None else Some (a / b)%Q.

(** [a > b]. *)
Definition gt (a b : Q) : bool :=
  match (a ?= b)%Q with Gt => true | _ => false end.

Inductive ColorTemperature := warm | cool | neutral.

Record TasteProfile := {
  abstraction : number;
  restraint : number;
  density : number;
  motion : number;
  contrast : number;
  narrative : number;
  motifPreference : list string;
  typographyLooseness : number;
  colorTemperature : ColorTemperature;
  surfaceComplexity : number
}.

(** The eight fields blended by weighted average. *)
Inductive Continuous :=
| Abstraction | Restraint | Density | Motion | Contrast | Narrative
| TypographyLooseness | SurfaceComplexity.

Definition field (c : Continuous) (p : TasteProfile) : number :=
  match c with
  | Abstraction => abstraction p
  | Restraint => restraint p
  | Density => density p
  | Motion => motion p
  | Contrast => contrast p
  | Narrative => narrative p
  | TypographyLooseness => typographyLooseness p
  | SurfaceComplexity => surfaceComplexity p
  end.

Definition profile (a r d m c n : Q) (motifs : list string) (t : Q)
  (temp : ColorTemperature) (s : Q) : TasteProfile :=
  {| abstraction := Some a;
     restraint := Some r;
     density := Some d;
     motion := Some m;
     contrast := Some c;
     narrative := Some n;
     motifPreference := motifs;
     typographyLooseness := Some t;
     colorTemperature := temp;
     surfaceComplexity := Some s |}.

(** The table's own entries, in source order; the arguments of [profile]
    follow the order of the fields in the source literals. *)
Definition KNOWN_REFERENCES : list (string * TasteProfile) :=
  [ ("linear",
     profile 0.7 0.8 0.4 0.6 0.7 0.5 ["gradients"; "blur"] 0.3 cool 0.5);
    ("stripe",
     profile 0.5 0.7 0.5 0.7 0.6 0.7 ["gradients"; "mesh"] 0.4 cool 0.6);
    ("vercel",
     profile 0.8 0.9 0.3 0.5 0.8 0.4 ["lines"; "gradients"] 0.2 neutral 0.3);
    ("notion",
     profile 0.3 0.6 0.6 0.3 0.5 0.6 ["illustrations"] 0.5 warm 0.4);
    ("figma",
     profile 0.4 0.5 0.5 0.6 0.5 0.5 ["illustrations"; "icons"] 0.4 warm 0.5);
    ("apple",
     profile 0.6 0.8 0.3 0.7 0.7 0.8 ["photography"; "gradients"] 0.2
             neutral 0.4);
    ("github",
     profile 0.4 0.7 0.6 0.3 0.6 0.4 ["icons"; "illustrations"] 0.3
             neutral 0.3);
    ("airbnb",
     profile 0.3 0.4 0.5 0.5 0.5 0.7 ["photography"; "illustrations"] 0.5
             warm 0.5);
    ("chronicle",
     profile 0.7 0.6 0.4 0.6 0.7 0.5 ["dots"; "lines"; "gradients"] 0.3
             cool 0.6);
    ("raycast",
     profile 0.6 0.8 0.5 0.5 0.7 0.4 ["blur"; "gradients"] 0.3 cool 0.5) ].

(** The names every object literal inherits from [Object.prototype]. *)
Definition inherited_names : list string :=
  [ "constructor"; "__defineGetter__"; "__defineSetter__"; "hasOwnProperty";
    "__lookupGetter__"; "__lookupSetter__"; "isPrototypeOf";
    "propertyIsEnumerable"; "toString"; "valueOf"; "__proto__";
    "toLocaleString" ].

(** What [KNOWN_REFERENCES[key]] evaluates to when it is truthy: a profile
    of the table, or a member of [Object.prototype], which has none of a
    profile's fields. *)
Inductive reference :=
| Profile (p : TasteProfile)
| Inherited.

Fixpoint assoc (key : string) (table : list (string * TasteProfile))
  : option TasteProfile :=
  match table with
  | [] => None
  | (k, p) :: rest => if String.eqb key k then Some p else assoc key rest
  end.

Definition known_reference (key : string) : option reference :=
  match assoc key KNOWN_REFERENCES with
  | Some p => Some (Profile p)
  | None => if existsb (String.eqb key) inherited_names
            then Some Inherited else None
  end.

Record Inspiration := {
  type : string;
  value : string;
  weight : option Q
}.

Record Entry := {
  entry_profile : reference;
  entry_weight : Q
}.

Definition unknown_profile : TasteProfile :=
  profile 0.5 0.5 0.5 0.5 0.5 0.5 ["gradients"] 0.5 neutral 0.5.

Definition screenshot_profile : TasteProfile :=
  profile 0.6 0.5 0.5 0.4 0.5 0.5 ["gradients"] 0.5 neutral 0.5.

Fixpoint starts_with (prefix s : string) : option string :=
  match prefix, s with
  | EmptyString, _ => Some s
  | String a p, String b r => if Ascii.eqb a b then starts_with p r else None
  | String _ _, EmptyString => None
  end.

(** [value.replace(/^https?:\/\//, '')]. *)
Definition strip_scheme (s : string) : string :=
  match starts_with "https://" s with
  | Some rest => rest
  | None => match starts_with "http://" s with
            | Some rest => rest
            | None => s
            end
  end.

(** [s.split('/')[0]]. *)
Fixpoint before_slash (s : string) : string :=
  match s with
  | EmptyString => EmptyString
  | String c rest =>
      if Ascii.eqb c "/" then EmptyString else String c (before_slash rest)
  end.

Definition is_line_break (c : ascii) : bool :=
  let n := nat_of_ascii c in Nat.eqb n 10 || Nat.eqb n 13.

Fixpoint single_line (s : string) : bool :=
  match s with
  | EmptyString => true
  | String c rest => negb (is_line_break c) && single_line rest
  end.

(** [domain.replace(/\..*$/, '')]: the leftmost dot that is followed by
    no line break up to the end of the string starts the match. *)
Fixpoint drop_from_dot (s : string) : string :=
  match s with
  | EmptyString => EmptyString
  | String c rest =>
      if Ascii.eqb c "." && single_line rest then EmptyString
      else String c (drop_from_dot rest)
  end.

Definition domain_name (url : string) : string :=
  toLowerCase (drop_from_dot (before_slash (strip_scheme url))).

(** One turn of the loop over [inspirations]: the entries it pushes. *)
Definition resolve (insp : Inspiration) : list Entry :=
  let weight_ := match weight insp with Some w => w | None => 1.0%Q end in
  if String.eqb (type insp) "reference-name"
     || String.eqb (type insp) "reference"
  then
    match known_reference (toLowerCase (value insp)) with
    | Some ref => [ {| entry_profile := ref; entry_weight := weight_ |} ]
    | None => [ {| entry_profile := Profile unknown_profile;
                   entry_weight := (weight_ * 0.5)%Q |} ]
    end
  else if String.eqb (type insp) "url" then
    match known_reference (domain_name (value insp)) with
    | Some ref => [ {| entry_profile := ref; entry_weight := weight_ |} ]
    | None => [ {| entry_profile := Profile unknown_profile;
                   entry_weight := (weight_ * 0.3)%Q |} ]
    end
  else if String.eqb (type insp) "screenshot" then
    [ {| entry_profile := Profile screenshot_profile;
         entry_weight := (weight_ * 0.5)%Q |} ]
  else [].

(** [profiles.reduce((sum, p) => sum + p.weight, 0)]. *)
Definition totalWeight (profiles : list Entry) : Q :=
  fold_left (fun sum p => (sum + entry_weight p)%Q) profiles 0%Q.

(** A field read from an entry: [undefined], hence NaN in arithmetic,
    when the entry holds a member of [Object.prototype]. *)
Definition read (c : Continuous) (e : Entry) : number :=
  match entry_profile e with
  | Profile p => field c p
  | Inherited => None
  end.

Definition initial : TasteProfile :=
  {| abstraction := Some 0%Q;
     restraint := Some 0%Q;
     density := Some 0%Q;
     motion := Some 0%Q;
     contrast := Some 0%Q;
     narrative := Some 0%Q;
     motifPreference := [];
     typographyLooseness := Some 0%Q;
     colorTemperature := neutral;
     surfaceComplexity := Some 0%Q |}.

(** One turn of the loop that blends the numeric values. *)
Definition accumulate (total : Q) (blended : TasteProfile) (e : Entry)
  : TasteProfile :=
  let w := ndiv (entry_weight e) total in
  let add c := nadd (field c blended) (nmul (read c e) w) in
  {| abstraction := add Abstraction;
     restraint := add Restraint;
     density := add Density;
     motion := add Motion;
     contrast := add Contrast;
     narrative := add Narrative;
     motifPreference := motifPreference blended;
     typographyLooseness := add TypographyLooseness;
     colorTemperature := colorTemperature blended;
     surfaceComplexity := add SurfaceComplexity |}.

Definition blendNumeric (profiles : list Entry) : TasteProfile :=
  fold_left (accumulate (totalWeight profiles)) profiles initial.

(** [motifSet.add(m)] on an insertion-ordered set. *)
Definition set_add (m : string) (set : list string) : list string :=
  if existsb (String.eqb m) set then set else (set ++ [m])%list.

(** The loop that collects the motif preferences: [forEach] is called on
    [undefined] when the entry holds a member of [Object.prototype]. *)
Fixpoint collectMotifs (profiles : list Entry) (set : list string)
  : result (list string) :=
  match profiles with
  | [] => Ok set
  | e :: rest =>
      match entry_profile e with
      | Profile p =>
          collectMotifs rest
            (fold_left (fun s m => set_add m s) (motifPreference p) set)
      | Inherited => Throw TypeError
      end
  end.

Record TempCounts := {
  count_warm : Q;
  count_cool : Q;
  count_neutral : Q
}.

(** [tempCounts[profile.colorTemperature] += weight]. *)
Definition vote (counts : TempCounts) (e : Entry) : TempCounts :=
  match entry_profile e with
  | Profile p =>
      match colorTemperature p with
      | warm => {| count_warm := (count_warm counts + entry_weight e)%Q;
                   count_cool := count_cool counts;
                   count_neutral := count_neutral counts |}
      | cool => {| count_warm := count_warm counts;
                   count_cool := (count_cool counts + entry_weight e)%Q;
                   count_neutral := count_neutral counts |}
      | neutral => {| count_warm := count_warm counts;
                      count_cool := count_cool counts;
                      count_neutral :=
                        (count_neutral counts + entry_weight e)%Q |}
      end
  | Inherited => counts
  end.

Definition tempCounts (profiles : list Entry) : TempCounts :=
  fold_left vote profiles
    {| count_warm := 0%Q; count_cool := 0%Q; count_neutral := 0%Q |}.

Definition pickTemperature (counts : TempCounts) : ColorTemperature :=
  if gt (count_warm counts) (count_cool counts)
     && gt (count_warm counts) (count_neutral counts)
  then warm
  else if gt (count_cool counts) (count_neutral counts) then cool
  else neutral.

(** Everything after the loop over [inspirations]. *)
Definition blend (profiles : list Entry) : result TasteProfile :=
  let blended := blendNumeric profiles in
  match collectMotifs profiles [] with
  | Throw e => Throw e
  | Ok motifs =>
      Ok {| abstraction := abstraction blended;
            restraint := restraint blended;
            density := density blended;
            motion := motion blended;
            contrast := contrast blended;
            narrative := narrative blended;
            motifPreference := motifs;
            typographyLooseness := typographyLooseness blended;
            colorTemperature := pickTemperature (tempCounts profiles);
            surfaceComplexity := surfaceComplexity blended |}
  end.

(** [deriveTasteFromInspirations]; the argument is [None] when the caller
    passed [undefined].  A rejected promise is a [Throw]. *)
Definition deriveTasteFromInspirations
  (inspirations : option (list Inspiration)) : result TasteProfile :=
  match inspirations with
  | None | Some [] =>
      Throw (McpError InvalidRequest "At least one inspiration required")
  | Some l => blend (flat_map resolve l)
  end.

(** The spec's wording of the blend: the values of one field, each
    weighted by its observation's share [w_i / W] of the total weight. *)
Definition total (observations : list (Q * Q)) : Q :=
  fold_right (fun o acc => (snd o + acc)%Q) 0%Q observations.

Definition weighted_average (observations : list (Q * Q)) : Q :=
  fold_right
    (fun o acc => (fst o * snd o / total observations + acc)%Q)
    0%Q observations.

(** An observation as the blending loops see it. *)
Definition observed (p : TasteProfile) (w : Q) : Entry :=
  {| entry_profile := Profile p; entry_weight := w |}.

Definition observations (obs : list (TasteProfile * Q)) : list Entry :=
  map (fun o => observed (fst o) (snd o)) obs.



(** The four inspiration types the loop has a branch for. *)
Definition recognized (type_ : string) : bool :=
  String.eqb type_ "reference-name" || String.eqb type_ "reference"
  || String.eqb type_ "url" || String.eqb type_ "screenshot".

Definition empty_input_error : error :=
  McpError InvalidRequest "At least one inspiration required".

(** Two observations for the worked example of the blend: they differ
    from the neutral defaults in their density only. *)
Definition sparse : TasteProfile :=
  profile 0.5 0.5 0.2 0.5 0.5 0.5 ["gradients"] 0.5 neutral 0.5.

Definition dense : TasteProfile :=
  profile 0.5 0.5 0.8 0.5 0.5 0.5 ["gradients"] 0.5 neutral 0.5.

Definition named (value_ : string) (w : Q) : Inspiration :=
  {| type := "reference-name"; value := value_; weight := Some w |}.

(** An inspiration of a type the loop has no branch for. *)
Definition figmaFile : Inspiration :=
  {| type := "figma"; value := "https://figma.com/file/abc"; weight := None |}.

End Taste.

(* ===================================================================== *)
(** * The tuner hook over a sequence of calls *)
(* ===================================================================== *)

Module Hook.
Import Tuners.
Local Open Scope string_scope.

(** The state updates of [useTuners] that the sources define in full. *)
Inductive Update :=
| SetTuner (key : TunerKey) (value : Q)
| ResetTuners.

Definition update (state : AppliedTuners) (u : Update) : AppliedTuners :=
  match u with
  | SetTuner key value => setTuner key value state
  | ResetTuners => resetTuners state
  end.

(** React runs the queued updates in the order of the calls. *)
Definition run (calls : list Update) (state : AppliedTuners)
  : AppliedTuners :=
  fold_left update calls state.

(** A query parameter that [syncToURL] writes. *)
Definition is_tuner_name (name : string) : bool :=
  existsb (fun k => String.eqb name (key_name k)) keys.

(** The entries of a query that belong to somebody else. *)
Definition foreign (search : URLSearchParams) : URLSearchParams :=
  filter (fun kv => negb (is_tuner_name (fst kv))) search.

(** How many entries of a query carry the name [k]. *)
Definition occurrences (k : string) (search : URLSearchParams) : nat :=
  length (filter (fun kv => String.eqb k (fst kv)) search).

End Hook.

(* ===================================================================== *)
(** * Start-up from the page address ([ThemeEngine.initThemeFromUrl]) *)
(* ===================================================================== *)

Module Startup.
Import Js Engine.
Local Open Scope string_scope.



(** The default values of the two parameters; an argument that is left
    out is [None]. *)
Definition defaultTheme_or (arg : option string) : string :=
  match arg with Some s => s | None => "chronicle-dark" end.

Definition defaultContext_or (arg : option PageContext) : PageContext :=
  match arg with Some c => c | None => product end.

(** [params.get('theme') || defaultTheme]. *)
Definition themeName (search : Tuners.URLSearchParams)
  (defaultTheme : string) : string :=
  match Tuners.params_get "theme" search with
  | Some s => if String.eqb s EmptyString then defaultTheme else s
  | None => defaultTheme
  end.

(** The [context] parameter counts when it is one of the two names. *)
Definition context_of (search : Tuners.URLSearchParams)
  (defaultContext : PageContext) : PageContext :=
  match Tuners.params_get "context" search with
  | Some s =>
      if String.eqb s "product" then product
      else if String.eqb s "marketing" then marketing
      else defaultContext
  | None => defaultContext
  end.

(** [ThemeEngine.initThemeFromUrl]; [search] is the query of
    [window.location], read only when there is a [window]. *)
Definition initThemeFromUrl
  (defaultTheme : option string) (defaultContext : option PageContext)
  (search : Tuners.URLSearchParams) (st : ThemeEngine * World)
  : option (ThemePack * PageContext) * (ThemeEngine * World) :=
  let defaultTheme := defaultTheme_or defaultTheme in
  let defaultContext := defaultContext_or defaultContext in
  match window (snd st) with
  | None => (None, st)
  | Some _ =>
      let context := context_of search defaultContext in
      let (first, world) := loadTheme (themeName search defaultTheme) st in
      let (theme, world) :=
        match first with
        | Some t => (Some t, world)
        | None => loadTheme defaultTheme (fst st, world)
        end in
      match theme with
      | None => (None, (fst st, world))
      | Some t => (Some (t, context), applyTheme t context (fst st, world))
      end
  end.

End Startup.

(* ===================================================================== *)
(** * Page plans, patches and verification (the MCP server) *)
(* ===================================================================== *)

Module Server.
Import Js.
Local Open Scope string_scope.

(** ** Strings *)

(** [hay.includes(needle)]. *)
Fixpoint includes (needle hay : string) : bool :=
  match Taste.starts_with needle hay with
  | Some _ => true
  | None => match hay with
            | EmptyString => false
            | String _ rest => includes needle rest
            end
  end.

(** ASCII [toUpperCase]. *)
Definition upper_char (c : ascii) : ascii :=
  let n := nat_of_ascii c in
  if Nat.leb 97 n && Nat.leb n 122 then ascii_of_nat (n - 32)%nat else c.

(** [str.charAt(0).toUpperCase() + str.slice(1)]. *)
Definition capitalizeFirst (str : string) : string :=
  match str with
  | EmptyString => EmptyString
  | String c rest => String (upper_char c) rest
  end.

(** [s.replace(/^\//, '')]. *)
Definition strip_slash (s : string) : string :=
  match s with
  | String c rest => if Ascii.eqb c "/" then rest else s
  | EmptyString => EmptyString
  end.

(** [s.replace(/\//g, replacement)]. *)
Fixpoint replace_slashes (replacement s : string) : string :=
  match s with
  | EmptyString => EmptyString
  | String c rest =>
      if Ascii.eqb c "/" then replacement ++ replace_slashes replacement rest
      else String c (replace_slashes replacement rest)
  end.

(** The longest prefix without a slash, and what follows it. *)
Fixpoint segment (s : string) : string * string :=
  match s with
  | EmptyString => (EmptyString, EmptyString)
  | String c rest =>
      if Ascii.eqb c "/" then (EmptyString, s)
      else let (a, b) := segment rest in (String c a, b)
  end.

(** A match of [/\/[^/]+\/[^/]+$/] that starts at the first character:
    a slash, a run without slashes, a slash, and a run without slashes
    up to the end.  A run cannot give characters back, since only a
    slash may follow it. *)
Definition two_segments (s : string) : bool :=
  match s with
  | String c rest =>
      Ascii.eqb c "/"
      && (let (a, after) := segment rest in
          negb (String.eqb a EmptyString)
          && match after with
             | String _ rest' =>
                 let (b, tail) := segment rest' in
                 negb (String.eqb b EmptyString)
                 && String.eqb tail EmptyString
             | EmptyString => false
             end)
  | EmptyString => false
  end.

(** [path.match(/\/[^/]+\/[^/]+$/)]: the match may start anywhere. *)
Fixpoint matches_detail (path : string) : bool :=
  two_segments path
  || match path with
     | String _ rest => matches_detail rest
     | EmptyString => false
     end.

(** [lines.join('\n')]. *)
Definition newline : string := String (ascii_of_nat 10) EmptyString.

Fixpoint lines (l : list string) : string :=
  match l with
  | [] => EmptyString
  | [x] => x
  | x :: rest => x ++ newline ++ lines rest
  end.

(** A piece of text between double quotes. *)
Definition quoted (s : string) : string :=
  String (ascii_of_nat 34) s ++ String (ascii_of_nat 34) EmptyString.

(** [Number.prototype.toFixed(0)]: the integer nearest to [x], the larger
    one on a tie; the sign is printed when [x < 0].  (Above [10^21] the
    method prints an exponent instead.) *)
Definition toFixed0 (x : Q) : string :=
  let negative := match (x ?= 0)%Q with Lt => true | _ => false end in
  let n := Qfloor ((if negative then (- x)%Q else x) + (1 # 2))%Q in
  (if negative then "-" else EmptyString) ++ Tuners.digits n.

(** ** The shapes the tools exchange

    The server reads these fields of its arguments; a profile that arrives
    as JSON holds finite numbers. *)

Record TasteProfile := {
  abstraction : Q;
  restraint : Q;
  density : Q;
  motion : Q;
  contrast : Q;
  narrative : Q;
  motifPreference : list string;
  typographyLooseness : Q;
  colorTemperature : Taste.ColorTemperature;
  surfaceComplexity : Q
}.

Module TargetRoute.
Record t := {
  path : string;
  intent : string;
  audience : option string
}.
End TargetRoute.

Record RepoMetadata := {
  srcPath : option string
}.

Module Recipe.
Record t := {
  density : Q;
  spacing : string;
  motion : string
}.
End Recipe.

Record PlanSection := {
  id : string;
  type : string;
  motif : string;
  components : list string;
  recipe : Recipe.t
}.

Module Theme.
Record t := {
  colorTemperature : Taste.ColorTemperature;
  surfaceComplexity : Q;
  typographyLooseness : Q
}.
End Theme.

Record Plan := {
  targetRoute : string;
  archetype : string;
  intent : string;
  audience : option string;
  sections : list PlanSection;
  theme : Theme.t;
  motifs : list string;
  signatureBlocks : list string;
  appliedTuners : option Tuners.TunerValues;
  confidence : Q;
  reasoning : string
}.

(** ** Page archetypes *)

Module Archetype.
Record t := {
  sections : list string;
  motifs : list string;
  signatureBlocks : list string
}.
End Archetype.

(** [keyof typeof PAGE_ARCHETYPES]. *)
Inductive ArchetypeKey :=
| dashboard | landing | detail | wizard | settings | docs.

Definition archetype_name (a : ArchetypeKey) : string :=
  match a with
  | dashboard => "dashboard"
  | landing => "landing"
  | detail => "detail"
  | wizard => "wizard"
  | settings => "settings"
  | docs => "docs"
  end.

Definition PAGE_ARCHETYPES (a : ArchetypeKey) : Archetype.t :=
  match a with
  | dashboard =>
      {| Archetype.sections :=
           ["header"; "metrics"; "charts"; "tables"; "actions"];
         Archetype.motifs := ["dots"; "lines"];
         Archetype.signatureBlocks :=
           ["MetricRibbon"; "ChartCard"; "DataTable"] |}
  | landing =>
      {| Archetype.sections :=
           ["hero"; "features"; "social-proof"; "pricing"; "cta"; "footer"];
         Archetype.motifs := ["gradients"; "blur"; "particles"];
         Archetype.signatureBlocks :=
           ["HeroSection"; "FeatureGrid"; "TestimonialCarousel";
            "PricingTable"] |}
  | detail =>
      {| Archetype.sections := ["header"; "content"; "sidebar"; "actions"];
         Archetype.motifs := ["lines"];
         Archetype.signatureBlocks :=
           ["DetailHeader"; "ContentPane"; "ActionPanel"] |}
  | wizard =>
      {| Archetype.sections := ["stepper"; "form"; "navigation"];
         Archetype.motifs := ["lines"; "progress"];
         Archetype.signatureBlocks :=
           ["StepIndicator"; "FormSection"; "NavigationBar"] |}
  | settings =>
      {| Archetype.sections := ["navigation"; "form"; "actions"];
         Archetype.motifs := ["lines"];
         Archetype.signatureBlocks :=
           ["SettingsNav"; "SettingsForm"; "SaveBar"] |}
  | docs =>
      {| Archetype.sections := ["navigation"; "content"; "toc"];
         Archetype.motifs := ["lines"];
         Archetype.signatureBlocks :=
           ["DocNav"; "DocContent"; "TableOfContents"] |}
  end.

(** ** [proposePagePlan] *)

(** The archetype, from the intent and the path. *)
Definition archetype_for (targetRoute : TargetRoute.t) : ArchetypeKey :=
  let path := TargetRoute.path targetRoute in
  if String.eqb (TargetRoute.intent targetRoute) "marketing" then landing
  else if includes "settings" path then settings
  else if includes "wizard" path || includes "onboard" path then wizard
  else if includes "docs" path then docs
  else if matches_detail path then detail
  else dashboard.

(** [archetypeConfig.motifs.filter(...)]: the profile is read before the
    tuners are applied. *)
Definition selectMotifs (config : Archetype.t) (tasteProfile : TasteProfile)
  : list string :=
  filter (fun motif =>
            existsb (String.eqb motif) (motifPreference tasteProfile)
            || Taste.gt (abstraction tasteProfile) 0.5)
         (Archetype.motifs config).

Definition override (tuner : option Q) (value : Q) : Q :=
  match tuner with Some v => v | None => value end.

(** [{ ...tasteProfile }] with the tuners that are defined written over
    it. *)
Definition applyTunerOverrides (tasteProfile : TasteProfile)
  (tuners : option Tuners.TunerValues) : TasteProfile :=
  match tuners with
  | None => tasteProfile
  | Some t =>
      {| abstraction :=
           override (Tuners.abstraction_opt t) (abstraction tasteProfile);
         restraint := restraint tasteProfile;
         density := override (Tuners.density_opt t) (density tasteProfile);
         motion := override (Tuners.motion_opt t) (motion tasteProfile);
         contrast := override (Tuners.contrast_opt t) (contrast tasteProfile);
         narrative :=
           override (Tuners.narrative_opt t) (narrative tasteProfile);
         motifPreference := motifPreference tasteProfile;
         typographyLooseness := typographyLooseness tasteProfile;
         colorTemperature := colorTemperature tasteProfile;
         surfaceComplexity := surfaceComplexity tasteProfile |}
  end.

(** [selectedMotifs[index % selectedMotifs.length] || 'none']: with no
    motif selected the index is NaN and the element [undefined]. *)
Definition motifAt (selectedMotifs : list string) (index : nat) : string :=
  match nth_error selectedMotifs (index mod length selectedMotifs) with
  | Some m => if String.eqb m EmptyString then "none" else m
  | None => "none"
  end.

(** [a < b]. *)
Definition lt (a b : Q) : bool :=
  match (a ?= b)%Q with Lt => true | _ => false end.

(** The callback of [archetypeConfig.sections.map]. *)
Definition planSection (config : Archetype.t) (selectedMotifs : list string)
  (appliedTaste : TasteProfile) (section : string) (index : nat)
  : PlanSection :=
  {| id := "section-" ++ index_key index;
     type := section;
     motif := motifAt selectedMotifs index;
     components :=
       filter (fun block =>
                 includes section (toLowerCase block) || Nat.eqb index 0)
              (Archetype.signatureBlocks config);
     recipe :=
       {| Recipe.density := density appliedTaste;
          Recipe.spacing := if lt (density appliedTaste) 0.5
                            then "spacious" else "compact";
          Recipe.motion := if Taste.gt (motion appliedTaste) 0.5
                           then "enabled" else "minimal" |} |}.

(** [array.map((element, index) => ...)]. *)
Fixpoint map_indexed {A B : Type} (f : A -> nat -> B) (index : nat)
  (l : list A) : list B :=
  match l with
  | [] => []
  | x :: rest => f x index :: map_indexed f (S index) rest
  end.

Definition proposePagePlan (repoMetadata : RepoMetadata)
  (tasteProfile : TasteProfile) (targetRoute : TargetRoute.t)
  (tuners : option Tuners.TunerValues) : Plan :=
  let archetype_ := archetype_for targetRoute in
  let archetypeConfig := PAGE_ARCHETYPES archetype_ in
  let selectedMotifs := selectMotifs archetypeConfig tasteProfile in
  let appliedTaste := applyTunerOverrides tasteProfile tuners in
  {| targetRoute := TargetRoute.path targetRoute;
     archetype := archetype_name archetype_;
     intent := TargetRoute.intent targetRoute;
     audience := TargetRoute.audience targetRoute;
     sections :=
       map_indexed (planSection archetypeConfig selectedMotifs appliedTaste)
                   0 (Archetype.sections archetypeConfig);
     theme :=
       {| Theme.colorTemperature := colorTemperature appliedTaste;
          Theme.surfaceComplexity := surfaceComplexity appliedTaste;
          Theme.typographyLooseness := typographyLooseness appliedTaste |};
     motifs := selectedMotifs;
     signatureBlocks := Archetype.signatureBlocks archetypeConfig;
     appliedTuners := tuners;
     confidence := 0.8;
     reasoning :=
       "Selected " ++ archetype_name archetype_ ++ " archetype for "
       ++ TargetRoute.intent targetRoute ++ " intent. "
       ++ "Applied " ++ Engine.join selectedMotifs
       ++ " motifs based on taste profile with "
       ++ toFixed0 (abstraction appliedTaste * 100)
       ++ "% abstraction." |}.

(** ** [generatePatch] *)

Record Patch := {
  file : string;
  operation : string;
  content : string;
  description : string
}.

Record PatchInstructions := {
  patches : list Patch;
  affectedFiles : list string
}.

(** [x || fallback] on a string that may be missing. *)
Definition or_else (x : option string) (fallback : string) : string :=
  match x with
  | Some s => if String.eqb s EmptyString then fallback else s
  | None => fallback
  end.

Definition temperature_name (t : Taste.ColorTemperature) : string :=
  match t with
  | Taste.warm => "warm"
  | Taste.cool => "cool"
  | Taste.neutral => "neutral"
  end.

Section Templates.

(** A number inside a template literal is printed by
    [Number.prototype.toString], which depends on the binary64 value; the
    templates are given for any such printer. *)
Variable print_number : Q -> string.

(** [generatePageComponent]. *)
Definition generatePageComponent (plan : Plan) (repo : RepoMetadata)
  : string :=
  let imports :=
    lines (map (fun s =>
                  "import { " ++ capitalizeFirst (type s)
                  ++ "Section } from './" ++ capitalizeFirst (type s)
                  ++ "Section';")
               (sections plan)) in
  let sections_ :=
    lines (map (fun s =>
                  "        <" ++ capitalizeFirst (type s) ++ "Section />")
               (sections plan)) in
  lines
    [ "/**";
      " * " ++ capitalizeFirst (archetype plan) ++ " Page - "
      ++ targetRoute plan;
      " *";
      " * Generated by Visual MCP Server";
      " * Intent: " ++ intent plan;
      " * Audience: " ++ or_else (audience plan) "general";
      " *";
      " * @generated Visual MCP Contract v1";
      " */";
      EmptyString;
      "import React from 'react';";
      imports;
      "import { cn } from '@/lib/utils';";
      EmptyString;
      "export default function "
      ++ capitalizeFirst
           (replace_slashes EmptyString (strip_slash (targetRoute plan)))
      ++ "Page() {";
      "  return (";
      "    <div className={cn(";
      "      " ++ quoted "min-h-screen bg-background" ++ ",";
      "      "
      ++ quoted (match Theme.colorTemperature (theme plan) with
                 | Taste.warm => "warm-palette"
                 | Taste.cool => "cool-palette"
                 | Taste.neutral => EmptyString
                 end);
      "    )}>";
      "      <main className=" ++ quoted "container mx-auto px-4 py-8"
      ++ ">";
      sections_;
      "      </main>";
      "    </div>";
      "  );";
      "}";
      EmptyString ].

(** [generateSectionComponent]. *)
Definition generateSectionComponent (section : PlanSection) (plan : Plan)
  (repo : RepoMetadata) : string :=
  let plain := String.eqb (motif section) "none" in
  let motifImport :=
    if plain then EmptyString
    else "import { MotifLayer } from '@/design-system/theme';" in
  let motifWrapper :=
    if plain then EmptyString
    else "      <MotifLayer type=" ++ quoted (motif section)
         ++ " intensity={0.3} />" ++ newline in
  let cap := capitalizeFirst (type section) in
  lines
    [ "/**";
      " * " ++ cap ++ " Section";
      " *";
      " * Part of " ++ archetype plan ++ " page layout.";
      " * Motif: " ++ motif section;
      " * Density: " ++ print_number (Recipe.density (recipe section));
      " *";
      " * @generated Visual MCP Contract v1";
      " */";
      EmptyString;
      "import React from 'react';";
      motifImport;
      "import { cn } from '@/lib/utils';";
      EmptyString;
      "interface " ++ cap ++ "SectionProps {";
      "  className?: string;";
      "}";
      EmptyString;
      "export function " ++ cap ++ "Section({ className }: " ++ cap
      ++ "SectionProps) {";
      "  return (";
      "    <section className={cn(";
      "      "
      ++ quoted ("relative py-"
                 ++ (if String.eqb (Recipe.spacing (recipe section))
                                   "spacious"
                     then "16" else "8"))
      ++ ",";
      "      "
      ++ quoted (if String.eqb (Recipe.motion (recipe section)) "enabled"
                 then "motion-safe:animate-in" else EmptyString)
      ++ ",";
      "      className";
      "    )}>";
      motifWrapper ++ "      <div className=" ++ quoted "relative z-10"
      ++ ">";
      "        {/* TODO: Add " ++ type section ++ " content */}";
      "        <h2 className=" ++ quoted "text-2xl font-semibold" ++ ">"
      ++ cap ++ "</h2>";
      "      </div>";
      "    </section>";
      "  );";
      "}";
      EmptyString ].

(** The directory of the page: [routePath] is the route without its
    leading slash and with a hyphen for every other slash, or [index]. *)
Definition pageDir (plan : Plan) (repoMetadata : RepoMetadata) : string :=
  let srcPath_ := or_else (srcPath repoMetadata) "src" in
  let routePath :=
    or_else (Some (replace_slashes "-" (strip_slash (targetRoute plan))))
            "index" in
  srcPath_ ++ "/pages/" ++ routePath.

Definition pagePatch (plan : Plan) (repoMetadata : RepoMetadata) : Patch :=
  {| file := pageDir plan repoMetadata ++ "/index.tsx";
     operation := "create";
     content := generatePageComponent plan repoMetadata;
     description :=
       "Create " ++ archetype plan ++ " page for " ++ targetRoute plan |}.

Definition sectionPatch (plan : Plan) (repoMetadata : RepoMetadata)
  (section : PlanSection) : Patch :=
  {| file := pageDir plan repoMetadata ++ "/"
             ++ capitalizeFirst (type section) ++ "Section.tsx";
     operation := "create";
     content := generateSectionComponent section plan repoMetadata;
     description := "Create " ++ type section ++ " section component" |}.

(** [{ ...p, description: `[DRY RUN] ${p.description}` }]. *)
Definition markDryRun (p : Patch) : Patch :=
  {| file := file p;
     operation := operation p;
     content := content p;
     description := "[DRY RUN] " ++ description p |}.

Definition generatePatch (plan : Plan) (repoMetadata : RepoMetadata)
  (dryRun : bool) : PatchInstructions :=
  let created :=
    pagePatch plan repoMetadata
    :: map (sectionPatch plan repoMetadata) (sections plan) in
  {| patches := if dryRun then map markDryRun created else created;
     affectedFiles := map file created |}.

End Templates.

(** ** [verifyUI] *)

Inductive Status := pass | fail | warn.

(** What [execSync] did with a command: it returned the output, or it
    threw an error that may carry the output and a message. *)
Inductive Outcome :=
| Returned (output : string)
| Thrown (stdout message : option string).

(** The commands [verifyUI] can run in the repository, and whether the
    repository has a [tsconfig.json]. *)
Record Repository := {
  ui_guard : Outcome;
  ui_shots : Outcome;
  ui_diff : Outcome;
  has_tsconfig : bool;
  tsc : Outcome
}.

Record CheckEntry := {
  name : string;
  status : Status;
  message : string;
  details : option string
}.

Record Summary := {
  total : nat;
  passed : nat;
  failed : nat;
  warnings : nat
}.

Record VerificationChecklist := {
  checks : list CheckEntry;
  summary : Summary;
  overallStatus : Status
}.

(** [err.stdout || err.message]. *)
Definition error_details (stdout message_ : option string) : option string :=
  match stdout with
  | Some s => if String.eqb s EmptyString then message_ else Some s
  | None => message_
  end.

Definition guardCheck (repo : Repository) : CheckEntry :=
  match ui_guard repo with
  | Returned guardOutput =>
      {| name := "ui:guard"; status := pass;
         message := "Component guardrails passed";
         details := Some guardOutput |}
  | Thrown stdout message_ =>
      {| name := "ui:guard"; status := fail;
         message := "Component guardrails failed";
         details := error_details stdout message_ |}
  end.

Definition visualCheck (repo : Repository) (updateBaselines : bool)
  : CheckEntry :=
  match (if updateBaselines then ui_shots repo else ui_diff repo) with
  | Returned visualOutput =>
      {| name := "visual-regression"; status := pass;
         message := if updateBaselines then "Baselines updated"
                    else "Visual comparison passed";
         details := Some visualOutput |}
  | Thrown stdout message_ =>
      {| name := "visual-regression";
         status := if updateBaselines then warn else fail;
         message := if updateBaselines then "Baseline update had issues"
                    else "Visual regression detected";
         details := error_details stdout message_ |}
  end.

Definition typescriptCheck (repo : Repository) : list CheckEntry :=
  if has_tsconfig repo then
    match tsc repo with
    | Returned _ =>
        [ {| name := "typescript"; status := pass;
             message := "TypeScript compilation successful";
             details := None |} ]
    | Thrown stdout message_ =>
        [ {| name := "typescript"; status := warn;
             message := "TypeScript errors found";
             details := error_details stdout message_ |} ]
    end
  else [].

Definition has_status (s : Status) (c : CheckEntry) : bool :=
  match s, status c with
  | pass, pass | fail, fail | warn, warn => true
  | _, _ => false
  end.

(** [verifyUI]; [updateBaselines] is [false] when the argument is left
    out. *)
Definition verifyUI (repo : Repository) (routes : option (list string))
  (updateBaselines : bool) : VerificationChecklist :=
  let checks_ :=
    ([ guardCheck repo; visualCheck repo updateBaselines ]
     ++ typescriptCheck repo)%list in
  let passCount := length (filter (has_status pass) checks_) in
  let failCount := length (filter (has_status fail) checks_) in
  {| checks := checks_;
     summary :=
       {| total := length checks_;
          passed := passCount;
          failed := failCount;
          warnings := length (filter (has_status warn) checks_) |};
     overallStatus :=
       if Nat.ltb 0 failCount then fail
       else if Nat.eqb passCount (length checks_) then pass
       else warn |}.

End Server.

(* ===================================================================== *)
(** * The pattern learner ([PatternLearner] of the inspiration scanner) *)
(* ===================================================================== *)

Module Learner.
Import Js.
Local Open Scope string_scope.

(** The members of the string unions are held as the strings they are
    at run time. *)
Record InspirationSource := {
  type : string;
  value : string;
  weight : option Q
}.

Record Colors := {
  primary : list string;
  secondary : list string;
  accent : list string;
  background : list string;
  text : list string;
  gradients : list string
}.

Record Spacing := {
  scale : string;
  baseUnit : Q;
  patterns : list string
}.

Record Typography := {
  headingStyle : string;
  bodySize : string;
  tracking : string;
  fontStack : list string
}.

Record Components := {
  buttonStyle : string;
  cardStyle : string;
  borderRadius : string;
  shadows : string
}.

Record Motion := {
  level : string;
  duration : Q;
  easing : string
}.

Record Mood := {
  formality : string;
  density : string;
  contrast : string
}.

Record ExtractedDesignLanguage := {
  source : InspirationSource;
  colors : Colors;
  spacing : Spacing;
  typography : Typography;
  components : Components;
  motion : Motion;
  mood : Mood
}.

(** [e.source.weight || 1 / extractions.length]: a weight of zero counts
    as a missing one. *)
Definition weightOf (extractions : list ExtractedDesignLanguage)
  (e : ExtractedDesignLanguage) : Q :=
  let equal := (1 / inject_Z (Z.of_nat (length extractions)))%Q in
  match weight (source e) with
  | Some w => if Qeq_bool w 0 then equal else w
  | None => equal
  end.

Definition weights (extractions : list ExtractedDesignLanguage) : list Q :=
  map (weightOf extractions) extractions.

(** [weights.reduce((a, b) => a + b, 0)]. *)
Definition totalWeight (extractions : list ExtractedDesignLanguage) : Q :=
  fold_left Qplus (weights extractions) 0%Q.

(** [weights.map(w => w / totalWeight)]: not finite when the weights sum
    to zero. *)
Definition normalizedWeights (extractions : list ExtractedDesignLanguage)
  : list Taste.number :=
  map (fun w => Taste.ndiv w (totalWeight extractions)) (weights extractions).

(** [options.indexOf(v)]: the position of the first member equal to
    [v], or [-1]. *)
Fixpoint indexFrom (v : string) (options : list string) (i : Z) : Z :=
  match options with
  | [] => (-1)%Z
  | o :: rest => if String.eqb o v then i else indexFrom v rest (i + 1)%Z
  end.

Definition indexOf (v : string) (options : list string) : Z :=
  indexFrom v options 0%Z.

(** [indices.reduce((sum, idx, i) => sum + idx * weights[i], 0)]; a
    weight that is missing reads as [undefined] and the product is NaN. *)
Fixpoint weightedSum (indices : list Z) (weights_ : list Taste.number)
  (i : nat) (sum : Taste.number) : Taste.number :=
  match indices with
  | [] => sum
  | idx :: rest =>
      weightedSum rest weights_ (S i)
        (Taste.nadd sum
           (Taste.nmul (Some (inject_Z idx)) (nth i weights_ None)))
  end.

(** [options[Math.round(avgIndex)]]: [Math.round] takes the nearest
    integer, the larger one on a tie; an index that is not finite or out
    of range reads [undefined]. *)
Definition optionAt (options : list string) (avgIndex : Taste.number)
  : option string :=
  match avgIndex with
  | Some q =>
      let k := Qfloor (q + (1 # 2))%Q in
      if (k <? 0)%Z then None else nth_error options (Z.to_nat k)
  | None => None
  end.

(** [PatternLearner.averageEnum]. *)
Definition averageEnum (values : list string) (weights_ : list Taste.number)
  (options : list string) : option string :=
  let indices := map (fun v => indexOf v options) values in
  optionAt options (weightedSum indices weights_ 0 (Some 0%Q)).

(** [x === s] for a value that may be [undefined]. *)
Definition equals (x : option string) (s : string) : bool :=
  match x with
  | Some v => String.eqb v s
  | None => false
  end.

(** [componentStyleToAbstraction], [densityToTuner], [motionToTuner],
    [contrastToTuner] and [formalityToNarrative]. *)
Definition componentStyleToAbstraction (components_ : Components) : Q :=
  if String.eqb (buttonStyle components_) "ghost" then 0.8
  else if String.eqb (buttonStyle components_) "outline" then 0.7
  else if String.eqb (buttonStyle components_) "gradient" then 0.4
  else 0.5.

Definition densityToTuner (density_ : option string) : Q :=
  if equals density_ "sparse" then 0.3
  else if equals density_ "dense" then 0.7 else 0.5.

Definition motionToTuner (motion_ : option string) : Q :=
  if equals motion_ "minimal" then 0.2
  else if equals motion_ "expressive" then 0.8 else 0.5.

Definition contrastToTuner (contrast_ : option string) : Q :=
  if equals contrast_ "low" then 0.3
  else if equals contrast_ "high" then 0.8 else 0.5.

Definition formalityToNarrative (formality_ : string) : Q :=
  if String.eqb formality_ "playful" then 0.7
  else if String.eqb formality_ "professional" then 0.4 else 0.5.

Definition densityOptions : list string := ["sparse"; "balanced"; "dense"].
Definition contrastOptions : list string := ["low"; "medium"; "high"].
Definition motionOptions : list string := ["minimal"; "subtle"; "expressive"].

Definition avgDensity (extractions : list ExtractedDesignLanguage)
  : option string :=
  averageEnum (map (fun e => density (mood e)) extractions)
              (normalizedWeights extractions) densityOptions.

Definition avgContrast (extractions : list ExtractedDesignLanguage)
  : option string :=
  averageEnum (map (fun e => contrast (mood e)) extractions)
              (normalizedWeights extractions) contrastOptions.

Definition avgMotion (extractions : list ExtractedDesignLanguage)
  : option string :=
  averageEnum (map (fun e => level (motion e)) extractions)
              (normalizedWeights extractions) motionOptions.

(** The [tuners] of the profile that [PatternLearner.learn] returns.
    The token builders read [extractions[0]], which throws when there is
    no extraction.  (The tokens, the recipes and the time stamp of the
    profile are printed from the first extraction and the clock; they
    are not part of this function.) *)
Definition learnTuners (extractions : list ExtractedDesignLanguage)
  : result Tuners.AppliedTuners :=
  match extractions with
  | [] => Throw TypeError
  | primaryExtraction :: _ =>
      Ok {| Tuners.abstraction :=
              componentStyleToAbstraction (components primaryExtraction);
            Tuners.density := densityToTuner (avgDensity extractions);
            Tuners.motion := motionToTuner (avgMotion extractions);
            Tuners.contrast := contrastToTuner (avgContrast extractions);
            Tuners.narrative :=
              formalityToNarrative (formality (mood primaryExtraction)) |}
  end.

(** [InspirationScanner.extractFromDescription]. *)
Definition extractFromDescription (source_ : InspirationSource)
  : ExtractedDesignLanguage :=
  let desc := toLowerCase (value source_) in
  let has word := Server.includes word desc in
  let isDark := has "dark" || has "night" in
  let isMinimal := has "minimal" || has "clean" in
  let isPremium := has "premium" || has "luxury" in
  let isPlayful := has "playful" || has "fun" in
  let isDense := has "dense" || has "compact" in
  let isAnimated := has "animated" || has "motion" in
  {| source := source_;
     colors :=
       {| primary := if isDark then ["#6366F1"] else ["#3B82F6"];
          secondary := ["#8B5CF6"];
          accent := if isPremium then ["#F59E0B"] else ["#10B981"];
          background :=
            if isDark then ["#0F0F0F"; "#171717"; "#262626"]
            else ["#FFFFFF"; "#F9FAFB"; "#F3F4F6"];
          text :=
            if isDark then ["#FAFAFA"; "#A1A1AA"; "#71717A"]
            else ["#111827"; "#6B7280"; "#9CA3AF"];
          gradients :=
            if isPremium
            then ["linear-gradient(135deg, #6366F1 0%, #8B5CF6 100%)"]
            else [] |};
     spacing :=
       {| scale := if isDense then "tight"
                   else if isPremium then "spacious" else "comfortable";
          baseUnit := if isDense then 4 else 8;
          patterns := if isDense then ["p-2"; "p-3"; "gap-2"]
                      else ["p-4"; "p-6"; "gap-4"] |};
     typography :=
       {| headingStyle := if isPremium then "bold" else "medium";
          bodySize := if isDense then "sm" else "base";
          tracking := if isMinimal then "tight" else "normal";
          fontStack := ["Inter"; "system-ui"; "sans-serif"] |};
     components :=
       {| buttonStyle := if isMinimal then "ghost"
                         else if isPremium then "gradient" else "solid";
          cardStyle := if isDark then "bordered" else "elevated";
          borderRadius := if isPlayful then "lg" else "md";
          shadows := if isMinimal then "none" else "subtle" |};
     motion :=
       {| level := if isAnimated then "expressive"
                   else if isMinimal then "minimal" else "subtle";
          duration := if isAnimated then 300 else 200;
          easing := "ease-out" |};
     mood :=
       {| formality := if isPlayful then "playful" else "professional";
          density := if isDense then "dense" else "balanced";
          contrast := if isMinimal then "low" else "medium" |} |}.

(** A source of type [description]. *)
Definition described (text_ : string) (weight_ : option Q)
  : InspirationSource :=
  {| type := "description"; value := text_; weight := weight_ |}.

End Learner.

(* ===================================================================== *)
(** * Vocabulary for the laws of the blend *)
(* ===================================================================== *)

Module Blending.
Import Taste.

(** Two numbers that are equal as numbers, or both not finite. *)
Definition same (a b : number) : Prop :=
  match a, b with
  | Some x, Some y => (x == y)%Q
  | None, None => True
  | _, _ => False
  end.

(** A profile whose continuous fields are finite and lie in the unit
    interval. *)
Definition in_range (p : TasteProfile) : Prop :=
  forall c, exists x, field c p = Some x /\ (0 <= x <= 1)%Q.

(** The least positive normal binary64 number, [2 ^ -1022]: a weight
    that is at least this large and is scaled by 0.3 or by 0.5 does not
    round to zero. *)
Definition min_normal : Q := 1 # (2 ^ 1022).

(** The running sum of one field over the entries. *)
Definition running (c : Continuous) (W : Q) (profiles : list Entry)
  (acc : number) : number :=
  fold_left
    (fun acc e => nadd acc (nmul (read c e) (ndiv (entry_weight e) W)))
    profiles acc.

End Blending.

(* ===================================================================== *)
(** * Vocabulary for theme switches *)
(* ===================================================================== *)

Module Switch.
Import Engine.
Local Open Scope string_scope.

(** The style parameter that carries the text transform of a step. *)
Definition transformName (step : string) : string :=
  "--ds-type-" ++ step ++ "-transform".

(** A theme like [theme] whose type scale sets no text transform. *)
Definition plain (token : TypeScaleToken) : TypeScaleToken :=
  {| fontSize := fontSize token;
     fontWeight := fontWeight token;
     letterSpacing := letterSpacing token;
     lineHeight := lineHeight token;
     textTransform := None |}.

Definition withoutTransforms (theme : ThemePack) : ThemePack :=
  let t := tokens theme in
  {| name := name theme;
     mode := mode theme;
     tokens :=
       {| bg := bg t; surface := surface t; surface2 := surface2 t;
          surfaceInset := surfaceInset t; border := border t;
          borderSubtle := borderSubtle t; text := text t;
          textMuted := textMuted t; accent := accent t;
          accentFg := accentFg t; accentMuted := accentMuted t;
          accentSecondary := accentSecondary t; ring := ring t;
          success := success t; successMuted := successMuted t;
          warning := warning t; warningMuted := warningMuted t;
          danger := danger t; dangerMuted := dangerMuted t;
          shadowSurface := shadowSurface t;
          shadowPopover := shadowPopover t; shadowGlow := shadowGlow t;
          radiusSurface := radiusSurface t;
          radiusControl := radiusControl t;
          typeScale := map (fun e => (fst e, plain (snd e))) (typeScale t);
          density := density t |};
     recipes := recipes theme |}.

End Switch.

(* ===================================================================== *)
(** * Vocabulary for URLs *)
(* ===================================================================== *)

Module Urls.
Local Open Scope string_scope.

(** A piece of text without a slash and without a dot, such as the first
    label of a host name. *)
Fixpoint is_label (s : string) : bool :=
  match s with
  | EmptyString => true
  | String c rest =>
      negb (Ascii.eqb c "/") && negb (Ascii.eqb c ".") && is_label rest
  end.

End Urls.

(* ===================================================================== *)
(** * The blend in binary64 *)
(* ===================================================================== *)

(** [deriveTasteFromInspirations] once more, with every number an IEEE
    754 binary64 value and every operation rounded as JavaScript rounds
    it.  The strings, the table's keys and the control flow are those of
    [Taste]; a decimal literal of the source is the double nearest to it. *)
Module Binary64.
Import Js.
Local Open Scope string_scope.
Local Open Scope float_scope.

Record TasteProfile := {
  abstraction : float;
  restraint : float;
  density : float;
  motion : float;
  contrast : float;
  narrative : float;
  motifPreference : list string;
  typographyLooseness : float;
  colorTemperature : Taste.ColorTemperature;
  surfaceComplexity : float
}.

Definition field (c : Taste.Continuous) (p : TasteProfile) : float :=
  match c with
  | Taste.Abstraction => abstraction p
  | Taste.Restraint => restraint p
  | Taste.Density => density p
  | Taste.Motion => motion p
  | Taste.Contrast => contrast p
  | Taste.Narrative => narrative p
  | Taste.TypographyLooseness => typographyLooseness p
  | Taste.SurfaceComplexity => surfaceComplexity p
  end.

Definition profile (a r d m c n : float) (motifs : list string) (t : float)
  (temp : Taste.ColorTemperature) (s : float) : TasteProfile :=
  {| abstraction := a;
     restraint := r;
     density := d;
     motion := m;
     contrast := c;
     narrative := n;
     motifPreference := motifs;
     typographyLooseness := t;
     colorTemperature := temp;
     surfaceComplexity := s |}.

(** The table's own entries, in source order; the arguments of [profile]
    follow the order of the fields in the source literals. *)
Definition KNOWN_REFERENCES : list (string * TasteProfile) :=
  [ ("linear",
     profile 0.7 0.8 0.4 0.6 0.7 0.5 ["gradients"; "blur"] 0.3 Taste.cool
             0.5);
    ("stripe",
     profile 0.5 0.7 0.5 0.7 0.6 0.7 ["gradients"; "mesh"] 0.4 Taste.cool
             0.6);
    ("vercel",
     profile 0.8 0.9 0.3 0.5 0.8 0.4 ["lines"; "gradients"] 0.2
             Taste.neutral 0.3);
    ("notion",
     profile 0.3 0.6 0.6 0.3 0.5 0.6 ["illustrations"] 0.5 Taste.warm 0.4);
    ("figma",
     profile 0.4 0.5 0.5 0.6 0.5 0.5 ["illustrations"; "icons"] 0.4
             Taste.warm 0.5);
    ("apple",
     profile 0.6 0.8 0.3 0.7 0.7 0.8 ["photography"; "gradients"] 0.2
             Taste.neutral 0.4);
    ("github",
     profile 0.4 0.7 0.6 0.3 0.6 0.4 ["icons"; "illustrations"] 0.3
             Taste.neutral 0.3);
    ("airbnb",
     profile 0.3 0.4 0.5 0.5 0.5 0.7 ["photography"; "illustrations"] 0.5
             Taste.warm 0.5);
    ("chronicle",
     profile 0.7 0.6 0.4 0.6 0.7 0.5 ["dots"; "lines"; "gradients"] 0.3
             Taste.cool 0.6);
    ("raycast",
     profile 0.6 0.8 0.5 0.5 0.7 0.4 ["blur"; "gradients"] 0.3 Taste.cool
             0.5) ].

(** What [KNOWN_REFERENCES[key]] evaluates to when it is truthy: a profile
    of the table, or a member of [Object.prototype], which has none of a
    profile's fields. *)
Inductive reference :=
| Profile (p : TasteProfile)
| Inherited.

Fixpoint assoc (key : string) (table : list (string * TasteProfile))
  : option TasteProfile :=
  match table with
  | [] => None
  | (k, p) :: rest => if String.eqb key k then Some p else assoc key rest
  end.

Definition known_reference (key : string) : option reference :=
  match assoc key KNOWN_REFERENCES with
  | Some p => Some (Profile p)
  | None => if existsb (String.eqb key) Taste.inherited_names
            then Some Inherited else None
  end.

(** [weight] is [None] when the property is missing. *)
Record Inspiration := {
  type : string;
  value : string;
  weight : option float
}.

Record Entry := {
  entry_profile : reference;
  entry_weight : float
}.

Definition unknown_profile : TasteProfile :=
  profile 0.5 0.5 0.5 0.5 0.5 0.5 ["gradients"] 0.5 Taste.neutral 0.5.

Definition screenshot_profile : TasteProfile :=
  profile 0.6 0.5 0.5 0.4 0.5 0.5 ["gradients"] 0.5 Taste.neutral 0.5.

(** One turn of the loop over [inspirations]: the entries it pushes. *)
Definition resolve (insp : Inspiration) : list Entry :=
  let weight_ := match weight insp with Some w => w | None => 1.0 end in
  if String.eqb (type insp) "reference-name"
     || String.eqb (type insp) "reference"
  then
    match known_reference (toLowerCase (value insp)) with
    | Some ref => [ {| entry_profile := ref; entry_weight := weight_ |} ]
    | None => [ {| entry_profile := Profile unknown_profile;
                   entry_weight := weight_ * 0.5 |} ]
    end
  else if String.eqb (type insp) "url" then
    match known_reference (Taste.domain_name (value insp)) with
    | Some ref => [ {| entry_profile := ref; entry_weight := weight_ |} ]
    | None => [ {| entry_profile := Profile unknown_profile;
                   entry_weight := weight_ * 0.3 |} ]
    end
  else if String.eqb (type insp) "screenshot" then
    [ {| entry_profile := Profile screenshot_profile;
         entry_weight := weight_ * 0.5 |} ]
  else [].

(** [profiles.reduce((sum, p) => sum + p.weight, 0)]. *)
Definition totalWeight (profiles : list Entry) : float :=
  fold_left (fun sum p => sum + entry_weight p) profiles 0.

(** A field read from an entry: [undefined], which arithmetic turns into
    NaN, when the entry holds a member of [Object.prototype]. *)
Definition read (c : Taste.Continuous) (e : Entry) : float :=
  match entry_profile e with
  | Profile p => field c p
  | Inherited => nan
  end.

Definition initial : TasteProfile :=
  {| abstraction := 0;
     restraint := 0;
     density := 0;
     motion := 0;
     contrast := 0;
     narrative := 0;
     motifPreference := [];
     typographyLooseness := 0;
     colorTemperature := Taste.neutral;
     surfaceComplexity := 0 |}.

(** One turn of the loop that blends the numeric values:
    [const w = weight / totalWeight] and then, for each field,
    [blended.f += profile.f * w]. *)
Definition accumulate (total : float) (blended : TasteProfile) (e : Entry)
  : TasteProfile :=
  let w := entry_weight e / total in
  let add c := field c blended + read c e * w in
  {| abstraction := add Taste.Abstraction;
     restraint := add Taste.Restraint;
     density := add Taste.Density;
     motion := add Taste.Motion;
     contrast := add Taste.Contrast;
     narrative := add Taste.Narrative;
     motifPreference := motifPreference blended;
     typographyLooseness := add Taste.TypographyLooseness;
     colorTemperature := colorTemperature blended;
     surfaceComplexity := add Taste.SurfaceComplexity |}.

Definition blendNumeric (profiles : list Entry) : TasteProfile :=
  fold_left (accumulate (totalWeight profiles)) profiles initial.

(** The loop that collects the motif preferences: [forEach] is called on
    [undefined] when the entry holds a member of [Object.prototype]. *)
Fixpoint collectMotifs (profiles : list Entry) (set : list string)
  : result (list string) :=
  match profiles with
  | [] => Ok set
  | e :: rest =>
      match entry_profile e with
      | Profile p =>
          collectMotifs rest
            (fold_left (fun s m => Taste.set_add m s) (motifPreference p) set)
      | Inherited => Throw TypeError
      end
  end.

Record TempCounts := {
  count_warm : float;
  count_cool : float;
  count_neutral : float
}.

(** [tempCounts[profile.colorTemperature] += weight]. *)
Definition vote (counts : TempCounts) (e : Entry) : TempCounts :=
  match entry_profile e with
  | Profile p =>
      match colorTemperature p with
      | Taste.warm =>
          {| count_warm := count_warm counts + entry_weight e;
             count_cool := count_cool counts;
             count_neutral := count_neutral counts |}
      | Taste.cool =>
          {| count_warm := count_warm counts;
             count_cool := count_cool counts + entry_weight e;
             count_neutral := count_neutral counts |}
      | Taste.neutral =>
          {| count_warm := count_warm counts;
             count_cool := count_cool counts;
             count_neutral := count_neutral counts + entry_weight e |}
      end
  | Inherited => counts
  end.

Definition tempCounts (profiles : list Entry) : TempCounts :=
  fold_left vote profiles
    {| count_warm := 0; count_cool := 0; count_neutral := 0 |}.

(** [a > b]: false when either side is NaN. *)
Definition gt (a b : float) : bool := b <? a.

Definition pickTemperature (counts : TempCounts) : Taste.ColorTemperature :=
  if gt (count_warm counts) (count_cool counts)
     && gt (count_warm counts) (count_neutral counts)
  then Taste.warm
  else if gt (count_cool counts) (count_neutral counts) then Taste.cool
  else Taste.neutral.

(** Everything after the loop over [inspirations]. *)
Definition blend (profiles : list Entry) : result TasteProfile :=
  let blended := blendNumeric profiles in
  match collectMotifs profiles [] with
  | Throw e => Throw e
  | Ok motifs =>
      Ok {| abstraction := abstraction blended;
            restraint := restraint blended;
            density := density blended;
            motion := motion blended;
            contrast := contrast blended;
            narrative := narrative blended;
            motifPreference := motifs;
            typographyLooseness := typographyLooseness blended;
            colorTemperature := pickTemperature (tempCounts profiles);
            surfaceComplexity := surfaceComplexity blended |}
  end.

(** [deriveTasteFromInspirations]; the argument is [None] when the caller
    passed [undefined].  A rejected promise is a [Throw]. *)
Definition deriveTasteFromInspirations
  (inspirations : option (list Inspiration)) : result TasteProfile :=
  match inspirations with
  | None | Some [] =>
      Throw (McpError InvalidRequest "At least one inspiration required")
  | Some l => blend (flat_map resolve l)
  end.

(** The spec's wording of the blend, as binary64 evaluates it: the total
    weight is the sum of the weights, taken from 0 in the order of the
    observations; the weighted average is the sum, taken from 0 in the
    same order, of each value times its share [w_i / W] of the total. *)
Definition total (observations : list (float * float)) : float :=
  fold_left (fun sum o => sum + snd o) observations 0.

Definition weighted_average (observations : list (float * float)) : float :=
  fold_left (fun sum o => sum + fst o * (snd o / total observations))
    observations 0.

(** An observation as the blending loops see it. *)
Definition observed (p : TasteProfile) (w : float) : Entry :=
  {| entry_profile := Profile p; entry_weight := w |}.

Definition observations (obs : list (TasteProfile * float)) : list Entry :=
  map (fun o => observed (fst o) (snd o)) obs.

(** The values of one field with the weights they carry. *)
Definition weighted (c : Taste.Continuous)
  (obs : list (TasteProfile * float)) : list (float * float) :=
  map (fun o => (field c (fst o), snd o)) obs.

(** Two observations for the worked example of the blend: they differ
    from the neutral defaults in their density only. *)
Definition sparse : TasteProfile :=
  profile 0.5 0.5 0.2 0.5 0.5 0.5 ["gradients"] 0.5 Taste.neutral 0.5.

Definition dense : TasteProfile :=
  profile 0.5 0.5 0.8 0.5 0.5 0.5 ["gradients"] 0.5 Taste.neutral 0.5.

Definition named (value_ : string) (w : float) : Inspiration :=
  {| type := "reference-name"; value := value_; weight := Some w |}.

End Binary64.

(* ===================================================================== *)
(** * Normalization *)
(* ===================================================================== *)

Section Normalization.
Import Js Engine.
Local Open Scope string_scope.
Local Open Scope js_scope.

(** A pack built by the legacy branch passes the guard of the next call. *)
Lemma built_pack_has_both_contexts n m t a b :
  has_both_contexts
    {| name := n; mode := m; tokens := t;
       recipes := lit [ ("product", a); ("marketing", b) ] |} = Ok true.
Proof. reflexivity. Qed.

Ltac step_bind H :=
  match type of H with
  | context [bind ?m _] =>
      let E := fresh "E" in
      destruct m eqn:E; cbn [bind] in H; try discriminate H
  end.

Lemma normalize_output_current x y :
  normalizeThemePack x = Ok y -> has_both_contexts y = Ok true.
Proof.
  unfold normalizeThemePack. intros H.
  destruct (has_both_contexts x) as [[|]|e] eqn:G; cbn [bind] in H;
    try discriminate H.
  - injection H as <-. exact G.
  - cbv zeta in H. repeat step_bind H.
    injection H as <-. apply built_pack_has_both_contexts.
Qed.

Lemma normalize_fixes_current y :
  has_both_contexts y = Ok true -> normalizeThemePack y = Ok y.
Proof. intros H. unfold normalizeThemePack. rewrite H. reflexivity. Qed.

(** Reading a named property of an object never throws. *)
Lemma get_object props k : exists v, get (VObj props) k = Ok v.
Proof. cbn. destruct (lookup k props); eauto. Qed.

Lemma get_opt_total v k : exists x, get_opt v k = Ok x.
Proof.
  destruct v; cbn; eauto.
  destruct (lookup k props); eauto.
Qed.

(** Missing nested fields are tolerated: every pack whose [recipes] is an
    object is normalized, whatever the object holds. *)
Lemma normalize_total_on_objects n m t props :
  exists y,
    normalizeThemePack {| name := n; mode := m; tokens := t;
                          recipes := VObj props |} = Ok y.
Proof.
  unfold normalizeThemePack, has_both_contexts. cbn [recipes truthy has_in bind].
  destruct (lookup "product" props) as [p|];
    [destruct (lookup "marketing" props) as [q|]|]; cbn [bind]; eauto;
    cbv zeta; cbn [get];
    destruct (lookup "AppShell" props) as [a|]; cbn [bind];
    try (destruct (get_opt_total a "backgroundTreatment") as [x ->]);
    cbn [get_opt bind];
    destruct (lookup "Surface" props) as [s|]; cbn [bind];
    try (destruct (get_opt_total s "default") as [d ->]);
    try (destruct (get_opt_total s "floating") as [f ->]);
    cbn [get_opt bind];
    destruct (lookup "SectionHeader" props) as [h|]; cbn [bind]; eauto.
Qed.

End Normalization.

Section NormalizationClaims.
Import Js Engine.
Local Open Scope string_scope.

(** The legacy branch always builds both contexts as objects. *)
Lemma normalize_builds_objects x y :
  has_both_contexts x = Ok false ->
  normalizeThemePack x = Ok y ->
  exists p m,
    recipes y = VObj [ ("product", VObj p); ("marketing", VObj m) ].
Proof.
  unfold normalizeThemePack. intros G H. rewrite G in H. cbn [bind] in H.
  cbv zeta in H.
  repeat match type of H with
         | context [bind ?m _] =>
             destruct m; cbn [bind] in H; try discriminate H
         end.
  injection H as <-. cbn [recipes]. unfold lit, object. cbn.
  eauto.
Qed.

(** C1. Normalization is idempotent.  Running [normalizeThemePack] on its
    own result gives that result again, also when the first run throws;
    and whenever a first run returns a pack, that pack has both the
    [product] and the [marketing] key under [recipes] and a second run
    returns it unchanged. *)
Theorem normalizeThemePack_idempotent (x : ThemePack) :
  bind (normalizeThemePack x) normalizeThemePack = normalizeThemePack x
  /\ (forall y, normalizeThemePack x = Ok y ->
        has_both_contexts y = Ok true /\ normalizeThemePack y = Ok y).
Proof.
  assert (K : forall y, normalizeThemePack x = Ok y ->
                has_both_contexts y = Ok true /\ normalizeThemePack y = Ok y).
  { intros y H. pose proof (normalize_output_current x y H) as G.
    split; [exact G | now apply normalize_fixes_current]. }
  split; [|exact K].
  destruct (normalizeThemePack x) as [y|e] eqn:H; cbn [bind].
  - now apply K.
  - reflexivity.
Qed.

(** C2. Normalization can fail.  A pack that carries a name, a mode and
    tokens but no [recipes] property makes [normalizeThemePack] read
    [AppShell] from [undefined], which throws a [TypeError]. *)
Theorem normalizeThemePack_throws_without_recipes
  (n : string) (m : ThemeMode) (t : ThemeTokens) :
  normalizeThemePack
    {| name := n; mode := m; tokens := t; recipes := VUndefined |}
  = Throw TypeError.
Proof. reflexivity. Qed.

(** C3. The resolver.  When [recipes] holds objects under [product] and
    [marketing], [getRecipesForContext] returns the [marketing] object
    for the marketing context and the [product] object otherwise; when
    [recipes] has neither key, it returns [recipes] itself for either
    context. *)
Theorem getRecipesForContext_correct
  (theme : ThemePack) (props : list (string * value))
  (H : recipes theme = VObj props) :
  (forall p m,
      lookup "product" props = Some (VObj p) ->
      lookup "marketing" props = Some (VObj m) ->
      getRecipesForContext theme marketing = Ok (VObj m)
      /\ getRecipesForContext theme product = Ok (VObj p))
  /\ (lookup "product" props = None ->
      lookup "marketing" props = None ->
      forall context, getRecipesForContext theme context = Ok (recipes theme)).
Proof.
  unfold getRecipesForContext. rewrite H. cbn [get]. split.
  - intros p m -> ->. cbn. split; reflexivity.
  - intros -> -> context. cbn. reflexivity.
Qed.

End NormalizationClaims.

(* ===================================================================== *)
(** * The surface: last writer wins *)
(* ===================================================================== *)

Section Surface.
Import Engine.
Local Open Scope string_scope.




Lemma declared_assign k k' v l :
  declared k (assign k' v l)
  = if String.eqb k k' then Some v else declared k l.
Proof.
  induction l as [|[a x] l IH]; cbn.
  - reflexivity.
  - destruct (String.eqb_spec k' a) as [->|N]; cbn.
    + destruct (String.eqb_spec k a); reflexivity.
    + rewrite IH. destruct (String.eqb_spec k a) as [->|];
        [|reflexivity].
      destruct (String.eqb_spec a k'); [congruence | reflexivity].
Qed.





Lemma declared_assigns k writes l :
  declared k (assigns writes l)
  = match last_write k writes with
    | Some v => Some v
    | None => declared k l
    end.
Proof.
  revert l. induction writes as [|[a x] writes IH]; cbn; intros l;
    [reflexivity|].
  rewrite IH. destruct (last_write k writes); [reflexivity|].
  rewrite declared_assign. now destruct (String.eqb k a).
Qed.





End Surface.

Section Declarations.
Import Engine.
Local Open Scope string_scope.

Lemma declared_unassign k k' l :
  declared k (unassign k' l)
  = if String.eqb k k' then None else declared k l.
Proof.
  unfold unassign. induction l as [|[a x] l IH]; cbn.
  - now destruct (String.eqb k k').
  - destruct (String.eqb_spec k' a) as [->|N]; cbn.
    + rewrite IH. now destruct (String.eqb k a).
    + rewrite IH. destruct (String.eqb_spec k a) as [->|]; [|reflexivity].
      destruct (String.eqb_spec a k'); [congruence | reflexivity].
Qed.

Lemma declared_declare k k' v l :
  declared k (declare k' v l)
  = if String.eqb k k' then written v else declared k l.
Proof.
  unfold declare, written.
  destruct (String.eqb v EmptyString);
    [apply declared_unassign | apply declared_assign].
Qed.




Lemma declared_declares_unwritten k writes l :
  ~ In k (keys writes) -> declared k (declares writes l) = declared k l.
Proof.
  unfold declares. revert l.
  induction writes as [|[a x] writes IH]; cbn; intros l N; [reflexivity|].
  assert (N1 : a <> k) by (intros E; apply N; now left).
  assert (N2 : ~ In k (keys writes)) by (intros E; apply N; now right).
  rewrite IH by exact N2. rewrite declared_declare.
  destruct (String.eqb_spec k a); [congruence | reflexivity].
Qed.

(** When every name is written once, the store holds each write. *)
Lemma declared_declares_written writes l k v :
  NoDup (keys writes) -> In (k, v) writes ->
  declared k (declares writes l) = written v.
Proof.
  revert l. induction writes as [|[a x] writes IH]; cbn; intros l D H;
    [tauto|].
  apply NoDup_cons_iff in D as [Na D]. destruct H as [E|H].
  - injection E as -> ->.
    change (declared k (declares writes (declare k v l)) = written v).
    rewrite declared_declares_unwritten by exact Na.
    now rewrite declared_declare, String.eqb_refl.
  - now apply IH.
Qed.


End Declarations.

Section ParameterNames.
Import Engine.
Local Open Scope string_scope.

Lemma distinct_NoDup l : distinct l = true -> NoDup l.
Proof.
  induction l as [|x l IH]; cbn; [constructor|].
  rewrite andb_true_iff, negb_true_iff. intros [N D].
  constructor; [|auto]. intros H.
  assert (E : existsb (String.eqb x) l = true).
  { apply existsb_exists. exists x. now rewrite String.eqb_refl. }
  congruence.
Qed.

(** The names written for the declared steps and fields are all
    different. *)
Lemma declared_names_distinct :
  NoDup (coreNames ++ flat_map stepNames typeScaleSteps
         ++ map densityName densityFields).
Proof. apply distinct_NoDup. reflexivity. Qed.

Lemma keys_typeStepWrites key value :
  exists missing,
    (keys (typeStepWrites (key, value)) ++ missing)%list = stepNames key
    /\ (missing = [] \/ missing = ["--ds-type-" ++ key ++ "-transform"]).
Proof.
  unfold typeStepWrites, keys, stepNames.
  destruct (textTransform value) as [t|]; cbn.
  - destruct (String.eqb t EmptyString); cbn; eauto.
  - eauto.
Qed.

(** Leaving out the optional [-transform] writes keeps names distinct. *)
Lemma NoDup_written_steps before steps after :
  NoDup (before ++ flat_map stepNames (map fst steps) ++ after) ->
  NoDup (before ++ flat_map (fun e => keys (typeStepWrites e)) steps
         ++ after).
Proof.
  revert before. induction steps as [|[key value] steps IH]; cbn [map flat_map];
    intros before D; [exact D|].
  destruct (keys_typeStepWrites key value) as (missing & E & M).
  cbn [fst] in D. rewrite <- E in D. rewrite <- !app_assoc in *.
  rewrite app_assoc. apply IH. rewrite app_assoc in D.
  destruct M as [->| ->]; [exact D|].
  now apply NoDup_remove_1 in D.
Qed.

Lemma keys_flat_map (f : string * TypeScaleToken -> list (string * string))
  (l : list (string * TypeScaleToken)) :
  keys (flat_map f l) = flat_map (fun e => keys (f e)) l.
Proof.
  unfold keys. induction l as [|e l IH]; cbn [flat_map map]; [reflexivity|].
  now rewrite map_app, IH.
Qed.

Lemma keys_densityWrites (l : list (string * string)) :
  keys (map densityWrite l) = map densityName (map fst l).
Proof.
  unfold keys. rewrite !map_map. apply map_ext. now intros [k v].
Qed.

Lemma keys_styleWrites t :
  keys (styleWrites t)
  = (coreNames ++ flat_map (fun e => keys (typeStepWrites e)) (typeScale t)
     ++ map densityName (map fst (density t)))%list.
Proof.
  unfold styleWrites.
  change (keys (coreWrites t ++ flat_map typeStepWrites (typeScale t)
                ++ map densityWrite (density t))%list)
    with (map fst (coreWrites t ++ flat_map typeStepWrites (typeScale t)
                   ++ map densityWrite (density t))%list).
  rewrite !map_app.
  change (map fst (flat_map typeStepWrites (typeScale t)))
    with (keys (flat_map typeStepWrites (typeScale t))).
  change (map fst (map densityWrite (density t)))
    with (keys (map densityWrite (density t))).
  now rewrite keys_flat_map, keys_densityWrites.
Qed.

(** A structurally valid token set writes every parameter once. *)
Lemma valid_tokens_write_once t :
  structurally_valid t -> NoDup (keys (styleWrites t)).
Proof.
  intros [S D]. rewrite keys_styleWrites. apply NoDup_written_steps.
  apply Permutation_NoDup with (2 := declared_names_distinct).
  apply Permutation_app_head, Permutation_app.
  - apply Permutation_flat_map. now symmetry.
  - apply Permutation_map. now symmetry.
Qed.

End ParameterNames.

Section Applier.
Import Engine.
Local Open Scope string_scope.

Lemma applyWrites_style writes e :
  applyWrites writes e
  = {| attributes := attributes e;
       classList := classList e;
       style := declares writes (style e) |}.
Proof.
  unfold applyWrites, declares. revert e.
  induction writes as [|[k v] writes IH]; cbn; intros e.
  - now destruct e.
  - now rewrite IH.
Qed.





End Applier.

(* ===================================================================== *)
(** * Tuners *)
(* ===================================================================== *)

Section TunerFacts.
Import Tuners.
Local Open Scope string_scope.

Lemma in_unit_spec q : in_unit q = true <-> (0 <= q <= 1)%Q.
Proof.
  unfold in_unit. rewrite andb_true_iff, !Qle_bool_iff. tauto.
Qed.

Lemma clamp_in_unit value : (0 <= clamp value <= 1)%Q.
Proof.
  unfold clamp. split.
  - apply Q.le_max_l.
  - apply Q.max_lub; [discriminate | apply Q.le_min_l].
Qed.

Lemma clamp_keeps value : (0 <= value <= 1)%Q -> (clamp value == value)%Q.
Proof.
  intros [H0 H1]. unfold clamp.
  rewrite Q.min_r by assumption. now rewrite Q.max_r by assumption.
Qed.

Lemma field_with_field_same key v t : field key (with_field key v t) = v.
Proof. now destruct key. Qed.

Lemma field_with_field_other key k v t :
  k <> key -> field k (with_field key v t) = field k t.
Proof. destruct key, k; intros N; try reflexivity; now elim N. Qed.

(** C8. Tuner clamping.  [setTuner] stores its value clamped to the unit
    interval, whichever of the five fields it is called for: the stored
    value lies in [0, 1], a value already in range is kept, and the other
    four fields are untouched.  A density of 1.7 is stored as exactly 1
    and a density of -3 as exactly 0. *)
Theorem setTuner_clamps (key : TunerKey) (value : Q) (prev : AppliedTuners) :
  (0 <= field key (setTuner key value prev) <= 1)%Q
  /\ ((0 <= value <= 1)%Q ->
      (field key (setTuner key value prev) == value)%Q)
  /\ (forall k, k <> key -> field k (setTuner key value prev) = field k prev)
  /\ density (setTuner Density 1.7 prev) = 1%Q
  /\ density (setTuner Density (-3) prev) = 0%Q.
Proof.
  unfold setTuner. rewrite field_with_field_same.
  repeat split; try apply clamp_in_unit.
  - intros H. now apply clamp_keeps.
  - intros k N. now apply field_with_field_other.
Qed.

(** ** Serialization *)

Lemma tenths_in_unit x : (0 <= x <= 1)%Q -> (0 <= tenths x <= 10)%Z.
Proof.
  intros [H0 H1]. unfold tenths.
  assert (L : (Qfloor 0 <= Qfloor (x * 10 + (1 # 2)))%Z)
    by (apply Qfloor_resp_le; lra).
  assert (U : (Qfloor (x * 10 + (1 # 2)) <= Qfloor (21 # 2))%Z)
    by (apply Qfloor_resp_le; lra).
  split; [exact L | exact U].
Qed.

Lemma toFixed1_in_unit x :
  (0 <= x <= 1)%Q ->
  toFixed1 x
  = digits (tenths x / 10) ++ "." ++ digits (tenths x mod 10).
Proof.
  intros [H0 H1]. unfold toFixed1.
  destruct (x ?= 0)%Q eqn:E; try reflexivity.
  apply Qlt_alt in E. lra.
Qed.

Lemma parse_printed_tenths n :
  (0 <= n <= 10)%Z ->
  parseDecimal (digits (n / 10) ++ "." ++ digits (n mod 10)) = Some (n # 10)
  /\ in_unit (n # 10) = true.
Proof.
  intros H. rewrite <- (Z2Nat.id n) by lia.
  assert (B : (Z.to_nat n < 11)%nat) by lia.
  revert B. generalize (Z.to_nat n) as k. intros k B.
  do 11 (destruct k as [|k]; [split; reflexivity|]).
  lia.
Qed.

Lemma parse_toFixed1 x :
  in_unit x = true ->
  parseDecimal (toFixed1 x) = Some (round1 x) /\ in_unit (round1 x) = true.
Proof.
  intros H. apply in_unit_spec in H.
  rewrite toFixed1_in_unit by assumption.
  apply parse_printed_tenths, tenths_in_unit, H.
Qed.

Lemma params_get_filter k k' p :
  k <> k' ->
  params_get k (filter (fun kv => negb (String.eqb k' (fst kv))) p)
  = params_get k p.
Proof.
  intros N. induction p as [|[a x] p IH]; cbn; [reflexivity|].
  destruct (String.eqb_spec k' a) as [->|Na]; cbn.
  - destruct (String.eqb_spec k a); [congruence | assumption].
  - now rewrite IH.
Qed.

Lemma params_get_set k k' v p :
  params_get k (params_set k' v p)
  = if String.eqb k k' then Some v else params_get k p.
Proof.
  induction p as [|[a x] p IH]; cbn; [reflexivity|].
  destruct (String.eqb_spec k' a) as [->|Na]; cbn.
  - destruct (String.eqb_spec k a) as [->|N]; [reflexivity|].
    now apply params_get_filter.
  - rewrite IH. destruct (String.eqb_spec k a) as [->|N]; [|reflexivity].
    destruct (String.eqb_spec a k'); [congruence | reflexivity].
Qed.

(** After [syncToURL] the query holds, under each tuner's name, that
    tuner's value printed by [toFixed(1)], whatever it held before. *)
Lemma syncToURL_get tuners search k :
  exists url,
    syncToURL tuners (Some search) = Some url
    /\ params_get (key_name k) url = Some (toFixed1 (field k tuners)).
Proof.
  eexists. split; [reflexivity|].
  unfold entries, keys. cbn [map fold_left fst snd].
  rewrite !params_get_set. now destruct k.
Qed.

Lemma valid_fields_in_unit v :
  isValidTunerValues (some_fields v) = true ->
  forall k, in_unit (field k v) = true.
Proof.
  unfold isValidTunerValues, keys. cbn. rewrite !andb_true_iff.
  intros H k. destruct k; tauto.
Qed.

Lemma round_trip_field v search k :
  in_unit (field k v) = true ->
  exists url,
    syncToURL v (Some search) = Some url
    /\ field_opt k (parseTunersFromURL url) = Some (round1 (field k v)).
Proof.
  intros H. destruct (syncToURL v (Some search)) as [url|] eqn:E;
    [|discriminate].
  exists url. split; [reflexivity|].
  destruct (syncToURL_get v search k) as (url' & E' & G).
  rewrite E in E'. injection E' as <-.
  destruct (parse_toFixed1 _ H) as [P U].
  replace (field_opt k (parseTunersFromURL url))
    with (parseTunerParam k url) by now destruct k.
  unfold parseTunerParam. now rewrite G, P, U.
Qed.

Lemma normalized_in_unit x k : in_unit (field k (normalizeTuners x)) = true.
Proof.
  apply in_unit_spec.
  replace (field k (normalizeTuners x)) with (normalizeField k x)
    by now destruct k.
  unfold normalizeField. destruct (field_opt k x); apply clamp_in_unit.
Qed.

Lemma normalize_parsed url k q :
  field_opt k (parseTunersFromURL url) = Some q ->
  in_unit q = true ->
  (field k (normalizeTuners (parseTunersFromURL url)) == q)%Q.
Proof.
  intros G U.
  replace (field k (normalizeTuners (parseTunersFromURL url)))
    with (normalizeField k (parseTunersFromURL url)) by now destruct k.
  unfold normalizeField. rewrite G. now apply clamp_keeps, in_unit_spec.
Qed.

(** Rounding to one decimal place moves a value by at most 0.05. *)
Lemma round1_close x :
  (round1 x - (1 # 20) <= x)%Q /\ (x < round1 x + (1 # 20))%Q.
Proof.
  unfold round1, tenths.
  pose proof (Qfloor_le (x * 10 + (1 # 2))) as L.
  pose proof (Qlt_floor (x * 10 + (1 # 2))) as U.
  set (n := Qfloor (x * 10 + (1 # 2))) in *.
  rewrite (Qmake_Qdiv n 10). rewrite inject_Z_plus in U.
  change (inject_Z (Z.pos 10)) with 10%Q. change (inject_Z 1) with 1%Q in U.
  assert (E : (inject_Z n / 10 == inject_Z n * (1 # 10))%Q) by (field; lra).
  rewrite E. split; lra.
Qed.

(** C9. The tuner URL round trip.  [syncToURL] writes one entry per tuner
    field, its value printed with one decimal; for tuner values in the
    unit interval, reading the query back gives each value rounded to one
    decimal place, which is within 0.05 of the value; and normalizing,
    serializing, reading back and normalizing again gives the normalized
    values rounded to one decimal place. *)
Theorem tuner_url_round_trip
  (v : AppliedTuners) (search : URLSearchParams)
  (H : isValidTunerValues (some_fields v) = true) :
  syncToURL v (Some [])
  = Some (map (fun k => (key_name k, toFixed1 (field k v))) keys)
  /\ (exists url,
        syncToURL v (Some search) = Some url
        /\ forall k,
             field_opt k (parseTunersFromURL url) = Some (round1 (field k v))
             /\ (round1 (field k v) - (1 # 20) <= field k v)%Q
             /\ (field k v < round1 (field k v) + (1 # 20))%Q)
  /\ (forall x : TunerValues,
      exists url,
        syncToURL (normalizeTuners x) (Some search) = Some url
        /\ forall k,
             (field k (normalizeTuners (parseTunersFromURL url))
              == round1 (field k (normalizeTuners x)))%Q).
Proof.
  split; [reflexivity|]. split.
  - exists (fold_left
              (fun p kv => params_set (fst kv) (toFixed1 (snd kv)) p)
              (entries v) search).
    split; [reflexivity|]. intros k.
    destruct (round_trip_field v search k (valid_fields_in_unit v H k))
      as (url & E & G).
    injection E as <-. split; [exact G | apply round1_close].
  - intros x.
    exists (fold_left
              (fun p kv => params_set (fst kv) (toFixed1 (snd kv)) p)
              (entries (normalizeTuners x)) search).
    split; [reflexivity|]. intros k.
    destruct (round_trip_field (normalizeTuners x) search k
                (normalized_in_unit x k)) as (url & E & G).
    injection E as <-.
    apply normalize_parsed; [exact G|].
    apply parse_toFixed1, normalized_in_unit.
Qed.

End TunerFacts.

(* ===================================================================== *)
(** * Taste blending *)
(* ===================================================================== *)

Section BlendFacts.
Import Js Taste.
Local Open Scope string_scope.

Lemma derive_blends i l :
  deriveTasteFromInspirations (Some (i :: l))
  = blend (flat_map resolve (i :: l)).
Proof. reflexivity. Qed.

Lemma collectMotifs_observations obs set :
  exists motifs, collectMotifs (observations obs) set = Ok motifs.
Proof.
  revert set. induction obs as [|[p w] obs IH]; cbn; intros set; eauto.
Qed.

(** [blend] copies the numeric fields of [blendNumeric]. *)
Lemma blend_field c profiles r :
  blend profiles = Ok r -> field c r = field c (blendNumeric profiles).
Proof.
  unfold blend. destruct (collectMotifs profiles []); [|discriminate].
  intros H. injection H as <-. now destruct c.
Qed.

Lemma blend_observations obs : exists r, blend (observations obs) = Ok r.
Proof.
  unfold blend. destruct (collectMotifs_observations obs []) as [m ->].
  eauto.
Qed.

(** One field of the loop's record follows its own running sum. *)
Lemma field_accumulate c W profiles b :
  field c (fold_left (accumulate W) profiles b)
  = fold_left
      (fun acc e => nadd acc (nmul (read c e) (ndiv (entry_weight e) W)))
      profiles (field c b).
Proof.
  revert b. induction profiles as [|e profiles IH]; cbn; intros b;
    [reflexivity|].
  rewrite IH. f_equal. now destruct c.
Qed.

Lemma totalWeight_from W0 profiles :
  (fold_left (fun sum p => sum + entry_weight p) profiles W0
   == W0 + totalWeight profiles)%Q.
Proof.
  unfold totalWeight. revert W0.
  induction profiles as [|e profiles IH]; cbn [fold_left]; intros W0; [ring|].
  rewrite IH, (IH (0 + entry_weight e)%Q). ring.
Qed.


Lemma ndiv_nonzero w W : ~ (W == 0)%Q -> ndiv w W = Some (w / W)%Q.
Proof.
  intros N. unfold ndiv. destruct (Qeq_bool W 0) eqn:E; [|reflexivity].
  now apply Qeq_bool_eq in E.
Qed.




End BlendFacts.

(* ===================================================================== *)
(** * The weighted average in binary64 *)
(* ===================================================================== *)

Section Binary64Facts.
Import Js.
Local Open Scope string_scope.
Local Open Scope float_scope.

Lemma collectMotifs_observed obs set :
  exists motifs,
    Binary64.collectMotifs (Binary64.observations obs) set = Ok motifs.
Proof.
  revert set. induction obs as [|[p w] obs IH]; cbn; intros set; eauto.
Qed.

(** [blend] copies the numeric fields of [blendNumeric]. *)
Lemma blend_copies_field c profiles r :
  Binary64.blend profiles = Ok r ->
  Binary64.field c r = Binary64.field c (Binary64.blendNumeric profiles).
Proof.
  unfold Binary64.blend.
  destruct (Binary64.collectMotifs profiles []); [|discriminate].
  intros H. injection H as <-. now destruct c.
Qed.

(** One field of the loop's record follows its own running sum. *)
Lemma field_running_sum c W profiles b :
  Binary64.field c (fold_left (Binary64.accumulate W) profiles b)
  = fold_left
      (fun acc e =>
         acc + Binary64.read c e * (Binary64.entry_weight e / W))
      profiles (Binary64.field c b).
Proof.
  revert b. induction profiles as [|e profiles IH]; cbn [fold_left];
    intros b; [reflexivity|].
  rewrite IH. f_equal. now destruct c.
Qed.

Lemma totalWeight_observed c obs acc :
  fold_left (fun sum p => sum + Binary64.entry_weight p)
    (Binary64.observations obs) acc
  = fold_left (fun sum o => sum + snd o) (Binary64.weighted c obs) acc.
Proof.
  revert acc. induction obs as [|[p w] obs IH]; cbn; intros acc;
    [reflexivity | apply IH].
Qed.

Lemma running_sum_observed c W obs acc :
  fold_left
    (fun acc e => acc + Binary64.read c e * (Binary64.entry_weight e / W))
    (Binary64.observations obs) acc
  = fold_left (fun sum o => sum + fst o * (snd o / W))
      (Binary64.weighted c obs) acc.
Proof.
  revert acc. induction obs as [|[p w] obs IH]; cbn; intros acc;
    [reflexivity | apply IH].
Qed.

Lemma blendNumeric_average c obs :
  Binary64.field c (Binary64.blendNumeric (Binary64.observations obs))
  = Binary64.weighted_average (Binary64.weighted c obs).
Proof.
  unfold Binary64.blendNumeric, Binary64.weighted_average,
    Binary64.totalWeight, Binary64.total.
  rewrite field_running_sum, running_sum_observed.
  rewrite (totalWeight_observed c).
  now destruct c.
Qed.

(** Two doubles that [===] tells apart are different values. *)
Lemma float_differ (a b : float) :
  (b =? b) = true -> (a =? b) = false -> a <> b.
Proof. intros R E H. rewrite H in E. congruence. Qed.

(** C5. Blend weighting, as binary64 evaluates it.  For every list of
    observations each continuous field of the blended profile is the
    weighted average of that field: the sum, taken from 0 in the order of
    the observations, of each value times its share [w_i / W], where the
    total weight [W] is the sum of the weights taken from 0 in the same
    order, every operation rounded to the nearest double.  This holds for
    the blending loops and so for [deriveTasteFromInspirations] on every
    non-empty list that resolves to these observations.  Two observations
    with density 0.2 at weight 1 and 0.8 at weight 3 blend to density
    0.6500000000000001, the double next above 0.65. *)
Theorem blend_weighted_average_binary64
  (c : Taste.Continuous) (obs : list (Binary64.TasteProfile * float)) :
  (exists r,
      Binary64.blend (Binary64.observations obs) = Ok r
      /\ Binary64.field c r
         = Binary64.weighted_average (Binary64.weighted c obs))
  /\ (forall l,
        l <> [] ->
        flat_map Binary64.resolve l = Binary64.observations obs ->
        exists r,
          Binary64.deriveTasteFromInspirations (Some l) = Ok r
          /\ Binary64.field c r
             = Binary64.weighted_average (Binary64.weighted c obs))
  /\ (forall p1 p2,
        Binary64.density p1 = 0.2 -> Binary64.density p2 = 0.8 ->
        exists r,
          Binary64.blend [Binary64.observed p1 1; Binary64.observed p2 3]
          = Ok r
          /\ Binary64.density r = 0.6500000000000001
          /\ Binary64.density r = PrimFloat.next_up 0.65).
Proof.
  assert (B : exists r,
             Binary64.blend (Binary64.observations obs) = Ok r
             /\ Binary64.field c r
                = Binary64.weighted_average (Binary64.weighted c obs)).
  { unfold Binary64.blend at 1.
    destruct (collectMotifs_observed obs []) as [m E].
    pose proof (blend_copies_field c (Binary64.observations obs)) as F.
    unfold Binary64.blend in F. rewrite E in *.
    eexists. split; [reflexivity|].
    rewrite (F _ eq_refl). apply blendNumeric_average. }
  split; [exact B|]. split.
  - intros [|i l] Hl E; [now elim Hl|].
    cbn [Binary64.deriveTasteFromInspirations]. rewrite E. exact B.
  - intros p1 p2 H1 H2.
    destruct (collectMotifs_observed [(p1, 1); (p2, 3)] []) as [m E].
    pose proof (blend_copies_field Taste.Density
                  (Binary64.observations [(p1, 1); (p2, 3)])) as F.
    unfold Binary64.blend in *.
    cbn [Binary64.observations map fst snd] in *.
    rewrite E in *. eexists. split; [reflexivity|].
    specialize (F _ eq_refl). cbn [Binary64.field] in F. rewrite F.
    pose proof (blendNumeric_average Taste.Density [(p1, 1); (p2, 3)]) as G.
    cbn [Binary64.observations map fst snd Binary64.field Binary64.weighted]
      in G.
    rewrite G, H1, H2. split; reflexivity.
Qed.

(** The worked example of the blend, as the code computes it: the blended
    density is not the double 0.65. *)
Lemma blend_density_counterexample :
  Binary64.density Binary64.sparse = 0.2
  /\ Binary64.density Binary64.dense = 0.8
  /\ exists r,
       Binary64.blend
         [Binary64.observed Binary64.sparse 1;
          Binary64.observed Binary64.dense 3] = Ok r
       /\ (Binary64.density r =? 0.65) = false
       /\ Binary64.density r <> 0.65.
Proof.
  split; [reflexivity|]. split; [reflexivity|].
  eexists. split; [reflexivity|]. split; [reflexivity|].
  apply float_differ; reflexivity.
Qed.

(** X21. The order of the inspirations matters to the last digit.  The
    three references linear, stripe and vercel at weight 1 have densities
    0.4, 0.5 and 0.3; blended in this order the density is
    0.39999999999999997, blended in the reverse order it is 0.4.  The
    colour temperature and the set of motifs are the same in both
    orders. *)
Theorem blend_depends_on_order :
  let l := [ Binary64.named "linear" 1; Binary64.named "stripe" 1;
             Binary64.named "vercel" 1 ] in
  Permutation l (rev l)
  /\ exists r r',
       Binary64.deriveTasteFromInspirations (Some l) = Ok r
       /\ Binary64.deriveTasteFromInspirations (Some (rev l)) = Ok r'
       /\ Binary64.density r = 0.39999999999999997
       /\ Binary64.density r' = 0.4
       /\ Binary64.density r <> Binary64.density r'
       /\ Binary64.colorTemperature r = Binary64.colorTemperature r'
       /\ (forall m, In m (Binary64.motifPreference r)
                     <-> In m (Binary64.motifPreference r')).
Proof.
  intros l. split; [apply Permutation_rev|].
  eexists. eexists. split; [reflexivity|]. split; [reflexivity|].
  split; [reflexivity|]. split; [reflexivity|].
  split; [apply float_differ; reflexivity|].
  split; [reflexivity|].
  intros m. cbn. tauto.
Qed.

(** Why the weights of the range theorems are bounded.  The least
    positive double, scaled by 0.3 for a URL that is not in the table,
    rounds to zero: the total weight is zero and every field is NaN.
    Two weights whose sum overflows have shares of zero: every field is
    0, whatever the references. *)
Example smallest_weight_underflows :
  exists r,
    Binary64.deriveTasteFromInspirations
      (Some [ {| Binary64.type := "url";
                 Binary64.value := "https://example.com";
                 Binary64.weight := Some 5e-324 |} ]) = Ok r
    /\ forall c, PrimFloat.is_nan (Binary64.field c r) = true.
Proof. eexists. split; [reflexivity|]. now intros []. Qed.

Example largest_weights_overflow :
  exists r,
    Binary64.deriveTasteFromInspirations
      (Some [ Binary64.named "linear" 1e308; Binary64.named "stripe" 1e308 ])
    = Ok r
    /\ forall c, Binary64.field c r = 0.
Proof. eexists. split; [reflexivity|]. now intros []. Qed.

End Binary64Facts.

Section VoteFacts.
Import Js Taste.
Local Open Scope string_scope.

Lemma gt_true a b : gt a b = true <-> (b < a)%Q.
Proof.
  unfold gt. rewrite (Qgt_alt a b).
  destruct (a ?= b)%Q; split; intros H; congruence.
Qed.

Lemma gt_false a b : gt a b = false <-> (a <= b)%Q.
Proof.
  rewrite <- not_true_iff_false, gt_true. split; intros H.
  - now apply Qnot_lt_le.
  - now apply Qle_not_lt.
Qed.



Lemma blend_error profiles e : blend profiles = Throw e -> e = TypeError.
Proof.
  unfold blend.
  assert (K : forall set, collectMotifs profiles set = Throw e ->
                          e = TypeError).
  { induction profiles as [|p profiles IH]; cbn; intros set;
      [discriminate|].
    destruct (entry_profile p); [apply IH|]. congruence. }
  destruct (collectMotifs profiles []) eqn:E; [discriminate|].
  intros H. injection H as ->. now apply (K []).
Qed.

(** C7. The empty input.  [deriveTasteFromInspirations] raises its
    empty-input error for an empty list and for a missing one, and for
    no other input. *)
Theorem derive_rejects_empty_input :
  deriveTasteFromInspirations (Some []) = Throw empty_input_error
  /\ deriveTasteFromInspirations None = Throw empty_input_error
  /\ (forall i l,
        deriveTasteFromInspirations (Some (i :: l))
        <> Throw empty_input_error).
Proof.
  repeat split. intros i l H. rewrite derive_blends in H.
  apply blend_error in H. discriminate H.
Qed.

Lemma resolve_unrecognized i : recognized (type i) = false -> resolve i = [].
Proof.
  unfold recognized, resolve. rewrite !orb_false_iff.
  now intros [[[-> ->] ->] ->].
Qed.

(** C10. Inspirations of unrecognized types.  A non-empty list none of
    whose types is recognized resolves to no profile at all, so the total
    weight is 0 and the blending loops do not run: no division takes
    place, the call raises nothing, and it returns the profile with every
    continuous field exactly 0, no motif and a neutral temperature. *)
Theorem derive_without_recognized_types (l : list Inspiration)
  (Hl : l <> [])
  (Hu : forallb (fun i => negb (recognized (type i))) l = true) :
  flat_map resolve l = []
  /\ totalWeight (flat_map resolve l) = 0%Q
  /\ deriveTasteFromInspirations (Some l) = Ok initial
  /\ (forall c, field c initial = Some 0%Q)
  /\ motifPreference initial = []
  /\ colorTemperature initial = neutral.
Proof.
  assert (E : flat_map resolve l = []).
  { clear Hl. induction l as [|i l IH]; [reflexivity|].
    cbn in Hu. apply andb_prop in Hu as [Hi Hu].
    cbn [flat_map]. rewrite resolve_unrecognized, IH; auto.
    now apply negb_true_iff. }
  split; [exact E|]. split; [now rewrite E|]. split.
  - destruct l as [|i l]; [now elim Hl|].
    now rewrite derive_blends, E.
  - repeat split. now intros [].
Qed.

End VoteFacts.

(* ===================================================================== *)
(** * The statements at concrete inputs *)
(* ===================================================================== *)

Section Instances.
Import Js Engine Themes.
Local Open Scope string_scope.

(** The built-in theme is a legacy pack: normalization gives it both
    contexts. *)
Example hospitalityWarm_is_legacy :
  has_both_contexts hospitalityWarm = Ok false
  /\ normalizeThemePack hospitalityWarm = Ok hospitalityWarmRegistered
  /\ has_both_contexts hospitalityWarmRegistered = Ok true.
Proof. repeat split. Qed.

(** The resolver on the registered theme and on the bare legacy pack. *)
Lemma getRecipesForContext_witness :
  (exists p m,
      getRecipesForContext hospitalityWarmRegistered marketing = Ok (VObj m)
      /\ getRecipesForContext hospitalityWarmRegistered product
         = Ok (VObj p))
  /\ (forall context,
        getRecipesForContext hospitalityWarm context
        = Ok (recipes hospitalityWarm)).
Proof.
  split.
  - eexists. eexists.
    apply (proj1 (getRecipesForContext_correct
                    hospitalityWarmRegistered _ eq_refl));
      reflexivity.
  - apply (proj2 (getRecipesForContext_correct hospitalityWarm _ eq_refl));
      reflexivity.
Defined.

(** The built-in theme has the declared steps and fields. *)
Example hospitalityWarm_valid :
  structurally_valid (tokens hospitalityWarmRegistered).
Proof. split; apply Permutation_refl. Qed.


End Instances.

Section TunerInstances.
Import Tuners.
Local Open Scope string_scope.

Example toFixed1_examples :
  map toFixed1 [0; 0.04; 0.05; 0.25; 0.5; 0.95; 1]%Q
  = ["0.0"; "0.0"; "0.1"; "0.3"; "0.5"; "1.0"; "1.0"].
Proof. reflexivity. Qed.

Example parseTunersFromURL_example :
  parseTunersFromURL
    [ ("theme", "chronicle-dark"); ("density", "0.3"); ("motion", "1.5");
      ("narrative", "high") ]
  = {| abstraction_opt := None; density_opt := Some 0.3%Q;
       motion_opt := None; contrast_opt := None; narrative_opt := None |}.
Proof. reflexivity. Qed.

(** The round trip of a density of 0.25 through a query that already
    holds other parameters. *)
Lemma tuner_url_round_trip_witness :
  exists url,
    syncToURL (setTuner Density 0.25 DEFAULT_TUNERS)
      (Some [ ("theme", "chronicle-dark"); ("density", "0.9") ]) = Some url
    /\ forall k,
         field_opt k (parseTunersFromURL url)
         = Some (round1 (field k (setTuner Density 0.25 DEFAULT_TUNERS))).
Proof.
  destruct (proj1 (proj2 (tuner_url_round_trip
                            (setTuner Density 0.25 DEFAULT_TUNERS)
                            [ ("theme", "chronicle-dark");
                              ("density", "0.9") ]
                            eq_refl))) as (url & E & G).
  exists url. split; [exact E|]. intros k. exact (proj1 (G k)).
Defined.

End TunerInstances.

Section BlendInstances.
Import Js Taste.
Local Open Scope string_scope.

(** The blend of two references from the table, end to end. *)
Example derive_density_example :
  exists r,
    Binary64.deriveTasteFromInspirations
      (Some [ Binary64.named "vercel" 1; Binary64.named "notion" 3 ])
    = Ok r
    /\ Binary64.density r = 0.5249999999999999%float
    /\ Binary64.colorTemperature r = warm
    /\ Binary64.motifPreference r
       = [ "lines"; "gradients"; "illustrations" ].
Proof.
  eexists. split; [reflexivity|]. repeat split.
Qed.


(** The three ties of the vote, on counts. *)
Example pickTemperature_ties :
  pickTemperature
    {| count_warm := 1; count_cool := 1; count_neutral := 0 |} = cool
  /\ pickTemperature
       {| count_warm := 1; count_cool := 0; count_neutral := 1 |} = neutral
  /\ pickTemperature
       {| count_warm := 0; count_cool := 1; count_neutral := 1 |} = neutral
  /\ pickTemperature
       {| count_warm := 1; count_cool := 1; count_neutral := 1 |} = neutral.
Proof. repeat split. Qed.

Lemma derive_without_recognized_types_witness :
  deriveTasteFromInspirations (Some [ figmaFile ]) = Ok initial
  /\ totalWeight (flat_map resolve [ figmaFile ]) = 0%Q.
Proof.
  pose proof (derive_without_recognized_types [ figmaFile ]
                ltac:(discriminate) eq_refl) as H.
  split; [exact (proj1 (proj2 (proj2 H))) | exact (proj1 (proj2 H))].
Defined.

(** No field of that result comes from a division by zero: each is the
    finite number 0, whereas 0/0 is not finite. *)
Lemma unrecognized_type_counterexample :
  exists r,
    deriveTasteFromInspirations (Some [ figmaFile ]) = Ok r
    /\ forall c, field c r = Some 0%Q /\ field c r <> ndiv 0 0.
Proof.
  eexists. split; [reflexivity|]. intros []; split; (reflexivity || discriminate).
Qed.

(** With a recognized type and weight 0 the loop does divide by zero. *)
Example zero_weight_divides_by_zero :
  exists r,
    deriveTasteFromInspirations (Some [ named "stripe" 0 ]) = Ok r
    /\ forall c, field c r = None.
Proof. eexists. split; [reflexivity|]. now intros []. Qed.

(** A name that [Object.prototype] defines is taken for a reference. *)
Example inherited_name_throws :
  deriveTasteFromInspirations (Some [ named "constructor" 1 ])
  = Throw TypeError.
Proof. reflexivity. Qed.

End BlendInstances.

(* ===================================================================== *)
(** * Further properties of the code *)
(* ===================================================================== *)

Section MoreOnNormalization.
Import Js Engine Themes.
Local Open Scope string_scope.

(** X1. Normalization tolerates missing nested fields.  Whenever the
    [recipes] property is an object, whatever it holds or lacks,
    [normalizeThemePack] returns a pack, and that pack has both
    contexts. *)
Theorem normalizeThemePack_accepts_objects
  (n : string) (m : ThemeMode) (t : ThemeTokens)
  (props : list (string * value)) :
  exists y,
    normalizeThemePack
      {| name := n; mode := m; tokens := t; recipes := VObj props |} = Ok y
    /\ has_both_contexts y = Ok true.
Proof.
  destruct (normalize_total_on_objects n m t props) as [y E].
  exists y. split; [exact E|]. now apply normalize_output_current in E.
Qed.

Lemma themes_get_set key pack m :
  themes_get key (themes_set key pack m) = Some pack.
Proof.
  induction m as [|[k p] m IH]; cbn.
  - now rewrite String.eqb_refl.
  - destruct (String.eqb key k) eqn:E; cbn.
    + now rewrite String.eqb_refl.
    + now rewrite E.
Qed.

Lemma themes_set_keys key pack m :
  themes_get key m <> None ->
  map fst (themes_set key pack m) = map fst m.
Proof.
  induction m as [|[k p] m IH]; cbn; [congruence|].
  destruct (String.eqb_spec key k) as [->|N]; cbn; [reflexivity|].
  intros H. now rewrite IH.
Qed.

(** X2. The registry.  A theme that has been registered is found again
    under every name that lower-cases and hyphenates to the same key, as
    the normalized pack and without a warning; registering under a key
    that is already present leaves the list of names as it was. *)
Theorem registry_lookup
  (raw : ThemePack) (engine engine' : ThemeEngine) (world : World)
  (H : registerTheme raw engine = Ok engine') :
  exists normalized,
    normalizeThemePack raw = Ok normalized
    /\ (forall name',
          theme_key name' = theme_key (name normalized) ->
          loadTheme name' (engine', world) = (Some normalized, world))
    /\ (themes_get (theme_key (name normalized)) (themes engine) <> None ->
        getAvailableThemes engine' = getAvailableThemes engine).
Proof.
  unfold registerTheme in H.
  destruct (normalizeThemePack raw) as [y|e]; cbn [bind] in H;
    [|discriminate].
  injection H as <-. exists y. split; [reflexivity|]. split.
  - intros name' E. unfold loadTheme. cbn [themes].
    now rewrite E, themes_get_set.
  - intros P. unfold getAvailableThemes. cbn [themes].
    now apply themes_set_keys.
Qed.

Lemma registry_lookup_witness :
  exists normalized,
    normalizeThemePack hospitalityWarm = Ok normalized
    /\ loadTheme "HOSPITALITY   warm"
         (registeredEngine,
          {| document := None; window := None; console := [] |})
       = (Some normalized,
          {| document := None; window := None; console := [] |}).
Proof.
  destruct (registry_lookup hospitalityWarm freshEngine registeredEngine
              {| document := None; window := None; console := [] |}
              eq_refl) as (y & E & L & _).
  exists y. split; [exact E|]. apply L.
  assert (Y : y = hospitalityWarmRegistered).
  { destruct hospitalityWarm_is_legacy as (_ & N & _).
    rewrite N in E. now injection E. }
  rewrite Y. vm_compute. reflexivity.
Defined.

End MoreOnNormalization.

Section MoreOnBlending.
Import Js Taste.
Local Open Scope string_scope.




Lemma set_add_In m x set : In m (set_add x set) <-> m = x \/ In m set.
Proof.
  unfold set_add. destruct (existsb (String.eqb x) set) eqn:E.
  - split; [tauto|]. intros [->|H]; [|exact H].
    apply existsb_exists in E as (y & I & Y).
    apply String.eqb_eq in Y. now subst y.
  - rewrite in_app_iff. cbn. split; intros H; intuition congruence.
Qed.

Lemma set_add_NoDup x set : NoDup set -> NoDup (set_add x set).
Proof.
  intros D. unfold set_add.
  destruct (existsb (String.eqb x) set) eqn:E; [exact D|].
  apply NoDup_app; [exact D | repeat constructor; intros [] |].
  intros y I [<-|[]].
  assert (existsb (String.eqb x) set = true); [|congruence].
  apply existsb_exists. exists x. now rewrite String.eqb_refl.
Qed.

Lemma set_adds motifs set :
  let after := fold_left (fun s m => set_add m s) motifs set in
  (NoDup set -> NoDup after)
  /\ forall m, In m after <-> In m motifs \/ In m set.
Proof.
  cbv zeta. revert set.
  induction motifs as [|x motifs IH]; cbn; intros set.
  - split; [tauto|]. intros m. tauto.
  - destruct (IH (set_add x set)) as [D I]. split.
    + intros H. apply D. now apply set_add_NoDup.
    + intros m. rewrite I, set_add_In. intuition congruence.
Qed.

Lemma collectMotifs_union obs set :
  exists motifs,
    collectMotifs (observations obs) set = Ok motifs
    /\ (NoDup set -> NoDup motifs)
    /\ forall m,
         In m motifs
         <-> (exists o, In o obs /\ In m (motifPreference (fst o)))
             \/ In m set.
Proof.
  revert set. induction obs as [|[p w] obs IH]; cbn; intros set.
  - exists set. split; [reflexivity|]. split; [tauto|].
    intros m. split; [tauto|]. intros [(o & [] & _)|H]. exact H.
  - destruct (set_adds (motifPreference p) set) as [D I]. cbv zeta in D, I.
    destruct (IH (fold_left (fun s m => set_add m s) (motifPreference p) set))
      as (motifs & E & D' & I').
    exists motifs. split; [exact E|]. split; [tauto|].
    intros m. rewrite I', I. split.
    + intros [(o & Io & Im)|[Im|Im]]; eauto 6.
    + intros [(o & [<-|Io] & Im)|Im]; cbn in *; eauto 6.
Qed.

(** X4. The motif preferences are a union.  The blended profile lists
    every motif of every observation, each of them once, and nothing
    else. *)
Theorem blend_motif_union (obs : list (TasteProfile * Q)) :
  exists r,
    blend (observations obs) = Ok r
    /\ NoDup (motifPreference r)
    /\ forall m,
         In m (motifPreference r)
         <-> exists o, In o obs /\ In m (motifPreference (fst o)).
Proof.
  destruct (collectMotifs_union obs []) as (motifs & E & D & I).
  unfold blend. rewrite E. eexists. split; [reflexivity|].
  cbn [motifPreference]. split; [apply D; constructor|].
  intros m. rewrite I. cbn. tauto.
Qed.

Lemma collectMotifs_inherited profiles set e :
  In e profiles -> entry_profile e = Inherited ->
  collectMotifs profiles set = Throw TypeError.
Proof.
  revert set. induction profiles as [|p profiles IH]; cbn; intros set I H;
    [tauto|].
  destruct I as [->|I].
  - now rewrite H.
  - destruct (entry_profile p); [now apply IH | reflexivity].
Qed.

(** X5. A reference named like a member of [Object.prototype].  The
    lookup [KNOWN_REFERENCES['constructor']] finds the inherited member,
    the entry is pushed as if it were a profile, and the call throws a
    [TypeError] when it reads the entry's motifs, whatever else the list
    holds. *)
Theorem derive_throws_on_inherited_name
  (before after : list Inspiration) (w : option Q) :
  deriveTasteFromInspirations
    (Some (before
           ++ {| type := "reference-name"; value := "constructor";
                 weight := w |} :: after)%list)
  = Throw TypeError.
Proof.
  destruct (before ++ _ :: after)%list as [|i l] eqn:E.
  - now destruct before.
  - rewrite derive_blends, <- E. unfold blend.
    rewrite (collectMotifs_inherited _ []
               {| entry_profile := Inherited;
                  entry_weight :=
                    match w with Some x => x | None => 1.0%Q end |});
      [reflexivity | | reflexivity].
    rewrite flat_map_app. apply in_or_app. right.
    cbn [flat_map]. apply in_or_app. left. now left.
Qed.

Lemma not_finite_absorbs c W profiles :
  fold_left
    (fun acc e => nadd acc (nmul (read c e) (ndiv (entry_weight e) W)))
    profiles None = None.
Proof. induction profiles as [|e profiles IH]; cbn; [reflexivity | exact IH]. Qed.

Lemma ndiv_zero w W : (W == 0)%Q -> ndiv w W = None.
Proof. intros Z. unfold ndiv. apply Qeq_bool_iff in Z. now rewrite Z. Qed.

Lemma zero_total_fold c W profiles acc :
  (W == 0)%Q -> profiles <> [] ->
  fold_left
    (fun acc e => nadd acc (nmul (read c e) (ndiv (entry_weight e) W)))
    profiles acc = None.
Proof.
  intros Z N. destruct profiles as [|e profiles]; [now elim N|].
  cbn [fold_left]. rewrite (ndiv_zero _ _ Z).
  replace (nadd acc (nmul (read c e) None)) with (@None Q)
    by (destruct acc, (read c e); reflexivity).
  apply not_finite_absorbs.
Qed.

(** X6. Where the division by zero happens.  When observations were
    resolved but their weights sum to zero, every share is a division by
    zero and every continuous field of the returned profile is not a
    finite number. *)
Theorem blend_zero_total_weight
  (c : Continuous) (obs : list (TasteProfile * Q))
  (Hn : obs <> [])
  (Hz : (totalWeight (observations obs) == 0)%Q) :
  exists r, blend (observations obs) = Ok r /\ field c r = None.
Proof.
  destruct (blend_observations obs) as [r E]. exists r.
  split; [exact E|]. rewrite (blend_field c _ r E).
  unfold blendNumeric. rewrite field_accumulate.
  apply zero_total_fold; [exact Hz|].
  destruct obs; [now elim Hn | discriminate].
Qed.

Lemma blend_zero_total_weight_witness :
  exists r,
    blend (observations [ (sparse, 0%Q); (dense, 0%Q) ]) = Ok r
    /\ field Density r = None.
Proof.
  apply (blend_zero_total_weight Density [ (sparse, 0%Q); (dense, 0%Q) ]).
  - discriminate.
  - reflexivity.
Defined.

End MoreOnBlending.

(* ===================================================================== *)
(** * The tuner hook over a sequence of calls *)
(* ===================================================================== *)

Section HookFacts.
Import Tuners Hook.
Local Open Scope string_scope.

Lemma valid_iff_fields_in_unit v :
  isValidTunerValues (some_fields v) = true
  <-> forall k, in_unit (field k v) = true.
Proof.
  split; [apply valid_fields_in_unit|].
  intros H.
  change (in_unit (field Abstraction v)
          && (in_unit (field Density v)
              && (in_unit (field Motion v)
                  && (in_unit (field Contrast v)
                      && (in_unit (field Narrative v) && true)))) = true).
  now rewrite !H.
Qed.

Lemma key_eq_dec (a b : TunerKey) : {a = b} + {a <> b}.
Proof. decide equality. Defined.

Lemma update_in_unit state u :
  (forall k, in_unit (field k state) = true) ->
  forall k, in_unit (field k (update state u)) = true.
Proof.
  intros H k. destruct u as [key value|]; cbn.
  - unfold setTuner. destruct (key_eq_dec k key) as [->|N].
    + rewrite field_with_field_same. apply in_unit_spec, clamp_in_unit.
    + rewrite field_with_field_other by exact N. apply H.
  - now destruct k.
Qed.

(** X7. The hook never leaves the unit cube.  From a state whose five
    tuners lie in [0,1], any sequence of [setTuner] and [resetTuners]
    calls, with any arguments, leads to a state whose five tuners lie in
    [0,1]: the state stays a valid [TunerValues]. *)
Theorem tuners_stay_in_unit
  (calls : list Update) (state : AppliedTuners)
  (H : isValidTunerValues (some_fields state) = true) :
  isValidTunerValues (some_fields (run calls state)) = true.
Proof.
  apply valid_iff_fields_in_unit.
  pose proof (valid_fields_in_unit _ H) as U. clear H.
  unfold run. revert state U.
  induction calls as [|u calls IH]; intros state U; cbn; [exact U|].
  apply IH, update_in_unit, U.
Qed.

Lemma tuners_stay_in_unit_witness :
  isValidTunerValues
    (some_fields
       (run [SetTuner Density 1.7; ResetTuners; SetTuner Motion (-3);
             SetTuner Contrast 0.25]
            DEFAULT_TUNERS)) = true.
Proof.
  apply (tuners_stay_in_unit
           [SetTuner Density 1.7; ResetTuners; SetTuner Motion (-3);
            SetTuner Contrast 0.25] DEFAULT_TUNERS).
  reflexivity.
Defined.

(** ** [syncToURL] and the rest of the query *)

Lemma filter_filter_absorb (P : string * string -> bool) k
  (p : URLSearchParams) :
  (forall v, P (k, v) = false) ->
  filter P (filter (fun kv => negb (String.eqb k (fst kv))) p) = filter P p.
Proof.
  intros H. induction p as [|[a x] p IH]; cbn; [reflexivity|].
  destruct (String.eqb_spec k a) as [<-|N]; cbn.
  - now rewrite H.
  - now rewrite IH.
Qed.

Lemma filter_params_set (P : string * string -> bool) k v
  (p : URLSearchParams) :
  (forall x, P (k, x) = false) ->
  filter P (params_set k v p) = filter P p.
Proof.
  intros H. induction p as [|[a x] p IH]; cbn.
  - now rewrite H.
  - destruct (String.eqb_spec k a) as [<-|N]; cbn.
    + rewrite !H. now apply filter_filter_absorb.
    + now rewrite IH.
Qed.

Lemma occurrences_filter_other k k' (p : URLSearchParams) :
  k <> k' ->
  occurrences k (filter (fun kv => negb (String.eqb k' (fst kv))) p)
  = occurrences k p.
Proof.
  intros N. unfold occurrences.
  induction p as [|[a x] p IH]; cbn; [reflexivity|].
  destruct (String.eqb_spec k' a) as [<-|Na]; cbn.
  - destruct (String.eqb_spec k k'); [congruence | exact IH].
  - destruct (String.eqb k a); cbn; now rewrite IH.
Qed.

Lemma occurrences_filter_self k (p : URLSearchParams) :
  occurrences k (filter (fun kv => negb (String.eqb k (fst kv))) p) = 0%nat.
Proof.
  unfold occurrences. induction p as [|[a x] p IH]; cbn; [reflexivity|].
  destruct (String.eqb k a) eqn:E; cbn; [exact IH|]. now rewrite E.
Qed.

Lemma occurrences_set_self k v p : occurrences k (params_set k v p) = 1%nat.
Proof.
  induction p as [|[a x] p IH]; cbn.
  - unfold occurrences. cbn. now rewrite String.eqb_refl.
  - destruct (String.eqb k a) eqn:E.
    + unfold occurrences. cbn. rewrite String.eqb_refl. cbn. f_equal.
      apply occurrences_filter_self.
    + unfold occurrences in *. cbn. now rewrite E.
Qed.

Lemma occurrences_set_other k k' v p :
  k <> k' -> occurrences k (params_set k' v p) = occurrences k p.
Proof.
  intros N. induction p as [|[a x] p IH]; cbn.
  - unfold occurrences. cbn.
    destruct (String.eqb_spec k k'); [congruence | reflexivity].
  - destruct (String.eqb_spec k' a) as [<-|Na].
    + cbn. destruct (String.eqb_spec k k'); [congruence|].
      exact (occurrences_filter_other k k' p N).
    + unfold occurrences in *. cbn. destruct (String.eqb k a); cbn;
        now rewrite IH.
Qed.

Lemma filter_absent k (p : URLSearchParams) :
  occurrences k p = 0%nat ->
  filter (fun kv => negb (String.eqb k (fst kv))) p = p.
Proof.
  unfold occurrences. induction p as [|[a x] p IH]; cbn; [reflexivity|].
  destruct (String.eqb k a); cbn; [discriminate|].
  intros H. now rewrite IH.
Qed.

Lemma params_set_settled k v p :
  occurrences k p = 1%nat -> params_get k p = Some v -> params_set k v p = p.
Proof.
  unfold occurrences. induction p as [|[a x] p IH]; cbn; [discriminate|].
  destruct (String.eqb_spec k a) as [<-|N]; cbn.
  - intros C [= ->]. f_equal. apply filter_absent. unfold occurrences. lia.
  - intros C G. now rewrite IH.
Qed.

Lemma key_name_injective a b : key_name a = key_name b -> a = b.
Proof. destruct a, b; cbn; congruence. Qed.

Lemma is_tuner_name_key k : is_tuner_name (key_name k) = true.
Proof. now destruct k. Qed.

(** What the query holds after [syncToURL], tuner by tuner. *)
Lemma synced_query tuners search :
  let url := fold_left
               (fun p kv => params_set (fst kv) (toFixed1 (snd kv)) p)
               (entries tuners) search in
  foreign url = foreign search
  /\ forall k,
       occurrences (key_name k) url = 1%nat
       /\ params_get (key_name k) url = Some (toFixed1 (field k tuners)).
Proof.
  unfold entries, keys. cbn [map fold_left fst snd]. split.
  - unfold foreign.
    rewrite !filter_params_set; [reflexivity| | | | |]; intros x; reflexivity.
  - intros k. split.
    + destruct k; cbn [key_name];
        repeat first
          [ apply occurrences_set_self
          | rewrite occurrences_set_other by discriminate ].
    + rewrite !params_get_set. now destruct k.
Qed.

(** X8. [syncToURL] touches the tuner parameters only.  The query after
    the call holds every entry of another name exactly as before, in the
    same order, and exactly one entry for each of the five tuners, also
    when the query held several entries of a tuner's name. *)
Theorem syncToURL_keeps_other_parameters
  (tuners : AppliedTuners) (search : URLSearchParams) :
  exists url,
    syncToURL tuners (Some search) = Some url
    /\ foreign url = foreign search
    /\ forall k, occurrences (key_name k) url = 1%nat.
Proof.
  eexists. split; [reflexivity|].
  destruct (synced_query tuners search) as [F K].
  split; [exact F|]. intros k. apply K.
Qed.

(** X9. [syncToURL] is idempotent.  A second call with the same tuners
    leaves the query as the first call left it; without a [window]
    neither call does anything. *)
Theorem syncToURL_idempotent
  (tuners : AppliedTuners) (location : option URLSearchParams) :
  syncToURL tuners (syncToURL tuners location) = syncToURL tuners location.
Proof.
  destruct location as [search|]; [|reflexivity].
  unfold syncToURL. f_equal.
  destruct (synced_query tuners search) as [_ K].
  set (url := fold_left _ (entries tuners) search) in *.
  unfold entries, keys. cbn [map fold_left fst snd].
  rewrite (params_set_settled _ _ url);
    [|apply (K Abstraction)|apply (K Abstraction)].
  rewrite (params_set_settled _ _ url);
    [|apply (K Density)|apply (K Density)].
  rewrite (params_set_settled _ _ url);
    [|apply (K Motion)|apply (K Motion)].
  rewrite (params_set_settled _ _ url);
    [|apply (K Contrast)|apply (K Contrast)].
  rewrite (params_set_settled _ _ url);
    [|apply (K Narrative)|apply (K Narrative)].
  reflexivity.
Qed.

End HookFacts.

(* ===================================================================== *)
(** * What a theme leaves on the root element *)
(* ===================================================================== *)

Section RootState.
Import Engine.
Local Open Scope string_scope.

Lemma applyTheme_root theme context engine root win log :
  document
    (snd (applyTheme theme context
            (engine, {| document := Some root; window := win;
                        console := log |})))
  = Some
      {| attributes :=
           assigns (attributeWrites theme context) (attributes root);
         classList :=
           if is_dark (mode theme)
           then (if existsb (String.eqb "dark") (classList root)
                 then classList root
                 else classList root ++ ["dark"])%list
           else filter (fun c' => negb (String.eqb "dark" c'))
                       (classList root);
         style := declares (styleWrites (tokens theme)) (style root) |}.
Proof.
  unfold applyTheme. cbn [document snd].
  rewrite applyWrites_style. destruct (is_dark (mode theme)); reflexivity.
Qed.

Lemma in_existsb_eqb c (l : list string) :
  existsb (String.eqb c) l = true <-> In c l.
Proof.
  rewrite existsb_exists. split.
  - intros [x [I E]]. apply String.eqb_eq in E. now subst.
  - intros I. exists c. split; [exact I | apply String.eqb_refl].
Qed.

(** X10. The root element after [applyTheme], whatever it held before.
    The three data attributes carry the theme's key, its mode and the
    context, and no other attribute changes; the class [dark] is present
    exactly when the theme is dark, and no other class is added or
    removed; a style parameter that the theme does not write keeps the
    declaration it had. *)
Theorem applyTheme_root_state
  (theme : ThemePack) (context : PageContext) (engine : ThemeEngine)
  (root : Element) (win : option (list CustomEvent)) (log : list string) :
  exists root',
    document
      (snd (applyTheme theme context
              (engine, {| document := Some root; window := win;
                          console := log |}))) = Some root'
    /\ declared "data-theme" (attributes root')
       = Some (theme_key (name theme))
    /\ declared "data-theme-mode" (attributes root')
       = Some (mode_name (mode theme))
    /\ declared "data-context" (attributes root')
       = Some (context_name context)
    /\ (forall k,
          ~ In k ["data-theme"; "data-theme-mode"; "data-context"] ->
          declared k (attributes root') = declared k (attributes root))
    /\ (forall c,
          In c (classList root')
          <-> (c = "dark" /\ mode theme = dark)
              \/ (c <> "dark" /\ In c (classList root)))
    /\ (forall k,
          ~ In k (keys (styleWrites (tokens theme))) ->
          declared k (style root') = declared k (style root)).
Proof.
  eexists. split; [apply applyTheme_root|]. cbn [attributes classList style].
  repeat split.
  - now rewrite declared_assigns.
  - now rewrite declared_assigns.
  - now rewrite declared_assigns.
  - intros k N. rewrite declared_assigns. cbn.
    destruct (String.eqb_spec k "data-context") as [->|_];
      [elim N; cbn; tauto|].
    destruct (String.eqb_spec k "data-theme-mode") as [->|_];
      [elim N; cbn; tauto|].
    destruct (String.eqb_spec k "data-theme") as [->|_];
      [elim N; cbn; tauto|].
    reflexivity.
  - destruct (mode theme); cbn [is_dark].
    + destruct (existsb (String.eqb "dark") (classList root)) eqn:E.
      * intros I. destruct (string_dec c "dark") as [->|N]; auto.
      * rewrite in_app_iff. cbn. intros [I|[<-|[]]]; auto.
        destruct (string_dec c "dark") as [->|N]; auto.
    + rewrite filter_In. intros [I N]. right. split; [|exact I].
      intros ->. now rewrite String.eqb_refl in N.
  - destruct (mode theme); cbn [is_dark].
    + destruct (existsb (String.eqb "dark") (classList root)) eqn:E.
      * intros [[-> _]|[_ I]]; [|exact I]. now apply in_existsb_eqb.
      * rewrite in_app_iff. cbn. intros [[-> _]|[_ I]]; auto.
    + rewrite filter_In. intros [[_ D]|[N I]]; [discriminate|].
      split; [exact I|].
      destruct (String.eqb_spec "dark" c); [congruence | reflexivity].
  - intros k N. now apply declared_declares_unwritten.
Qed.

End RootState.

(* ===================================================================== *)
(** * Start-up from the page address *)
(* ===================================================================== *)

Section StartupFacts.
Import Engine Startup.
Local Open Scope string_scope.

Lemma loadTheme_found name_ engine world t :
  themes_get (theme_key name_) (themes engine) = Some t ->
  loadTheme name_ (engine, world) = (Some t, world).
Proof. intros E. unfold loadTheme. now rewrite E. Qed.

Lemma loadTheme_missing name_ engine world :
  themes_get (theme_key name_) (themes engine) = None ->
  loadTheme name_ (engine, world)
  = (None,
     {| document := document world;
        window := window world;
        console := (console world ++ [not_found_message name_ engine])%list
     |}).
Proof. intros E. unfold loadTheme. now rewrite E. Qed.

(** The world after a warning about a theme that is not registered. *)
Lemma initThemeFromUrl_cases defaultTheme defaultContext search engine
  doc events log :
  let world := {| document := doc; window := Some events;
                  console := log |} in
  let warned n w :=
    {| document := document w; window := window w;
       console := (console w ++ [not_found_message n engine])%list |} in
  let fallback := defaultTheme_or defaultTheme in
  let wanted := themeName search fallback in
  let context := context_of search (defaultContext_or defaultContext) in
  initThemeFromUrl defaultTheme defaultContext search (engine, world)
  = match themes_get (theme_key wanted) (themes engine) with
    | Some t => (Some (t, context), applyTheme t context (engine, world))
    | None =>
        match themes_get (theme_key fallback) (themes engine) with
        | Some t =>
            (Some (t, context),
             applyTheme t context (engine, warned wanted world))
        | None => (None, (engine, warned fallback (warned wanted world)))
        end
    end.
Proof.
  intros world warned fallback wanted context.
  unfold initThemeFromUrl. cbn [window snd fst world].
  fold fallback. fold wanted. fold context. fold world.
  destruct (themes_get (theme_key wanted) (themes engine)) as [t|] eqn:W.
  - now rewrite (loadTheme_found _ _ _ t W).
  - rewrite (loadTheme_missing _ _ _ W). fold (warned wanted world).
    destruct (themes_get (theme_key fallback) (themes engine)) as [t|] eqn:F.
    + now rewrite (loadTheme_found _ _ _ t F).
    + now rewrite (loadTheme_missing _ _ _ F).
Qed.

Lemma context_of_names search fallback :
  context_of search fallback
  = match Tuners.params_get "context" search with
    | Some "product" => product
    | Some "marketing" => marketing
    | _ => fallback
    end.
Proof.
  unfold context_of.
  destruct (Tuners.params_get "context" search) as [s|]; [|reflexivity].
  destruct (String.eqb_spec s "product") as [->|Np]; [reflexivity|].
  destruct (String.eqb_spec s "marketing") as [->|Nm]; [reflexivity|].
  destruct s as [|a s]; [reflexivity|].
  repeat
    (match goal with
     | |- context [match ?x with _ => _ end] => is_var x; destruct x
     end; try reflexivity; try congruence).
Qed.

(** X11. Which theme [initThemeFromUrl] starts with.  With a [window],
    the theme of the [theme] query parameter is returned when it is
    registered; when the parameter is missing, empty or names no
    registered theme, the default theme is returned; the result is [null]
    exactly when neither is registered.  The context is the [context]
    parameter when that is [product] or [marketing], else the default
    context. *)
Theorem initThemeFromUrl_selects
  (defaultTheme : option string) (defaultContext : option PageContext)
  (search : Tuners.URLSearchParams) (engine : ThemeEngine)
  (doc : option Element) (events : list CustomEvent) (log : list string) :
  let registered n := themes_get (theme_key n) (themes engine) in
  let fallback := defaultTheme_or defaultTheme in
  let context :=
    match Tuners.params_get "context" search with
    | Some "product" => product
    | Some "marketing" => marketing
    | _ => defaultContext_or defaultContext
    end in
  fst (initThemeFromUrl defaultTheme defaultContext search
         (engine, {| document := doc; window := Some events;
                     console := log |}))
  = match Tuners.params_get "theme" search with
    | None | Some EmptyString =>
        option_map (fun t => (t, context)) (registered fallback)
    | Some wanted =>
        match registered wanted with
        | Some t => Some (t, context)
        | None => option_map (fun t => (t, context)) (registered fallback)
        end
    end.
Proof.
  intros registered fallback context.
  rewrite initThemeFromUrl_cases. rewrite context_of_names.
  fold fallback. fold context. unfold themeName.
  destruct (Tuners.params_get "theme" search) as [[|a s]|]; cbn [String.eqb].
  - fold (registered fallback). now destruct (registered fallback).
  - fold (registered (String a s)). fold (registered fallback).
    destruct (registered (String a s)); [reflexivity|].
    now destruct (registered fallback).
  - fold (registered fallback). now destruct (registered fallback).
Qed.


End StartupFacts.

(* ===================================================================== *)
(** * Page plans *)
(* ===================================================================== *)

Section PlanFacts.
Import Js Server.
Local Open Scope string_scope.

Lemma in_map_indexed {A B : Type} (f : A -> nat -> B) l :
  forall start y,
    In y (map_indexed f start l) -> exists x i, In x l /\ y = f x i.
Proof.
  induction l as [|x l IH]; intros start y; cbn; [tauto|].
  intros [<-|I].
  - exists x, start. auto.
  - destruct (IH _ _ I) as (x' & i & I' & E). exists x', i. auto.
Qed.

Lemma map_map_indexed {A B C : Type} (g : B -> C) (f : A -> nat -> B) l :
  forall start,
    map g (map_indexed f start l)
    = map_indexed (fun x i => g (f x i)) start l.
Proof.
  induction l as [|x l IH]; intros start; cbn; [reflexivity|].
  now rewrite IH.
Qed.

Lemma map_indexed_constant {A B : Type} (g : A -> B) l :
  forall start, map_indexed (fun x _ => g x) start l = map g l.
Proof.
  induction l as [|x l IH]; intros start; cbn; [reflexivity|].
  now rewrite IH.
Qed.

Lemma map_indexed_ext {A B : Type} (f g : A -> nat -> B) l :
  (forall x i, f x i = g x i) ->
  forall start, map_indexed f start l = map_indexed g start l.
Proof.
  intros E. induction l as [|x l IH]; intros start; cbn; [reflexivity|].
  now rewrite E, IH.
Qed.

Lemma motifAt_selected selected index :
  selected <> [] ->
  (forall m, In m selected -> m <> EmptyString) ->
  In (motifAt selected index) selected.
Proof.
  intros N P. unfold motifAt.
  destruct (nth_error selected (index mod length selected)) as [m|] eqn:E.
  - apply nth_error_In in E.
    destruct (String.eqb_spec m EmptyString) as [->|_]; [|exact E].
    now elim (P _ E).
  - apply nth_error_None in E.
    assert (length selected <> 0)%nat by (destruct selected; cbn; congruence).
    pose proof (Nat.mod_upper_bound index (length selected)). lia.
Qed.

Lemma motifAt_nothing index : motifAt [] index = "none".
Proof.
  unfold motifAt.
  now destruct (index mod length (@nil string))%nat.
Qed.

Lemma archetype_motifs_named a m :
  In m (Archetype.motifs (PAGE_ARCHETYPES a)) -> m <> EmptyString.
Proof. destruct a; cbn; intuition (subst; discriminate). Qed.

Lemma selectMotifs_spec config profile m :
  In m (selectMotifs config profile)
  <-> In m (Archetype.motifs config)
      /\ (In m (motifPreference profile)
          \/ (0.5 < abstraction profile)%Q).
Proof.
  unfold selectMotifs. rewrite filter_In, orb_true_iff.
  assert (G : Taste.gt (abstraction profile) 0.5 = true
              <-> (0.5 < abstraction profile)%Q).
  { unfold Taste.gt. rewrite Qgt_alt.
    destruct (abstraction profile ?= 0.5)%Q; split; congruence. }
  rewrite G.
  assert (E : existsb (String.eqb m) (motifPreference profile) = true
              <-> In m (motifPreference profile)).
  { rewrite existsb_exists. split.
    - intros [x [I X]]. apply String.eqb_eq in X. now subst.
    - intros I. exists m. split; [exact I | apply String.eqb_refl]. }
  rewrite E. reflexivity.
Qed.

Lemma proposePagePlan_shape repoMetadata tasteProfile targetRoute tuners :
  map type
      (sections
         (proposePagePlan repoMetadata tasteProfile targetRoute tuners))
  = Archetype.sections (PAGE_ARCHETYPES (archetype_for targetRoute)).
Proof.
  unfold proposePagePlan. cbn [sections].
  rewrite map_map_indexed. cbn [type planSection].
  rewrite (map_indexed_constant (fun x : string => x)). apply map_id.
Qed.

(** X13. The motifs of a page plan.  The plan's motifs are those of the
    archetype, in the archetype's order, that the profile prefers, or all
    of them when the profile's abstraction exceeds 0.5.  Every section
    carries one of the plan's motifs; when no motif was selected, every
    section carries [none].  The sections are the archetype's, in
    order. *)
Theorem proposePagePlan_motifs
  (repoMetadata : RepoMetadata) (tasteProfile : TasteProfile)
  (targetRoute : TargetRoute.t) (tuners : option Tuners.TunerValues) :
  let plan := proposePagePlan repoMetadata tasteProfile targetRoute tuners in
  let config := PAGE_ARCHETYPES (archetype_for targetRoute) in
  (forall m,
     In m (motifs plan)
     <-> In m (Archetype.motifs config)
         /\ (In m (motifPreference tasteProfile)
             \/ (0.5 < abstraction tasteProfile)%Q))
  /\ map type (sections plan) = Archetype.sections config
  /\ (forall s, In s (sections plan) ->
        if match motifs plan with [] => true | _ => false end
        then motif s = "none"
        else In (motif s) (motifs plan)).
Proof.
  intros plan config. split; [|split].
  - intros m. apply selectMotifs_spec.
  - apply proposePagePlan_shape.
  - intros s I. unfold plan, proposePagePlan in *. cbn [sections motifs] in *.
    fold config in I |- *.
    apply in_map_indexed in I. destruct I as (x & i & _ & ->).
    cbn [motif planSection].
    destruct (selectMotifs config tasteProfile) as [|m0 rest] eqn:S.
    + apply motifAt_nothing.
    + apply motifAt_selected; [discriminate|].
      intros m I. rewrite <- S in I. apply selectMotifs_spec in I.
      apply (archetype_motifs_named (archetype_for targetRoute)), I.
Qed.

Lemma lt_spec a b : lt a b = true <-> (a < b)%Q.
Proof.
  unfold lt. rewrite Qlt_alt. destruct (a ?= b)%Q; split; congruence.
Qed.

Lemma gt_spec a b : Taste.gt a b = true <-> (b < a)%Q.
Proof.
  unfold Taste.gt. rewrite Qgt_alt. destruct (a ?= b)%Q; split; congruence.
Qed.

Lemma section_recipe repoMetadata tasteProfile targetRoute tuners s :
  In s (sections
          (proposePagePlan repoMetadata tasteProfile targetRoute tuners)) ->
  let applied := applyTunerOverrides tasteProfile tuners in
  recipe s
  = {| Recipe.density := density applied;
       Recipe.spacing := if lt (density applied) 0.5
                         then "spacious" else "compact";
       Recipe.motion := if Taste.gt (motion applied) 0.5
                        then "enabled" else "minimal" |}.
Proof.
  unfold proposePagePlan. cbn [sections]. intros I.
  apply in_map_indexed in I. destruct I as (x & i & _ & ->). reflexivity.
Qed.

(** X14. What the tuners change in a page plan.  The tuners are applied
    after the motifs have been selected: the archetype, the motifs, the
    theme and the type, motif and components of every section are those
    of the plan without tuners, whatever the abstraction tuner says.  A
    density or motion tuner replaces the profile's value in the recipe of
    every section: the spacing is [spacious] exactly below 0.5 and
    [compact] otherwise, the motion [enabled] exactly above 0.5 and
    [minimal] otherwise. *)
Theorem proposePagePlan_tuners
  (repoMetadata : RepoMetadata) (tasteProfile : TasteProfile)
  (targetRoute : TargetRoute.t) (tuners : Tuners.TunerValues) :
  let plan :=
    proposePagePlan repoMetadata tasteProfile targetRoute (Some tuners) in
  let plain := proposePagePlan repoMetadata tasteProfile targetRoute None in
  let density_ :=
    override (Tuners.density_opt tuners) (density tasteProfile) in
  let motion_ := override (Tuners.motion_opt tuners) (motion tasteProfile) in
  archetype plan = archetype plain
  /\ motifs plan = motifs plain
  /\ theme plan = theme plain
  /\ map (fun s => (id s, type s, motif s, components s)) (sections plan)
     = map (fun s => (id s, type s, motif s, components s)) (sections plain)
  /\ (forall s, In s (sections plan) ->
        Recipe.density (recipe s) = density_
        /\ Recipe.spacing (recipe s)
           = (if Qlt_le_dec density_ 0.5 then "spacious" else "compact")
        /\ Recipe.motion (recipe s)
           = (if Qlt_le_dec 0.5 motion_ then "enabled" else "minimal")).
Proof.
  intros plan plain density_ motion_.
  split; [reflexivity|]. split; [reflexivity|]. split; [reflexivity|].
  split.
  - unfold plan, plain, proposePagePlan. cbn [sections].
    rewrite !map_map_indexed. now apply map_indexed_ext.
  - intros s I.
    rewrite (section_recipe repoMetadata tasteProfile targetRoute
               (Some tuners) s I).
    cbn [Recipe.density Recipe.spacing Recipe.motion applyTunerOverrides
         density motion].
    fold density_. fold motion_. split; [reflexivity|]. split.
    + destruct (Qlt_le_dec density_ 0.5) as [L|L].
      * apply lt_spec in L. now rewrite L.
      * destruct (lt density_ 0.5) eqn:E; [|reflexivity].
        apply lt_spec in E. exfalso. revert L E. apply Qle_not_lt.
    + destruct (Qlt_le_dec 0.5 motion_) as [L|L].
      * apply gt_spec in L. now rewrite L.
      * destruct (Taste.gt motion_ 0.5) eqn:E; [|reflexivity].
        apply gt_spec in E. exfalso. revert L E. apply Qle_not_lt.
Qed.

End PlanFacts.

(* ===================================================================== *)
(** * Patches *)
(* ===================================================================== *)

Section PatchFacts.
Import Js Server.
Local Open Scope string_scope.

Variable print_number : Q -> string.

Lemma append_cancel (a x y : string) : a ++ x = a ++ y -> x = y.
Proof.
  induction a as [|c a IH]; cbn; [auto|]. intros [= E]. auto.
Qed.

Lemma NoDup_map_append (a : string) (l : list string) :
  NoDup l -> NoDup (map (String.append a) l).
Proof.
  induction 1 as [|x l N _ IH]; cbn; constructor; [|exact IH].
  rewrite in_map_iff. intros [y [E I]]. apply append_cancel in E.
  now subst.
Qed.

Lemma append_assoc (a b c : string) : (a ++ b) ++ c = a ++ (b ++ c).
Proof. induction a as [|x a IH]; cbn; [reflexivity|]. now rewrite IH. Qed.

Lemma generatePatch_listing plan repoMetadata dryRun :
  let out := generatePatch print_number plan repoMetadata dryRun in
  affectedFiles out = map file (patches out)
  /\ length (patches out) = S (length (sections plan)).
Proof.
  unfold generatePatch. cbn [patches affectedFiles].
  destruct dryRun.
  - rewrite map_map. cbn [file markDryRun]. split; [reflexivity|].
    rewrite length_map. cbn. now rewrite length_map.
  - split; [reflexivity|]. cbn. now rewrite length_map.
Qed.

(** X15. The patches of [generatePatch].  There is one patch for the
    page and one for each section of the plan, in the plan's order, each
    creating a file; [affectedFiles] lists the files of the patches in
    the same order.  A dry run produces the same files with the same
    contents: it differs only in the descriptions, each of which gets the
    prefix [[DRY RUN] ]. *)
Theorem generatePatch_dry_run
  (plan : Plan) (repoMetadata : RepoMetadata) (dryRun : bool) :
  let out := generatePatch print_number plan repoMetadata dryRun in
  let real := generatePatch print_number plan repoMetadata false in
  affectedFiles out = map file (patches out)
  /\ length (patches out) = S (length (sections plan))
  /\ (forall p, In p (patches out) -> operation p = "create")
  /\ map file (patches out) = map file (patches real)
  /\ map content (patches out) = map content (patches real)
  /\ map description (patches out)
     = map (fun p => (if dryRun then "[DRY RUN] " else EmptyString)
                     ++ description p)
           (patches real).
Proof.
  intros out real. unfold out, real, generatePatch.
  cbn [patches affectedFiles].
  set (created := pagePatch plan repoMetadata
                  :: map (sectionPatch print_number plan repoMetadata)
                         (sections plan)).
  assert (C : forall p, In p created -> operation p = "create").
  { intros p [<-|I]; [reflexivity|].
    apply in_map_iff in I. destruct I as [s [<- _]]. reflexivity. }
  destruct dryRun.
  - rewrite !map_map. cbn [file content description markDryRun].
    repeat split.
    + rewrite length_map. unfold created. cbn. now rewrite length_map.
    + intros p I. apply in_map_iff in I. destruct I as [q [<- I]].
      cbn. now apply C.
  - repeat split.
    + unfold created. cbn. now rewrite length_map.
    + exact C.
Qed.

Lemma archetype_files_distinct a :
  NoDup ("/index.tsx"
         :: map (fun t => "/" ++ capitalizeFirst t ++ "Section.tsx")
                (Archetype.sections (PAGE_ARCHETYPES a))).
Proof.
  apply distinct_NoDup. destruct a; vm_compute; reflexivity.
Qed.

(** X16. A proposed plan becomes patches for distinct files.  The patches
    generated from a plan of [proposePagePlan] never name the same file
    twice, for any route, profile, tuners and source directory: no patch
    overwrites another. *)
Theorem planned_patches_distinct
  (repoMetadata repo : RepoMetadata) (tasteProfile : TasteProfile)
  (targetRoute : TargetRoute.t) (tuners : option Tuners.TunerValues)
  (dryRun : bool) :
  let plan := proposePagePlan repoMetadata tasteProfile targetRoute tuners in
  let out := generatePatch print_number plan repo dryRun in
  NoDup (affectedFiles out)
  /\ NoDup (map file (patches out))
  /\ length (patches out)
     = S (length (Archetype.sections
                    (PAGE_ARCHETYPES (archetype_for targetRoute)))).
Proof.
  intros plan out.
  destruct (generatePatch_listing plan repo dryRun) as (A & L).
  fold out in A, L.
  pose proof (proposePagePlan_shape repoMetadata tasteProfile targetRoute
                tuners) as T.
  fold plan in T.
  assert (N : NoDup (affectedFiles out)).
  { unfold out, generatePatch. cbn [affectedFiles map file pagePatch].
    rewrite map_map. cbn [file sectionPatch].
    rewrite <- (map_map type
                  (fun t => pageDir plan repo ++ "/" ++ capitalizeFirst t
                            ++ "Section.tsx")).
    rewrite T.
    pose proof (NoDup_map_append (pageDir plan repo) _
                  (archetype_files_distinct (archetype_for targetRoute)))
      as D.
    cbn [map] in D. rewrite map_map in D. exact D. }
  split; [exact N|]. split; [now rewrite <- A|].
  rewrite L. f_equal. rewrite <- T. now rewrite length_map.
Qed.

End PatchFacts.

(* ===================================================================== *)
(** * Verification *)
(* ===================================================================== *)

Section VerificationFacts.
Import Js Server.
Local Open Scope string_scope.

(** X17. The verdict of [verifyUI].  The summary counts add up to the
    number of checks, which is three with a [tsconfig.json] and two
    without.  The verdict is [fail] exactly when the guardrails failed or
    the visual comparison failed while baselines were not being updated;
    it is [pass] exactly when every command that ran succeeded.  Hence
    TypeScript errors, and a failed baseline update, never give [fail],
    only [warn]. *)
Theorem verifyUI_verdict
  (repo : Repository) (routes : option (list string))
  (updateBaselines : bool) :
  let out := verifyUI repo routes updateBaselines in
  let ok o := match o with Returned _ => true | Thrown _ _ => false end in
  let visual := if updateBaselines then ui_shots repo else ui_diff repo in
  let typed := negb (has_tsconfig repo) || ok (tsc repo) in
  total (summary out) = length (checks out)
  /\ total (summary out)
     = (passed (summary out) + failed (summary out)
        + warnings (summary out))%nat
  /\ total (summary out) = (if has_tsconfig repo then 3 else 2)%nat
  /\ (overallStatus out = fail
      <-> ok (ui_guard repo) = false
          \/ (updateBaselines = false /\ ok visual = false))
  /\ (overallStatus out = pass
      <-> ok (ui_guard repo) = true /\ ok visual = true /\ typed = true).
Proof.
  destruct repo as [g s d c t].
  destruct updateBaselines, g, s, d, c, t; cbn;
    repeat split; intros; try reflexivity; try discriminate;
    repeat match goal with
           | H : _ \/ _ |- _ => destruct H
           | H : _ /\ _ |- _ => destruct H
           end;
    try discriminate; auto.
Qed.

End VerificationFacts.

(* ===================================================================== *)
(** * The pattern learner *)
(* ===================================================================== *)

Section LearnerFacts.
Import Js Learner.
Local Open Scope string_scope.

Lemma fold_left_Qplus l a :
  (fold_left Qplus l a == a + fold_right Qplus 0 l)%Q.
Proof.
  revert a. induction l as [|x l IH]; intros a; cbn; [lra|].
  rewrite IH. lra.
Qed.

(** The weighted sum of the indices, when the weights sum to something
    other than zero. *)
Lemma weightedSum_finite (idx : ExtractedDesignLanguage -> Z)
  (w : ExtractedDesignLanguage -> Q) (W : Q) l :
  forall pre s,
  exists q,
    weightedSum (map idx l)
      (pre ++ map (fun e => Some (w e / W)%Q) l)%list (length pre) (Some s)
    = Some q
    /\ (q == s + fold_right
                  (fun e r => inject_Z (idx e) * (w e / W) + r) 0 l)%Q.
Proof.
  induction l as [|e l IH]; intros pre s; cbn [map weightedSum].
  - exists s. split; [reflexivity | cbn; lra].
  - rewrite app_nth2 by lia. rewrite Nat.sub_diag. cbn [nth].
    cbn [Taste.nmul Taste.nadd].
    specialize (IH (pre ++ [Some (w e / W)%Q])%list
                   (s + inject_Z (idx e) * (w e / W))%Q).
    rewrite <- app_assoc, length_app in IH. cbn [app length] in IH.
    replace (length pre + 1)%nat with (S (length pre)) in IH by lia.
    destruct IH as [q [Eq Hq]]. exists q. split; [exact Eq|].
    rewrite Hq. cbn [fold_right]. lra.
Qed.

Lemma weighted_bounds (idx : ExtractedDesignLanguage -> Z)
  (w : ExtractedDesignLanguage -> Q) (W : Q) (lo hi : Z) l :
  (0 < W)%Q ->
  (forall e, In e l -> (0 < w e)%Q /\ (lo <= idx e <= hi)%Z) ->
  let share := fold_right (fun e r => w e / W + r)%Q 0%Q l in
  let sum :=
    fold_right (fun e r => inject_Z (idx e) * (w e / W) + r)%Q 0%Q l in
  (inject_Z lo * share <= sum)%Q /\ (sum <= inject_Z hi * share)%Q.
Proof.
  intros PW H. induction l as [|e l IH]; cbn; [lra|].
  destruct (H e (or_introl eq_refl)) as [Pw [L U]].
  destruct IH as [A B]; [intros x I; apply H; now right|].
  assert (T : (0 <= w e / W)%Q).
  { apply Qle_shift_div_l; [exact PW | lra]. }
  assert (L' : (inject_Z lo * (w e / W) <= inject_Z (idx e) * (w e / W))%Q).
  { apply Qmult_le_compat_r; [|exact T]. now rewrite <- Zle_Qle. }
  assert (U' : (inject_Z (idx e) * (w e / W) <= inject_Z hi * (w e / W))%Q).
  { apply Qmult_le_compat_r; [|exact T]. now rewrite <- Zle_Qle. }
  cbn in A, B. split; lra.
Qed.

Lemma shares_sum_to_one (w : ExtractedDesignLanguage -> Q) (W : Q) l :
  ~ (W == 0)%Q ->
  (fold_right (fun e r => w e / W + r) 0 l
   == fold_right Qplus 0 (map w l) / W)%Q.
Proof.
  intros NZ. induction l as [|e l IH]; cbn.
  - field. exact NZ.
  - rewrite IH. field. exact NZ.
Qed.

Lemma round_between (lo hi : Z) (q : Q) :
  (inject_Z lo <= q <= inject_Z hi)%Q ->
  (lo <= Qfloor (q + (1 # 2)) <= hi)%Z.
Proof.
  intros [L U]. split.
  - rewrite <- (Qfloor_Z lo). apply Qfloor_resp_le. lra.
  - pose proof (Qfloor_le (q + (1 # 2))) as F.
    assert (S : (inject_Z (Qfloor (q + (1 # 2))) < inject_Z (hi + 1))%Q).
    { rewrite inject_Z_plus. change (inject_Z 1) with 1%Q. lra. }
    rewrite <- Zlt_Qlt in S. lia.
Qed.

Lemma indexFrom_found v options :
  In v options ->
  forall i,
    (i <= indexFrom v options i)%Z
    /\ nth_error options (Z.to_nat (indexFrom v options i - i)) = Some v.
Proof.
  induction options as [|o options IH]; intros I i; [elim I|].
  cbn [indexFrom]. destruct (String.eqb_spec o v) as [->|N].
  - rewrite Z.sub_diag. split; [lia | reflexivity].
  - destruct I as [E|I]; [congruence|].
    destruct (IH I (i + 1)%Z) as [L F]. split; [lia|].
    replace (Z.to_nat (indexFrom v options (i + 1) - i))
      with (S (Z.to_nat (indexFrom v options (i + 1) - (i + 1)))) by lia.
    exact F.
Qed.

Lemma weightOf_positive extractions e :
  extractions <> [] ->
  (forall w, weight (source e) = Some w -> (0 <= w)%Q) ->
  (0 < weightOf extractions e)%Q.
Proof.
  intros N H. unfold weightOf.
  assert (P : (0 < 1 / inject_Z (Z.of_nat (length extractions)))%Q).
  { apply Qlt_shift_div_l; [|lra].
    replace 0%Q with (inject_Z 0) by reflexivity. rewrite <- Zlt_Qlt.
    destruct extractions; [congruence | cbn [length]; lia]. }
  destruct (weight (source e)) as [w|]; [|exact P].
  destruct (Qeq_bool w 0) eqn:E; [exact P|].
  apply Qeq_bool_neq in E. specialize (H w eq_refl).
  apply Qle_lt_or_eq in H. destruct H as [H|H]; [exact H|].
  elim E. now symmetry.
Qed.

Lemma positive_sum (l : list Q) :
  l <> [] -> (forall x, In x l -> (0 < x)%Q) ->
  (0 < fold_right Qplus 0 l)%Q.
Proof.
  intros N P. destruct l as [|x l]; [congruence|]. clear N.
  assert (Z : forall l', (forall x, In x l' -> (0 < x)%Q) ->
                         (0 <= fold_right Qplus 0 l')%Q).
  { induction l' as [|y l' IH]; intros H; cbn; [lra|].
    pose proof (H y (or_introl eq_refl)).
    specialize (IH (fun x I => H x (or_intror I))). lra. }
  cbn. pose proof (P x (or_introl eq_refl)).
  specialize (Z l (fun y I => P y (or_intror I))). lra.
Qed.

(** The averaged index of one characteristic over the extractions, as
    [learn] computes it, when no weight is negative. *)
Lemma average_index_bounds (f : ExtractedDesignLanguage -> string)
  (options : list string) (extractions : list ExtractedDesignLanguage)
  (lo hi : Z) :
  extractions <> [] ->
  (forall e, In e extractions ->
             forall w, weight (source e) = Some w -> (0 <= w)%Q) ->
  (forall e, In e extractions ->
             (lo <= indexOf (f e) options <= hi)%Z) ->
  exists q,
    weightedSum (map (fun v => indexOf v options) (map f extractions))
                (normalizedWeights extractions) 0 (Some 0%Q) = Some q
    /\ (inject_Z lo <= q <= inject_Z hi)%Q.
Proof.
  intros N Hw Hb.
  set (w := weightOf extractions).
  set (W := totalWeight extractions).
  assert (Pw : forall e, In e extractions -> (0 < w e)%Q).
  { intros e I. apply weightOf_positive; [exact N | exact (Hw e I)]. }
  assert (TW : (W == fold_right Qplus 0 (map w extractions))%Q).
  { unfold W, totalWeight, weights. rewrite fold_left_Qplus. fold w. lra. }
  assert (PW : (0 < W)%Q).
  { rewrite TW. apply positive_sum.
    - destruct extractions; [congruence | discriminate].
    - intros x I. apply in_map_iff in I. destruct I as [e [<- I]]. auto. }
  assert (NZ : ~ (W == 0)%Q) by lra.
  destruct (weightedSum_finite (fun e => indexOf (f e) options) w W
              extractions [] 0%Q) as [q [Eq Hq]].
  cbn [app length] in Eq.
  destruct (weighted_bounds (fun e => indexOf (f e) options) w W lo hi
              extractions PW) as [A B].
  { intros e I. split; [exact (Pw e I) | exact (Hb e I)]. }
  rewrite (shares_sum_to_one w W extractions NZ) in A, B.
  assert (One : (fold_right Qplus 0 (map w extractions) / W == 1)%Q).
  { rewrite <- TW. field. exact NZ. }
  rewrite One in A, B.
  exists q. split; [|rewrite Hq; lra].
  unfold normalizedWeights, weights.
  rewrite !map_map. fold w. fold W.
  rewrite (map_ext (fun e => Taste.ndiv (w e) W)
                   (fun e => Some (w e / W)%Q))
    by (intros e; apply ndiv_nonzero, NZ).
  unfold Taste.number in *. exact Eq.
Qed.

Lemma optionAt_rounded options (lo : Z) (q : Q) :
  (0 <= lo)%Z -> (inject_Z lo <= q)%Q ->
  optionAt options (Some q)
  = nth_error options (Z.to_nat (Qfloor (q + (1 # 2)))).
Proof.
  intros P L. unfold optionAt.
  assert (R : (lo <= Qfloor (q + (1 # 2)))%Z).
  { rewrite <- (Qfloor_Z lo). apply Qfloor_resp_le. lra. }
  destruct (Z.ltb_spec (Qfloor (q + (1 # 2))) 0); [lia | reflexivity].
Qed.



Lemma unanimous_average (f : ExtractedDesignLanguage -> string)
  (options : list string) (extractions : list ExtractedDesignLanguage) v :
  extractions <> [] ->
  (forall e, In e extractions ->
             forall w, weight (source e) = Some w -> (0 <= w)%Q) ->
  In v options ->
  (forall e, In e extractions -> f e = v) ->
  averageEnum (map f extractions) (normalizedWeights extractions) options
  = Some v.
Proof.
  intros N Hw I U.
  destruct (indexFrom_found v options I 0) as [P F].
  rewrite Z.sub_0_r in F. fold (indexOf v options) in P, F.
  destruct (average_index_bounds f options extractions
              (indexOf v options) (indexOf v options) N Hw)
    as [q [E B]].
  { intros e Ie. rewrite (U e Ie). lia. }
  unfold averageEnum. rewrite E.
  rewrite (optionAt_rounded options (indexOf v options)) by tauto.
  replace (Qfloor (q + (1 # 2))) with (indexOf v options); [exact F|].
  pose proof (round_between _ _ _ B). lia.
Qed.

(** X19. The learned tuners are always valid.  For every non-empty list
    of extractions, whatever their weights and values, [learn] returns
    tuners that all lie in [0,1]; with no extraction at all it throws a
    [TypeError]. *)
Theorem learnTuners_valid (extractions : list ExtractedDesignLanguage) :
  match learnTuners extractions with
  | Ok t =>
      extractions <> []
      /\ Tuners.isValidTunerValues (Tuners.some_fields t) = true
  | Throw e => extractions = [] /\ e = TypeError
  end.
Proof.
  destruct extractions as [|e l]; cbn [learnTuners]; [now split|].
  split; [discriminate|].
  unfold componentStyleToAbstraction, densityToTuner, motionToTuner,
    contrastToTuner, formalityToNarrative.
  repeat match goal with
         | |- context [if ?b then _ else _] => destruct b
         end; reflexivity.
Qed.

(** X20. Extractions that agree are learned as they are.  When there is
    an extraction, every weight that is given lies in the documented
    range from 0 to 1 and all extractions have the same density (or
    motion level, or contrast), the learned tuner is the value of that
    level, whatever the weights in that range: 0.3, 0.5 and 0.7 for a
    sparse, balanced and dense mood, 0.2, 0.5 and 0.8 for minimal,
    subtle and expressive motion, and 0.3, 0.5 and 0.8 for low, medium
    and high contrast.  (Weights in that range cannot overflow the sum
    that normalizes them.) *)
Theorem learnTuners_unanimous
  (extractions : list ExtractedDesignLanguage)
  (Hn : extractions <> [])
  (Hw : forall e, In e extractions ->
        forall w, weight (source e) = Some w -> (0 <= w <= 1)%Q) :
  exists t,
    learnTuners extractions = Ok t
    /\ (forall d, In d densityOptions ->
          (forall e, In e extractions -> density (mood e) = d) ->
          Tuners.density t = densityToTuner (Some d))
    /\ (forall m, In m motionOptions ->
          (forall e, In e extractions -> level (motion e) = m) ->
          Tuners.motion t = motionToTuner (Some m))
    /\ (forall c, In c contrastOptions ->
          (forall e, In e extractions -> contrast (mood e) = c) ->
          Tuners.contrast t = contrastToTuner (Some c)).
Proof.
  assert (Hp : forall e, In e extractions ->
               forall w, weight (source e) = Some w -> (0 <= w)%Q).
  { intros e I w E. exact (proj1 (Hw e I w E)). }
  destruct extractions as [|e l]; [congruence|].
  eexists. split; [reflexivity|]. cbn [Tuners.density Tuners.motion
                                         Tuners.contrast].
  split; [|split].
  - intros d I U. unfold avgDensity.
    now rewrite (unanimous_average _ _ _ d Hn Hp I U).
  - intros m I U. unfold avgMotion.
    now rewrite (unanimous_average _ _ _ m Hn Hp I U).
  - intros c I U. unfold avgContrast.
    now rewrite (unanimous_average _ _ _ c Hn Hp I U).
Qed.

Lemma learnTuners_unanimous_witness :
  exists t,
    learnTuners
      [ extractFromDescription
          (described "a dense, compact admin tool" (Some 0.5%Q));
        extractFromDescription (described "dense tables" (Some 0%Q));
        extractFromDescription (described "compact and dark" None) ]
    = Ok t
    /\ Tuners.density t = 0.7%Q.
Proof.
  destruct (learnTuners_unanimous
              [ extractFromDescription
                  (described "a dense, compact admin tool" (Some 0.5%Q));
                extractFromDescription (described "dense tables" (Some 0%Q));
                extractFromDescription (described "compact and dark" None) ])
    as [t [E [D _]]].
  - discriminate.
  - intros e [<-|[<-|[<-|[]]]] w; cbn; intros [= <-]; split; discriminate.
  - exists t. split; [exact E|].
    apply (D "dense").
    + cbn. tauto.
    + intros e [<-|[<-|[<-|[]]]]; reflexivity.
Defined.

End LearnerFacts.

(* ===================================================================== *)
(** * A single reference *)
(* ===================================================================== *)

Section BlendLaws.
Import Js Taste Blending.
Local Open Scope string_scope.

Lemma blend_numeric_field c profiles :
  field c (blendNumeric profiles)
  = running c (totalWeight profiles) profiles (Some 0%Q).
Proof.
  unfold blendNumeric. rewrite field_accumulate. now destruct c.
Qed.

Lemma blend_temperature profiles r :
  blend profiles = Ok r ->
  colorTemperature r = pickTemperature (tempCounts profiles).
Proof.
  unfold blend. destruct (collectMotifs profiles []); [|discriminate].
  now intros [= <-].
Qed.

Lemma blend_motifs profiles r :
  blend profiles = Ok r ->
  collectMotifs profiles [] = Ok (motifPreference r).
Proof.
  unfold blend. destruct (collectMotifs profiles []); [|discriminate].
  now intros [= <-].
Qed.

(** A single observation of positive weight. *)
Lemma set_adds_fresh motifs :
  NoDup motifs ->
  forall set, (forall m, In m motifs -> ~ In m set) ->
  fold_left (fun s m => set_add m s) motifs set = (set ++ motifs)%list.
Proof.
  induction 1 as [|x l N D IH]; intros set F; cbn.
  - now rewrite app_nil_r.
  - unfold set_add at 2.
    assert (X : existsb (String.eqb x) set = false).
    { apply not_true_iff_false. intros H. apply existsb_exists in H.
      destruct H as [y [I Y]]. apply String.eqb_eq in Y. subst y.
      apply (F x); [now left | exact I]. }
    rewrite X, IH.
    + now rewrite <- app_assoc.
    + intros m I J. apply in_app_iff in J. destruct J as [J|[<-|[]]].
      * apply (F m); [now right | exact J].
      * contradiction.
Qed.

Lemma blend_single p w :
  (0 < w)%Q -> NoDup (motifPreference p) ->
  exists r,
    blend [observed p w] = Ok r
    /\ (forall c, same (field c r) (field c p))
    /\ colorTemperature r = colorTemperature p
    /\ motifPreference r = motifPreference p.
Proof.
  intros W N.
  destruct (blend_observations [(p, w)]) as [r E].
  change (observations [(p, w)]) with [observed p w] in E.
  exists r. split; [exact E|]. split; [|split].
  - intros c. rewrite (blend_field c _ r E), blend_numeric_field.
    unfold running, totalWeight. cbn.
    unfold ndiv. destruct (Qeq_bool (0 + w) 0) eqn:Z.
    + apply Qeq_bool_iff in Z. lra.
    + destruct (field c p) as [x|]; cbn; [|exact I]. field. lra.
  - rewrite (blend_temperature _ _ E). unfold tempCounts, pickTemperature.
    cbn. destruct (colorTemperature p); cbn.
    + assert (G : gt (0 + w) 0 = true) by (apply gt_true; lra).
      now rewrite G.
    + assert (G : gt (0 + w) 0 = true) by (apply gt_true; lra).
      assert (G' : gt 0 (0 + w) = false) by (apply gt_false; lra).
      now rewrite G, G'.
    + assert (G' : gt 0 (0 + w) = false) by (apply gt_false; lra).
      rewrite G'. cbn. reflexivity.
  - pose proof (blend_motifs _ _ E) as M. cbn in M.
    rewrite (set_adds_fresh _ N []) in M by (intros m _ F; exact F).
    cbn in M. congruence.
Qed.

Lemma known_motifs_distinct key p :
  assoc key KNOWN_REFERENCES = Some p -> NoDup (motifPreference p).
Proof.
  unfold KNOWN_REFERENCES. cbn [assoc].
  repeat (destruct (String.eqb key _);
          [intros [= <-]; apply distinct_NoDup; reflexivity|]).
  discriminate.
Qed.

(** X23. A single reference is reproduced.  Deriving the taste from one
    inspiration that names a reference of [KNOWN_REFERENCES], in any
    letter case and with any positive weight, or with no weight at all,
    returns that reference's profile: the same continuous fields, colour
    temperature and motifs. *)
Theorem derive_single_reference
  (kind name_ : string) (weight_ : option Q) (p : TasteProfile)
  (Hk : kind = "reference-name" \/ kind = "reference")
  (Hw : forall w, weight_ = Some w -> (0 < w)%Q)
  (Hp : assoc (toLowerCase name_) KNOWN_REFERENCES = Some p) :
  exists r,
    deriveTasteFromInspirations
      (Some [ {| type := kind; value := name_; weight := weight_ |} ])
    = Ok r
    /\ (forall c, same (field c r) (field c p))
    /\ colorTemperature r = colorTemperature p
    /\ motifPreference r = motifPreference p.
Proof.
  set (w := match weight_ with Some w => w | None => 1.0%Q end).
  assert (W : (0 < w)%Q).
  { unfold w. destruct weight_ as [x|]; [now apply Hw | reflexivity]. }
  destruct (blend_single p w W (known_motifs_distinct _ _ Hp))
    as (r & E & F & T & M).
  exists r. split; [|now repeat split].
  rewrite derive_blends. cbn [flat_map]. rewrite app_nil_r.
  unfold resolve. cbn [type value weight]. fold w.
  assert (K : String.eqb kind "reference-name"
              || String.eqb kind "reference" = true).
  { destruct Hk as [-> | ->]; reflexivity. }
  rewrite K. unfold known_reference. rewrite Hp. exact E.
Qed.

Lemma derive_single_reference_witness :
  exists r,
    deriveTasteFromInspirations
      (Some [ {| type := "reference-name"; value := "Linear";
                 weight := Some 0.4%Q |} ])
    = Ok r
    /\ same (density r) (Some 0.4%Q)
    /\ colorTemperature r = cool
    /\ motifPreference r = ["gradients"; "blur"].
Proof.
  destruct (derive_single_reference "reference-name" "Linear" (Some 0.4%Q)
              (profile 0.7 0.8 0.4 0.6 0.7 0.5 ["gradients"; "blur"] 0.3
                       cool 0.5))
    as (r & E & F & T & M).
  - now left.
  - intros w [= <-]. reflexivity.
  - reflexivity.
  - exists r. split; [exact E|]. split; [exact (F Density)|].
    split; [exact T | exact M].
Defined.

End BlendLaws.

(* ===================================================================== *)
(** * What normalization keeps of a legacy pack *)
(* ===================================================================== *)

Section LegacyRecipes.
Import Js Engine Themes.
Local Open Scope string_scope.
Local Open Scope js_scope.

Lemma lookup_set_prop k k' v props :
  lookup k (set_prop k' v props)
  = if String.eqb k k' then Some v else lookup k props.
Proof.
  induction props as [|[a x] props IH]; cbn.
  - reflexivity.
  - destruct (String.eqb_spec k' a) as [->|N]; cbn.
    + now destruct (String.eqb k a).
    + rewrite IH. destruct (String.eqb_spec k a) as [->|Na]; [|reflexivity].
      destruct (String.eqb_spec a k'); [congruence | reflexivity].
Qed.

Lemma lookup_absent k (props : list (string * value)) :
  ~ In k (map fst props) -> lookup k props = None.
Proof.
  induction props as [|[a x] props IH]; cbn; [reflexivity|].
  intros N. destruct (String.eqb_spec k a) as [->|_]; [tauto|].
  apply IH. tauto.
Qed.

(** Copying the properties of an object with distinct keys. *)
Lemma lookup_copied k props :
  NoDup (map fst props) ->
  forall acc,
    lookup k (fold_left (fun acc kv => set_prop (fst kv) (snd kv) acc)
                        props acc)
    = match lookup k props with
      | Some v => Some v
      | None => lookup k acc
      end.
Proof.
  induction props as [|[a x] props IH]; cbn [map fst]; intros D acc;
    [reflexivity|].
  inversion D as [|? ? N D']. subst.
  cbn [fold_left lookup fst snd]. rewrite (IH D').
  destruct (String.eqb_spec k a) as [->|Na].
  - rewrite (lookup_absent _ _ N), lookup_set_prop.
    now rewrite String.eqb_refl.
  - rewrite lookup_set_prop.
    destruct (String.eqb_spec k a); [congruence | reflexivity].
Qed.

Lemma normalize_legacy n m t props :
  has_both_contexts
    {| name := n; mode := m; tokens := t; recipes := VObj props |}
  = Ok false ->
  exists marketingRecipes,
    normalizeThemePack
      {| name := n; mode := m; tokens := t; recipes := VObj props |}
    = Ok {| name := n; mode := m; tokens := t;
            recipes :=
              lit [ ("product",
                     object [ Spread (VObj props);
                              Field "media" (getProductMediaRecipes m);
                              Field "motion" getProductMotionRecipes ]);
                    ("marketing", marketingRecipes) ] |}.
Proof.
  intros L. unfold normalizeThemePack. rewrite L.
  cbn [bind recipes mode name tokens]. cbv zeta. cbn [get].
  destruct (lookup "AppShell" props) as [a|]; cbn [bind];
    try (destruct (get_opt_total a "backgroundTreatment") as [x ->]);
    cbn [get_opt bind];
    destruct (lookup "Surface" props) as [s|]; cbn [bind];
    try (destruct (get_opt_total s "default") as [d ->]);
    try (destruct (get_opt_total s "floating") as [f ->]);
    cbn [get_opt bind];
    destruct (lookup "SectionHeader" props) as [h|]; cbn [bind];
    eexists; reflexivity.
Qed.

(** X24. What normalization keeps of a legacy pack.  For a pack whose
    recipes are an object without both contexts, the normalized pack has
    the same name, mode and tokens; its product recipes hold every legacy
    recipe unchanged, except [media] and [motion], which are replaced by
    the defaults of the pack's mode even when the legacy pack had its
    own. *)
Theorem normalizeThemePack_keeps_legacy
  (n : string) (m : ThemeMode) (t : ThemeTokens)
  (props : list (string * value))
  (Hd : NoDup (map fst props))
  (Hl : has_both_contexts
          {| name := n; mode := m; tokens := t; recipes := VObj props |}
        = Ok false) :
  exists y productRecipes,
    normalizeThemePack
      {| name := n; mode := m; tokens := t; recipes := VObj props |} = Ok y
    /\ name y = n /\ mode y = m /\ tokens y = t
    /\ getRecipesForContext y product = Ok (VObj productRecipes)
    /\ (forall k, k <> "media" -> k <> "motion" ->
          lookup k productRecipes = lookup k props)
    /\ lookup "media" productRecipes = Some (getProductMediaRecipes m)
    /\ lookup "motion" productRecipes = Some getProductMotionRecipes.
Proof.
  destruct (normalize_legacy n m t props Hl) as [mk E].
  eexists. eexists. split; [exact E|].
  cbn [name mode tokens].
  split; [reflexivity|]. split; [reflexivity|]. split; [reflexivity|].
  split; [reflexivity|]. split; [|split].
  - intros k Nm Nn. cbn [add_item fold_left own_props].
    rewrite !lookup_set_prop.
    destruct (String.eqb_spec k "motion"); [congruence|].
    destruct (String.eqb_spec k "media"); [congruence|].
    rewrite (lookup_copied k props Hd). cbn [lookup].
    now destruct (lookup k props).
  - cbn [add_item fold_left own_props]. rewrite !lookup_set_prop.
    reflexivity.
  - cbn [add_item fold_left own_props]. rewrite !lookup_set_prop.
    reflexivity.
Qed.

Lemma normalizeThemePack_keeps_legacy_witness :
  exists y productRecipes,
    normalizeThemePack
      {| name := "Demo"; mode := dark; tokens := hospitalityWarmTokens;
         recipes :=
           VObj [ ("Surface", VObj [ ("default", VObj [ ("border",
                                                         VBool true) ]) ]);
                  ("media", VStr "mine") ] |} = Ok y
    /\ getRecipesForContext y product = Ok (VObj productRecipes)
    /\ lookup "Surface" productRecipes
       = Some (VObj [ ("default", VObj [ ("border", VBool true) ]) ])
    /\ lookup "media" productRecipes = Some (getProductMediaRecipes dark).
Proof.
  destruct (normalizeThemePack_keeps_legacy "Demo" dark hospitalityWarmTokens
              [ ("Surface", VObj [ ("default", VObj [ ("border",
                                                       VBool true) ]) ]);
                ("media", VStr "mine") ])
    as (y & p & E & _ & _ & _ & G & K & M & _).
  - apply distinct_NoDup. reflexivity.
  - reflexivity.
  - exists y, p. split; [exact E|]. split; [exact G|]. split; [|exact M].
    rewrite K by discriminate. reflexivity.
Defined.

End LegacyRecipes.

(* ===================================================================== *)
(** * Switching themes *)
(* ===================================================================== *)

Section ThemeSwitch.
Import Engine Themes Switch.
Local Open Scope string_scope.

Lemma transform_written step token tr :
  textTransform token = Some tr -> tr <> EmptyString ->
  In (transformName step, tr) (typeStepWrites (step, token)).
Proof.
  intros E N. unfold typeStepWrites. rewrite E.
  destruct (String.eqb_spec tr EmptyString); [contradiction|].
  apply in_app_iff. right. now left.
Qed.

Lemma keys_without_transform step token :
  textTransform token = None ->
  (keys (typeStepWrites (step, token)) ++ [transformName step])%list
  = stepNames step.
Proof. intros E. unfold typeStepWrites. rewrite E. reflexivity. Qed.

Lemma keys_with_transform step token :
  keys (typeStepWrites
          (step,
           {| fontSize := fontSize token; fontWeight := fontWeight token;
              letterSpacing := letterSpacing token;
              lineHeight := lineHeight token;
              textTransform := Some "none" |}))
  = stepNames step.
Proof. reflexivity. Qed.

(** A step without a text transform leaves the transform parameter
    unwritten. *)
Lemma transform_unwritten t step token :
  structurally_valid t ->
  In (step, token) (typeScale t) ->
  textTransform token = None ->
  ~ In (transformName step) (keys (styleWrites t)).
Proof.
  intros [S D] I E.
  destruct (in_split _ _ I) as (l1 & l2 & L).
  set (token' := {| fontSize := fontSize token;
                    fontWeight := fontWeight token;
                    letterSpacing := letterSpacing token;
                    lineHeight := lineHeight token;
                    textTransform := Some "none" |}).
  set (K := fun e : string * TypeScaleToken => keys (typeStepWrites e)).
  assert (N : NoDup (coreNames
                     ++ flat_map K (l1 ++ (step, token') :: l2)
                     ++ map densityName (map fst (density t)))).
  { apply NoDup_written_steps.
    apply Permutation_NoDup with (2 := declared_names_distinct).
    apply Permutation_app_head, Permutation_app.
    - apply Permutation_flat_map. symmetry.
      replace (map fst (l1 ++ (step, token') :: l2))
        with (map fst (typeScale t)); [exact S|].
      rewrite L, !map_app. reflexivity.
    - apply Permutation_map. now symmetry. }
  rewrite flat_map_app in N. cbn [flat_map] in N.
  unfold K at 2 in N. unfold token' in N.
  rewrite keys_with_transform, <- (keys_without_transform step token E) in N.
  fold (K (step, token)) in N.
  rewrite <- !app_assoc in N. cbn [app] in N.
  rewrite !app_assoc in N. apply NoDup_remove_2 in N.
  rewrite keys_styleWrites, L. fold K.
  rewrite flat_map_app. cbn [flat_map].
  rewrite <- !app_assoc. rewrite <- !app_assoc in N. exact N.
Qed.

(** X25. A text transform survives a theme switch.  Let a theme whose
    type step has a text transform be applied, and then a theme whose
    same step has none, both with structurally valid tokens.  The second
    theme does not write the step's transform parameter, so the root
    element keeps the first theme's value for it. *)
Theorem stale_transform_after_switch
  (first second : ThemePack) (context context' : PageContext)
  (engine : ThemeEngine) (root : Element)
  (win : option (list CustomEvent)) (log : list string)
  (step tr : string) (token token' : TypeScaleToken)
  (Hf : structurally_valid (tokens first))
  (Hs : structurally_valid (tokens second))
  (Hi : In (step, token) (typeScale (tokens first)))
  (Ht : textTransform token = Some tr)
  (Hn : tr <> EmptyString)
  (Hi' : In (step, token') (typeScale (tokens second)))
  (Ht' : textTransform token' = None) :
  exists root',
    document
      (snd (applyTheme second context'
              (applyTheme first context
                 (engine, {| document := Some root; window := win;
                             console := log |})))) = Some root'
    /\ declared ("--ds-type-" ++ step ++ "-transform") (style root')
       = Some tr.
Proof.
  destruct (applyTheme first context _) as [engine1 world1] eqn:A.
  pose proof (applyTheme_root first context engine root win log) as R.
  rewrite A in R. cbn [snd] in R.
  destruct world1 as [doc1 win1 log1]. cbn [document] in R. subst doc1.
  eexists. split; [apply applyTheme_root|]. cbn [style].
  fold (transformName step).
  rewrite declared_declares_unwritten
    by (apply (transform_unwritten _ step token'); assumption).
  rewrite (declared_declares_written _ _ (transformName step) tr).
  - unfold written. destruct (String.eqb_spec tr EmptyString);
      [contradiction | reflexivity].
  - now apply valid_tokens_write_once.
  - unfold styleWrites. apply in_app_iff. right. apply in_app_iff. left.
    apply in_flat_map. exists (step, token). split; [exact Hi|].
    now apply transform_written.
Qed.

Lemma stale_transform_after_switch_witness :
  exists root',
    document
      (snd (applyTheme (withoutTransforms hospitalityWarmRegistered) product
              (applyTheme hospitalityWarmRegistered marketing
                 (freshEngine,
                  {| document := Some blankRoot; window := Some [];
                     console := [] |})))) = Some root'
    /\ declared "--ds-type-label-transform" (style root')
       = Some "uppercase".
Proof.
  apply (stale_transform_after_switch hospitalityWarmRegistered
           (withoutTransforms hospitalityWarmRegistered) marketing product
           freshEngine blankRoot (Some []) [] "label" "uppercase"
           (Themes.step "0.6875rem" "500" "0.04em" "1.4" (Some "uppercase"))
           (plain (Themes.step "0.6875rem" "500" "0.04em" "1.4"
                               (Some "uppercase")))).
  - split; apply Permutation_refl.
  - split; apply Permutation_refl.
  - cbn. tauto.
  - reflexivity.
  - discriminate.
  - cbn. tauto.
  - reflexivity.
Defined.

End ThemeSwitch.

(* ===================================================================== *)
(** * Which URLs are recognized *)
(* ===================================================================== *)

Section UrlRecognition.
Import Js Taste Blending Urls.
Local Open Scope string_scope.

Lemma single_line_before_slash s :
  single_line s = true -> single_line (before_slash s) = true.
Proof.
  induction s as [|c s IH]; cbn; [reflexivity|].
  rewrite andb_true_iff. intros [C S].
  destruct (Ascii.eqb c "/"); cbn; [reflexivity|].
  now rewrite C, IH.
Qed.

(** A text that starts with a label and a dot starts with no prefix that
    has a slash after a label. *)
Lemma starts_with_label a b label rest :
  is_label a = true -> is_label label = true ->
  starts_with (a ++ String "/" b) (label ++ String "." rest) = None.
Proof.
  revert label. induction a as [|x a IH]; intros label A L.
  - destruct label as [|c label]; cbn [append starts_with];
      [reflexivity|].
    cbn [is_label] in L.
    rewrite !andb_true_iff, !negb_true_iff in L. destruct L as [[S _] _].
    rewrite Ascii.eqb_sym, S. reflexivity.
  - cbn [is_label] in A. rewrite !andb_true_iff, !negb_true_iff in A.
    destruct A as [[_ D] A].
    destruct label as [|c label]; cbn [append starts_with].
    + now rewrite D.
    + cbn [is_label] in L. rewrite !andb_true_iff in L. destruct L as [_ L].
      destruct (Ascii.eqb x c); [now apply IH | reflexivity].
Qed.

Lemma strip_scheme_label scheme label rest :
  scheme = "https://" \/ scheme = "http://" \/ scheme = EmptyString ->
  is_label label = true ->
  strip_scheme (scheme ++ label ++ String "." rest)
  = label ++ String "." rest.
Proof.
  intros [-> | [-> | ->]] L; [reflexivity | reflexivity |].
  unfold strip_scheme. cbn [append].
  pose proof (starts_with_label "https:" "/" label rest eq_refl L) as P.
  pose proof (starts_with_label "http:" "/" label rest eq_refl L) as Q.
  cbn [append] in P, Q. now rewrite P, Q.
Qed.

Lemma before_slash_label label rest :
  is_label label = true ->
  before_slash (label ++ String "." rest)
  = label ++ String "." (before_slash rest).
Proof.
  induction label as [|c label IH]; cbn [append before_slash is_label].
  - reflexivity.
  - rewrite !andb_true_iff, !negb_true_iff. intros [[S _] L].
    now rewrite S, IH.
Qed.

Lemma drop_from_dot_label label rest :
  is_label label = true -> single_line rest = true ->
  drop_from_dot (label ++ String "." rest) = label.
Proof.
  intros L S. induction label as [|c label IH]; cbn [append drop_from_dot].
  - now rewrite S.
  - cbn [is_label] in L. rewrite !andb_true_iff, !negb_true_iff in L.
    destruct L as [[_ D] L]. rewrite D. cbn [andb]. now rewrite IH.
Qed.

Lemma domain_of_label scheme label rest :
  scheme = "https://" \/ scheme = "http://" \/ scheme = EmptyString ->
  is_label label = true -> single_line rest = true ->
  domain_name (scheme ++ label ++ String "." rest) = toLowerCase label.
Proof.
  intros S L R. unfold domain_name.
  rewrite (strip_scheme_label _ _ _ S L), (before_slash_label _ _ L).
  now rewrite (drop_from_dot_label _ _ L (single_line_before_slash _ R)).
Qed.

(** X26. A URL is recognized by the first label of its host.  For a URL
    made of an optional [http] or [https] scheme, a label, a dot and
    anything on one line, the reference looked up is the label in lower
    case, whatever follows the dot.  So [stripe.com] finds [stripe], and
    a host that starts with [www.] is never recognized, whatever the
    site: it contributes the neutral defaults with three tenths of its
    weight. *)
Theorem url_recognized_by_first_label
  (scheme label rest : string) (weight_ : option Q)
  (Hs : scheme = "https://" \/ scheme = "http://" \/ scheme = EmptyString)
  (Hb : is_label label = true)
  (Hl : single_line rest = true) :
  let insp := {| type := "url"; value := scheme ++ label ++ String "." rest;
                 weight := weight_ |} in
  let w := match weight_ with Some w => w | None => 1.0%Q end in
  resolve insp
  = [ match known_reference (toLowerCase label) with
      | Some ref => {| entry_profile := ref; entry_weight := w |}
      | None => {| entry_profile := Profile unknown_profile;
                   entry_weight := (w * 0.3)%Q |}
      end ]
  /\ (toLowerCase label = "www" ->
      resolve insp
      = [ {| entry_profile := Profile unknown_profile;
             entry_weight := (w * 0.3)%Q |} ]).
Proof.
  intros insp w.
  assert (R : resolve insp
              = [ match known_reference (toLowerCase label) with
                  | Some ref => {| entry_profile := ref; entry_weight := w |}
                  | None => {| entry_profile := Profile unknown_profile;
                               entry_weight := (w * 0.3)%Q |}
                  end ]).
  { unfold resolve, insp. cbn [type value weight]. fold w.
    cbn [String.eqb Ascii.eqb Bool.eqb orb].
    rewrite (domain_of_label scheme label rest Hs Hb Hl).
    now destruct (known_reference (toLowerCase label)). }
  split; [exact R|]. intros E. rewrite R, E. reflexivity.
Qed.

Lemma url_recognized_by_first_label_witness :
  resolve {| type := "url"; value := "https://www.stripe.com/payments";
             weight := None |}
  = [ {| entry_profile := Profile unknown_profile;
         entry_weight := (1.0 * 0.3)%Q |} ]
  /\ known_reference "stripe" <> None.
Proof.
  split; [|discriminate].
  apply (url_recognized_by_first_label "https://" "www"
           "stripe.com/payments" None).
  - now left.
  - reflexivity.
  - reflexivity.
  - reflexivity.
Defined.

End UrlRecognition.

(* ===================================================================== *)
(** * The derived profile stays in range *)
(* ===================================================================== *)

Section DerivedRange.
Import Js Taste Blending.
Local Open Scope string_scope.

Lemma profile_in_range a r d m c n motifs t temp s :
  (0 <= a <= 1)%Q -> (0 <= r <= 1)%Q -> (0 <= d <= 1)%Q ->
  (0 <= m <= 1)%Q -> (0 <= c <= 1)%Q -> (0 <= n <= 1)%Q ->
  (0 <= t <= 1)%Q -> (0 <= s <= 1)%Q ->
  in_range (profile a r d m c n motifs t temp s).
Proof. intros ? ? ? ? ? ? ? ? f. destruct f; cbn; eauto. Qed.

Lemma known_in_range key p :
  assoc key KNOWN_REFERENCES = Some p -> in_range p.
Proof.
  unfold KNOWN_REFERENCES. cbn [assoc].
  repeat (destruct (String.eqb key _);
          [intros [= <-]; apply profile_in_range; lra|]).
  discriminate.
Qed.

(** An entry that holds a profile in range with a positive weight. *)
Lemma resolve_in_range i e :
  (forall w, weight i = Some w -> (0 < w)%Q) ->
  ~ In (toLowerCase (value i)) inherited_names ->
  ~ In (domain_name (value i)) inherited_names ->
  In e (resolve i) ->
  exists p,
    entry_profile e = Profile p /\ in_range p /\ (0 < entry_weight e)%Q.
Proof.
  intros Hw Hr Hu.
  set (w := match weight i with Some w => w | None => 1.0%Q end).
  assert (W : (0 < w)%Q).
  { unfold w. destruct (weight i) as [x|]; [now apply Hw | reflexivity]. }
  assert (U : in_range unknown_profile) by (apply profile_in_range; lra).
  assert (S : in_range screenshot_profile) by (apply profile_in_range; lra).
  assert (K : forall key, ~ In key inherited_names ->
              forall ref, known_reference key = Some ref ->
              exists p, ref = Profile p /\ in_range p).
  { intros key N ref. unfold known_reference.
    destruct (assoc key KNOWN_REFERENCES) as [p|] eqn:A.
    - intros [= <-]. exists p. split; [reflexivity|].
      now apply (known_in_range key).
    - destruct (existsb (String.eqb key) inherited_names) eqn:X;
        [|discriminate].
      apply existsb_exists in X. destruct X as [y [I Y]].
      apply String.eqb_eq in Y. subst y. contradiction. }
  unfold resolve. fold w.
  destruct (String.eqb (type i) "reference-name"
            || String.eqb (type i) "reference").
  - destruct (known_reference (toLowerCase (value i))) as [ref|] eqn:R.
    + intros [<-|[]]. destruct (K _ Hr ref R) as [p [-> P]].
      exists p. cbn. auto.
    + intros [<-|[]]. exists unknown_profile. cbn.
      split; [reflexivity|]. split; [exact U | lra].
  - destruct (String.eqb (type i) "url").
    + destruct (known_reference (domain_name (value i))) as [ref|] eqn:R.
      * intros [<-|[]]. destruct (K _ Hu ref R) as [p [-> P]].
        exists p. cbn. auto.
      * intros [<-|[]]. exists unknown_profile. cbn.
        split; [reflexivity|]. split; [exact U | lra].
    + destruct (String.eqb (type i) "screenshot"); [|intros []].
      intros [<-|[]]. exists screenshot_profile. cbn.
      split; [reflexivity|]. split; [exact S | lra].
Qed.

Lemma running_range c W profiles :
  (0 < W)%Q ->
  (forall e, In e profiles ->
     exists p,
       entry_profile e = Profile p /\ in_range p /\ (0 < entry_weight e)%Q) ->
  forall a,
  exists q,
    running c W profiles (Some a) = Some q
    /\ (a <= q)%Q
    /\ (q <= a + fold_right (fun e r => entry_weight e + r) 0 profiles / W)%Q.
Proof.
  intros PW. induction profiles as [|e l IH]; intros G a.
  - exists a. cbn. split; [reflexivity|]. split; [lra|].
    assert (Z : (0 / W == 0)%Q) by (field; lra). rewrite Z. lra.
  - destruct (G e (or_introl eq_refl)) as (p & Ep & R & Pw).
    destruct (R c) as (x & Ex & Bx).
    cbn [running fold_left]. unfold read at 2. rewrite Ep, Ex.
    rewrite ndiv_nonzero by lra. cbn [nmul nadd].
    destruct (IH (fun y I => G y (or_intror I))
                 (a + x * (entry_weight e / W))%Q) as (q & Eq & L & U).
    exists q. split; [exact Eq|].
    assert (T : (0 <= entry_weight e / W)%Q).
    { apply Qle_shift_div_l; [exact PW | lra]. }
    assert (X0 : (0 <= x * (entry_weight e / W))%Q).
    { apply Qmult_le_0_compat; [lra | exact T]. }
    assert (X1 : (x * (entry_weight e / W) <= entry_weight e / W)%Q).
    { rewrite <- (Qmult_1_l (entry_weight e / W)) at 2.
      apply Qmult_le_compat_r; [lra | exact T]. }
    cbn [fold_right].
    assert (D : ((entry_weight e
                  + fold_right (fun e r => entry_weight e + r) 0 l) / W
                 == entry_weight e / W
                    + fold_right (fun e r => entry_weight e + r) 0 l / W)%Q).
    { field. lra. }
    rewrite D. split; lra.
Qed.

Lemma totalWeight_sum profiles :
  (totalWeight profiles
   == fold_right (fun e r => entry_weight e + r) 0 profiles)%Q.
Proof.
  induction profiles as [|e l IH]; unfold totalWeight; cbn; [reflexivity|].
  rewrite (totalWeight_from _ l), IH. ring.
Qed.

Lemma collectMotifs_profiles profiles :
  (forall e, In e profiles -> exists p, entry_profile e = Profile p) ->
  forall set, exists motifs, collectMotifs profiles set = Ok motifs.
Proof.
  induction profiles as [|e l IH]; intros G set; cbn; [eauto|].
  destruct (G e (or_introl eq_refl)) as [p ->].
  apply IH. intros y I. apply G. now right.
Qed.

(** X27. The derived profile stays in range.  When every weight that is
    given is a normal double in the documented range, from [2 ^ -1022]
    to 1, and no inspiration is named like a member of
    [Object.prototype], [deriveTasteFromInspirations] returns a profile,
    and each of its eight continuous fields is a finite number in
    [0,1], whatever the types, names and URLs of the inspirations.  (A
    weight that small still counts after it is scaled by 0.3 or 0.5, so
    the total weight is not zero; no field of the table exceeds 0.9.) *)
Theorem derive_in_range
  (l : list Inspiration)
  (Hn : l <> [])
  (Hw : forall i w, In i l -> weight i = Some w ->
        (min_normal <= w <= 1)%Q)
  (Hi : forall i, In i l ->
        ~ In (toLowerCase (value i)) inherited_names
        /\ ~ In (domain_name (value i)) inherited_names) :
  exists r,
    deriveTasteFromInspirations (Some l) = Ok r
    /\ forall c, exists q, field c r = Some q /\ (0 <= q <= 1)%Q.
Proof.
  assert (Hp : forall i w, In i l -> weight i = Some w -> (0 < w)%Q).
  { intros i w I E. destruct (Hw i w I E) as [L _].
    eapply Qlt_le_trans; [|exact L]. reflexivity. }
  assert (G : forall e, In e (flat_map resolve l) ->
              exists p, entry_profile e = Profile p /\ in_range p
                        /\ (0 < entry_weight e)%Q).
  { intros e I. apply in_flat_map in I. destruct I as (i & Ii & Ie).
    destruct (Hi i Ii) as [Hr Hu].
    apply (resolve_in_range i e); auto. intros w. now apply Hp. }
  destruct (collectMotifs_profiles (flat_map resolve l)) with (set := @nil string)
    as [motifs M].
  { intros e I. destruct (G e I) as (p & E & _). eauto. }
  destruct l as [|i0 l0]; [congruence|]. rewrite derive_blends.
  set (profiles := flat_map resolve (i0 :: l0)) in *.
  assert (B : exists r, blend profiles = Ok r).
  { unfold blend. rewrite M. eauto. }
  destruct B as [r E]. exists r. split; [exact E|]. intros c.
  rewrite (blend_field c _ r E), blend_numeric_field.
  destruct profiles as [|e0 rest] eqn:P.
  - exists 0%Q. split; [now destruct c | lra].
  - rewrite <- P in *.
    assert (PW : (0 < totalWeight profiles)%Q).
    { rewrite totalWeight_sum, P. cbn [fold_right].
      destruct (G e0) as (p & _ & _ & W0); [rewrite P; now left|].
      assert (Z : forall l', (forall e, In e l' -> (0 < entry_weight e)%Q) ->
                  (0 <= fold_right (fun e r => entry_weight e + r) 0 l')%Q).
      { induction l' as [|y l' IH]; intros H; cbn; [lra|].
        pose proof (H y (or_introl eq_refl)).
        specialize (IH (fun x I => H x (or_intror I))). lra. }
      specialize (Z rest). 
      assert (0 <= fold_right (fun e r => entry_weight e + r) 0 rest)%Q.
      { apply Z. intros e I. destruct (G e) as (q & _ & _ & Wq);
          [rewrite P; now right | exact Wq]. }
      lra. }
    destruct (running_range c (totalWeight profiles) profiles PW G 0%Q)
      as (q & Eq & L & U).
    exists q. split; [exact Eq|]. split; [exact L|].
    rewrite <- totalWeight_sum in U.
    assert (One : (totalWeight profiles / totalWeight profiles == 1)%Q).
    { field. lra. }
    rewrite One in U. lra.
Qed.

Lemma derive_in_range_witness :
  exists r,
    deriveTasteFromInspirations
      (Some [ named "vercel" 1;
              {| type := "url"; value := "https://www.stripe.com";
                 weight := None |};
              figmaFile ]) = Ok r
    /\ forall c, exists q, field c r = Some q /\ (0 <= q <= 1)%Q.
Proof.
  apply (derive_in_range
           [ named "vercel" 1;
             {| type := "url"; value := "https://www.stripe.com";
                weight := None |};
             figmaFile ]).
  - discriminate.
  - intros i w [<-|[<-|[<-|[]]]]; cbn [weight named figmaFile];
      intros [= <-]. split; vm_compute; discriminate.
  - intros i [<-|[<-|[<-|[]]]]; split; vm_compute;
      intuition discriminate.
Defined.

End DerivedRange.
